(** * Doubt-session chat core of the LMS backend

    A shallow embedding of the doubt-resolution chat subsystem:

    - [models/Doubt.js], [models/ChatMessage.js], [models/User.js] and
      [models/School.js] (the schemas, their setters and validators),
    - [middleware/authMiddleware.js], the role middlewares and
      [isParticipantInDoubtSession],
    - [routes/doubtRoutes.js], which puts the middlewares in front of the
      handlers,
    - [controllers/doubtController.js], the handlers
      [initiateDoubtSession], [getDoubtSessionMessages],
      [sendDoubtMessage], [closeDoubtSession], the listings and
      [submitAiFeedback], together with the two [setTimeout] callbacks
      that stand in for the AI service.

    Modelling conventions.

    - A MongoDB collection is a list of documents in insertion order;
      [findById] and [findOne] return the first match.
    - [ObjectId]s are natural numbers; every id is well formed, so the
      cast errors of malformed ids are outside the model.
    - A request handler runs as one atomic step over the [World]; the
      only code that runs later is a [setTimeout] callback, kept in the
      world's [timers] until the event loop fires it.
    - Storage and transport are reliable inside a request handler.  The
      delayed AI callbacks take a [Fault] telling which statement of their
      [try] block throws, because their [catch] blocks are part of the
      behaviour under study.
    - A mongoose document held by a handler or a callback is a [Doc]: the
      in-memory copy plus the modified-path marks that decide what
      [save] writes.
    - A string is kept as its UTF-8 bytes.  Lengths and positions count
      UTF-16 code units, as JavaScript does, and [trim] strips the white
      space and line terminators of ECMAScript.
    - Request bodies are well typed: a field holds a value of its type
      (a string, an id, a boolean) or is absent.  [null] and values of
      other types in a body are outside the model. *)

From Stdlib Require Import ZArith List String Ascii Bool Arith Lia.
From Stdlib Require Import Sorted Permutation.
Import ListNotations.

Local Open Scope string_scope.
Local Open Scope Z_scope.

(** ** JavaScript values *)

Definition ObjectId := nat.
Definition Date := Z.

(** Truthiness of a string-or-undefined value: [undefined], [null] and
    the empty string are falsy. *)
Definition truthy (v : option string) : bool :=
  match v with
  | Some s => negb (String.eqb s "")
  | None => false
  end.

(** Interpolation of a value inside a template literal. *)
Definition interpolate (v : option string) : string :=
  match v with
  | Some s => s
  | None => "undefined"
  end.

Definition dquote : string := String "034"%char EmptyString.
Definition rsquo : string :=
  String "226"%char (String "128"%char (String "153"%char EmptyString)).

(** The white space and line terminator code points of ECMAScript, by
    their UTF-8 bytes: TAB, LF, VT, FF, CR and SP in one byte, *)
Definition isSpace (c : ascii) : bool :=
  Ascii.eqb c " "%char || Ascii.eqb c "009"%char || Ascii.eqb c "010"%char
  || Ascii.eqb c "011"%char || Ascii.eqb c "012"%char || Ascii.eqb c "013"%char.

(** U+00A0 in two bytes, *)
Definition isSpace2 (a b : ascii) : bool :=
  Ascii.eqb a "194"%char && Ascii.eqb b "160"%char.

(** U+1680, U+2000 to U+200A, U+2028, U+2029, U+202F, U+205F, U+3000 and
    U+FEFF in three bytes. *)
Definition isSpace3 (a b c : ascii) : bool :=
  let z := nat_of_ascii c in
  (Ascii.eqb a "225"%char && Ascii.eqb b "154"%char && Nat.eqb z 128)
  || (Ascii.eqb a "226"%char && Ascii.eqb b "128"%char
      && ((Nat.leb 128 z && Nat.leb z 138) || Nat.eqb z 168
          || Nat.eqb z 169 || Nat.eqb z 175))
  || (Ascii.eqb a "226"%char && Ascii.eqb b "129"%char && Nat.eqb z 159)
  || (Ascii.eqb a "227"%char && Ascii.eqb b "128"%char && Nat.eqb z 128)
  || (Ascii.eqb a "239"%char && Ascii.eqb b "187"%char && Nat.eqb z 191).

Fixpoint trimStart (s : string) : string :=
  match s with
  | EmptyString => EmptyString
  | String a r1 =>
      if isSpace a then trimStart r1
      else
        match r1 with
        | EmptyString => s
        | String b r2 =>
            if isSpace2 a b then trimStart r2
            else
              match r2 with
              | EmptyString => s
              | String c r3 => if isSpace3 a b c then trimStart r3 else s
              end
        end
  end.

Fixpoint reverse (s acc : string) : string :=
  match s with
  | EmptyString => acc
  | String c r => reverse r (String c acc)
  end.

(** [trimStart] on the reversed string: the bytes of a code point come
    last byte first. *)
Fixpoint trimStartReversed (s : string) : string :=
  match s with
  | EmptyString => EmptyString
  | String a r1 =>
      if isSpace a then trimStartReversed r1
      else
        match r1 with
        | EmptyString => s
        | String b r2 =>
            if isSpace2 b a then trimStartReversed r2
            else
              match r2 with
              | EmptyString => s
              | String c r3 =>
                  if isSpace3 c b a then trimStartReversed r3 else s
              end
        end
  end.

Definition trimEnd (s : string) : string :=
  reverse (trimStartReversed (reverse s EmptyString)) EmptyString.

(** [String.prototype.trim], also the [trim] setter of a schema path. *)
Definition trim (s : string) : string := trimEnd (trimStart s).

(** The UTF-16 code units of the code point a byte starts: none for a
    continuation byte, two for the first byte of a four-byte sequence,
    one otherwise. *)
Definition units (c : ascii) : nat :=
  let n := nat_of_ascii c in
  if Nat.leb 128 n && Nat.ltb n 192 then 0%nat
  else if Nat.leb 240 n then 2%nat else 1%nat.

(** [s.length] *)
Fixpoint jsLength (s : string) : nat :=
  match s with
  | EmptyString => 0%nat
  | String c r => (units c + jsLength r)%nat
  end.

(** The first half of the surrogate pair of the four-byte sequence that
    starts with [b0] and goes on with [r], in the three bytes of the
    generalised encoding. *)
Definition highSurrogate (b0 : ascii) (r : string) : string :=
  match r with
  | String b1 (String b2 _) =>
      let top := ((N_of_ascii b0 mod 8) * 256
                  + (N_of_ascii b1 mod 64) * 4
                  + (N_of_ascii b2 mod 64) / 16)%N in
      let hs := (55296 + (top - 64))%N in
      String "237"%char
        (String (ascii_of_N (128 + (hs / 64) mod 64)%N)
           (String (ascii_of_N (128 + hs mod 64)%N) EmptyString))
  | _ => EmptyString
  end.

(** [s.substring(0, n)]: the code points of the first [n] code units;
    when the cut falls inside a surrogate pair its first half is kept. *)
Fixpoint substring0 (n : nat) (s : string) : string :=
  match s with
  | EmptyString => EmptyString
  | String c r =>
      match units c, n with
      | O, _ => String c (substring0 n r)
      | _, O => EmptyString
      | S O, S n' => String c (substring0 n' r)
      | _, S O => highSurrogate c r
      | _, S (S n') => String c (substring0 n' r)
      end
  end.

(** [s.substring(0, n) + (s.length > n ? '...' : '')] *)
Definition excerpt (n : nat) (s : string) : string :=
  (substring0 n s ++ (if Nat.ltb n (jsLength s) then "..." else ""))%string.

(** ** Schemas *)

(** [req.user.role]: the [User] enum plus the principal token role. *)
Inductive Role := admin | trainer | student | principal.

(** [doubtSessionSchema.doubtType] *)
Inductive DoubtType := trainerDoubt | aiDoubt.

(** [doubtSessionSchema.status] *)
Inductive Status := pending | in_progress | resolved | closed | cancelled.

(** [chatMessageSchema.senderRole] *)
Inductive SenderRole := fromStudent | fromTrainer | fromAi | fromSystem.

Definition Role_eqb (a b : Role) : bool :=
  match a, b with
  | admin, admin | trainer, trainer | student, student
  | principal, principal => true
  | _, _ => false
  end.

Definition DoubtType_eqb (a b : DoubtType) : bool :=
  match a, b with
  | trainerDoubt, trainerDoubt | aiDoubt, aiDoubt => true
  | _, _ => false
  end.

Definition Status_eqb (a b : Status) : bool :=
  match a, b with
  | pending, pending | in_progress, in_progress | resolved, resolved
  | closed, closed | cancelled, cancelled => true
  | _, _ => false
  end.

(** The string a status is stored and queried as. *)
Definition statusName (s : Status) : string :=
  match s with
  | pending => "pending"
  | in_progress => "in_progress"
  | resolved => "resolved"
  | closed => "closed"
  | cancelled => "cancelled"
  end.

(** The [enum] validator of [senderRole]: a role outside the enum has no
    image and makes [save] reject the document. *)
Definition senderRoleOf (r : Role) : option SenderRole :=
  match r with
  | student => Some fromStudent
  | trainer => Some fromTrainer
  | admin | principal => None
  end.

(** [models/User.js], the fields the chat core reads. *)
Record User := {
  u_id : ObjectId;
  u_name : string;
  u_role : Role;
  u_school : option string;
  u_grade : option Z
}.

(** [models/School.js], the fields the chat core reads; [schoolName] is
    declared with [trim: true]. *)
Record School := {
  sc_id : ObjectId;
  sc_schoolName : string
}.

(** Modelled from the spec: [models/Session.js] is not part of the
    sources.  A curriculum document of a grade carries the topics as
    sub-documents, each with its own id. *)
Record Session := {
  se_id : ObjectId;
  se_grade : Z;
  se_sessions : list ObjectId
}.

(** [models/Doubt.js] *)
Record DoubtSession := {
  ds_id : ObjectId;
  ds_student : ObjectId;
  ds_trainer : option ObjectId;
  ds_grade : Z;
  ds_school : ObjectId;
  ds_session : option ObjectId;
  ds_initialDoubtText : string;
  ds_doubtType : DoubtType;
  ds_status : Status;
  ds_lastMessageAt : Date;
  ds_aiHelpful : option bool;
  ds_aiFeedbackText : option string;
  ds_createdAt : Date;
  ds_updatedAt : Date
}.

(** [models/ChatMessage.js] *)
Record ChatMessage := {
  cm_id : ObjectId;
  cm_doubtSession : ObjectId;
  cm_sender : option ObjectId;
  cm_senderRole : SenderRole;
  cm_messageText : option string;
  cm_attachmentUrl : option string;
  cm_createdAt : Date
}.

(** A mongoose document in memory.  Assigning a path marks it modified
    only when the value changes; [save] writes the marked paths. *)
Record Doc := {
  d_val : DoubtSession;
  d_modStatus : bool;
  d_modLastMessageAt : bool
}.

Definition withStatus (s : DoubtSession) (v : Status) : DoubtSession :=
  {| ds_id := ds_id s; ds_student := ds_student s; ds_trainer := ds_trainer s;
     ds_grade := ds_grade s; ds_school := ds_school s;
     ds_session := ds_session s;
     ds_initialDoubtText := ds_initialDoubtText s;
     ds_doubtType := ds_doubtType s; ds_status := v;
     ds_lastMessageAt := ds_lastMessageAt s; ds_aiHelpful := ds_aiHelpful s;
     ds_aiFeedbackText := ds_aiFeedbackText s;
     ds_createdAt := ds_createdAt s; ds_updatedAt := ds_updatedAt s |}.

Definition withLastMessageAt (s : DoubtSession) (v : Date) : DoubtSession :=
  {| ds_id := ds_id s; ds_student := ds_student s; ds_trainer := ds_trainer s;
     ds_grade := ds_grade s; ds_school := ds_school s;
     ds_session := ds_session s;
     ds_initialDoubtText := ds_initialDoubtText s;
     ds_doubtType := ds_doubtType s; ds_status := ds_status s;
     ds_lastMessageAt := v; ds_aiHelpful := ds_aiHelpful s;
     ds_aiFeedbackText := ds_aiFeedbackText s;
     ds_createdAt := ds_createdAt s; ds_updatedAt := ds_updatedAt s |}.

Definition withUpdatedAt (s : DoubtSession) (v : Date) : DoubtSession :=
  {| ds_id := ds_id s; ds_student := ds_student s; ds_trainer := ds_trainer s;
     ds_grade := ds_grade s; ds_school := ds_school s;
     ds_session := ds_session s;
     ds_initialDoubtText := ds_initialDoubtText s;
     ds_doubtType := ds_doubtType s; ds_status := ds_status s;
     ds_lastMessageAt := ds_lastMessageAt s; ds_aiHelpful := ds_aiHelpful s;
     ds_aiFeedbackText := ds_aiFeedbackText s;
     ds_createdAt := ds_createdAt s; ds_updatedAt := v |}.

(** A document as a query returns it: nothing modified yet. *)
Definition loaded (s : DoubtSession) : Doc :=
  {| d_val := s; d_modStatus := false; d_modLastMessageAt := false |}.

(** [doc.status = v] *)
Definition setStatus (d : Doc) (v : Status) : Doc :=
  if Status_eqb (ds_status (d_val d)) v then d
  else {| d_val := withStatus (d_val d) v; d_modStatus := true;
          d_modLastMessageAt := d_modLastMessageAt d |}.

(** [doc.lastMessageAt = v] *)
Definition setLastMessageAt (d : Doc) (v : Date) : Doc :=
  if ds_lastMessageAt (d_val d) =? v then d
  else {| d_val := withLastMessageAt (d_val d) v;
          d_modStatus := d_modStatus d; d_modLastMessageAt := true |}.

(** ** The world: collections, relay, timers, clock *)

(** Events handed to the socket layer ([io.to(room).emit(name, data)]). *)
Inductive Event :=
| newDoubtSession (room doubtSessionId : ObjectId)
    (studentName initialDoubt : string) (schoolName : option string)
    (grade : option Z)
| newMessage (room : ObjectId) (message : ChatMessage)
| newNotification (room id : ObjectId) (message question : string)
    (timeAsked : Date) (doubtSessionId : ObjectId)
| doubtSessionClosed (room doubtSessionId : ObjectId)
    (closedBy status : string).

(** The two [setTimeout] callbacks, with the variables they close over. *)
Inductive Task :=
| aiAnswer (doubtSession : Doc) (studentName initialDoubtText : string)
| aiFollowUp (doubtSession : Doc) (messageText : option string).

Record Timer := {
  tm_id : nat;
  tm_due : Date;
  tm_task : Task
}.

Record World := {
  users : list User;
  schools : list School;
  sessions : list Session;
  doubts : list DoubtSession;
  messages : list ChatMessage;
  timers : list Timer;
  events : list Event;
  clock : Date;
  nextId : nat
}.

Definition withDoubts (w : World) (v : list DoubtSession) : World :=
  {| users := users w; schools := schools w; sessions := sessions w;
     doubts := v; messages := messages w; timers := timers w;
     events := events w; clock := clock w; nextId := nextId w |}.

Definition withMessages (w : World) (v : list ChatMessage) : World :=
  {| users := users w; schools := schools w; sessions := sessions w;
     doubts := doubts w; messages := v; timers := timers w;
     events := events w; clock := clock w; nextId := nextId w |}.

Definition withTimers (w : World) (v : list Timer) : World :=
  {| users := users w; schools := schools w; sessions := sessions w;
     doubts := doubts w; messages := messages w; timers := v;
     events := events w; clock := clock w; nextId := nextId w |}.

Definition withEvents (w : World) (v : list Event) : World :=
  {| users := users w; schools := schools w; sessions := sessions w;
     doubts := doubts w; messages := messages w; timers := timers w;
     events := v; clock := clock w; nextId := nextId w |}.

Definition withNextId (w : World) (v : nat) : World :=
  {| users := users w; schools := schools w; sessions := sessions w;
     doubts := doubts w; messages := messages w; timers := timers w;
     events := events w; clock := clock w; nextId := v |}.

Definition withClock (w : World) (v : Date) : World :=
  {| users := users w; schools := schools w; sessions := sessions w;
     doubts := doubts w; messages := messages w; timers := timers w;
     events := events w; clock := v; nextId := nextId w |}.

(** ** Computations that may throw *)

Inductive Outcome (S A : Type) :=
| Return (a : A) (s : S)
| Throw (s : S).
Arguments Return {S A} a s.
Arguments Throw {S A} s.

Definition M (S A : Type) := S -> Outcome S A.

Definition ret {S A} (a : A) : M S A := fun s => Return a s.

Definition bind {S A B} (m : M S A) (k : A -> M S B) : M S B :=
  fun s => match m s with
           | Return a s' => k a s'
           | Throw s' => Throw s'
           end.

Definition throw {S A} : M S A := fun s => Throw s.

(** [try { body } catch { handler }] *)
Definition tryCatch {S A} (body handler : M S A) : M S A :=
  fun s => match body s with
           | Return a s' => Return a s'
           | Throw s' => handler s'
           end.

Declare Scope js_scope.
Delimit Scope js_scope with js.
Notation "x <- m ;; k" := (bind m (fun x => k))
  (at level 61, m at next level, right associativity) : js_scope.
Notation "m ;; k" := (bind m (fun _ => k))
  (at level 61, right associativity) : js_scope.
Local Open Scope js_scope.

(** ** Queries and writes *)

Definition findById {A} (idOf : A -> ObjectId) (l : list A) (i : ObjectId)
  : option A :=
  find (fun x => Nat.eqb (idOf x) i) l.

(** [School.findOne({ schoolName: name })]: the filter value is cast
    with the setters of the path, so the name is trimmed before the
    stored names are compared with it. *)
Definition findSchoolByName (l : list School) (name : string)
  : option School :=
  find (fun s => String.eqb (sc_schoolName s) (trim name)) l.

(** [Session.findOne({ 'sessions._id': sessionId })] *)
Definition findSessionByTopic (l : list Session) (topic : ObjectId)
  : option Session :=
  find (fun s => existsb (Nat.eqb topic) (se_sessions s)) l.

(** [new Date()] *)
Definition newDate : M World Date := fun w => Return (clock w) w.

(** A fresh [ObjectId] (or timer handle). *)
Definition freshId : M World ObjectId :=
  fun w => Return (nextId w) (withNextId w (S (nextId w))).

(** [io.to(room).emit(...)]; [server.js] initialises the socket layer
    before the server listens, so [getIo] does not throw. *)
Definition emit (e : Event) : M World unit :=
  fun w => Return tt (withEvents w (events w ++ [e])).

(** [setTimeout(callback, delay)]: the handle is dropped by the caller. *)
Definition setTimeout (t : Task) (delay : Z) : M World unit :=
  fun w =>
    Return tt
      (withNextId
         (withTimers w
            (timers w
             ++ [{| tm_id := nextId w; tm_due := clock w + delay;
                    tm_task := t |}]))
         (S (nextId w))).

(** The arguments of [new ChatMessage({...})]. *)
Record ChatMessageInput := {
  i_doubtSession : ObjectId;
  i_sender : option ObjectId;
  i_senderRole : option SenderRole;
  i_messageText : option string;
  i_attachmentUrl : option string
}.

(** [messageText] is required exactly when [attachmentUrl] is falsy, and
    a required string must not be empty. *)
Definition messageTextValid (text att : option string) : bool :=
  if negb (truthy att) then truthy text else true.

(** [await new ChatMessage(i).save()] *)
Definition saveChatMessage (i : ChatMessageInput) : M World ChatMessage :=
  match i_senderRole i with
  | None => throw
  | Some role =>
      if messageTextValid (i_messageText i) (i_attachmentUrl i) then
        id <- freshId ;;
        now <- newDate ;;
        let m := {| cm_id := id; cm_doubtSession := i_doubtSession i;
                    cm_sender := i_sender i; cm_senderRole := role;
                    cm_messageText := i_messageText i;
                    cm_attachmentUrl := i_attachmentUrl i;
                    cm_createdAt := now |} in
        fun w => Return m (withMessages w (messages w ++ [m]))
      else throw
  end.

(** The arguments of [new DoubtSession({...})]. *)
Record DoubtSessionInput := {
  n_student : ObjectId;
  n_trainer : option ObjectId;
  n_grade : option Z;
  n_school : ObjectId;
  n_session : option ObjectId;
  n_initialDoubtText : string;
  n_doubtType : DoubtType;
  n_status : Status;
  n_lastMessageAt : Date
}.

(** The [required] validators of [doubtSessionSchema]; [initialDoubtText]
    is checked after its [trim] setter ran. *)
Definition doubtSessionValid (n : DoubtSessionInput) : bool :=
  match n_grade n with Some _ => true | None => false end
  && negb (String.eqb (trim (n_initialDoubtText n)) "")
  && (if DoubtType_eqb (n_doubtType n) trainerDoubt
      then match n_session n with Some _ => true | None => false end
      else true).

(** [await new DoubtSession(n).save()] *)
Definition saveNewDoubtSession (n : DoubtSessionInput) : M World Doc :=
  match n_grade n with
  | Some g =>
      if doubtSessionValid n then
        id <- freshId ;;
        now <- newDate ;;
        let s := {| ds_id := id; ds_student := n_student n;
                    ds_trainer := n_trainer n; ds_grade := g;
                    ds_school := n_school n; ds_session := n_session n;
                    ds_initialDoubtText := trim (n_initialDoubtText n);
                    ds_doubtType := n_doubtType n; ds_status := n_status n;
                    ds_lastMessageAt := n_lastMessageAt n;
                    ds_aiHelpful := None; ds_aiFeedbackText := None;
                    ds_createdAt := now; ds_updatedAt := now |} in
        fun w => Return (loaded s) (withDoubts w (doubts w ++ [s]))
      else throw
  | None => throw
  end.

(** What [save] writes into the stored document [r] for the in-memory
    document [d]: the modified paths and the [updatedAt] timestamp. *)
Definition writeBack (d : Doc) (now : Date) (r : DoubtSession)
  : DoubtSession :=
  let r1 := if d_modStatus d then withStatus r (ds_status (d_val d)) else r in
  let r2 := if d_modLastMessageAt d
            then withLastMessageAt r1 (ds_lastMessageAt (d_val d)) else r1 in
  withUpdatedAt r2 now.

Definition updateById (i : ObjectId) (f : DoubtSession -> DoubtSession)
  (l : list DoubtSession) : list DoubtSession :=
  map (fun r => if Nat.eqb (ds_id r) i then f r else r) l.

(** [await doc.save()] on a document that came from the store: nothing
    is sent when no path is modified; otherwise the modified paths are
    written to the stored document of the same id, and the call throws
    when there is none. *)
Definition save (d : Doc) : M World Doc :=
  if d_modStatus d || d_modLastMessageAt d then
    fun w =>
      match findById ds_id (doubts w) (ds_id (d_val d)) with
      | None => Throw w
      | Some _ =>
          Return (loaded (withUpdatedAt (d_val d) (clock w)))
            (withDoubts w
               (updateById (ds_id (d_val d)) (writeBack d (clock w))
                  (doubts w)))
      end
  else ret d.

Definition getWorld : M World World := fun w => Return w w.

(** The string behind a truthy value. *)
Definition nonEmpty (v : option string) : option string :=
  match v with
  | Some s => if String.eqb s "" then None else Some s
  | None => None
  end.

(** Stable insertion sort by an integer key, ascending
    ([.sort('createdAt')]); a descending sort negates the key. *)
Fixpoint insertBy {A} (key : A -> Z) (x : A) (l : list A) : list A :=
  match l with
  | [] => [x]
  | y :: r => if key x <? key y then x :: l else y :: insertBy key x r
  end.

Definition sortBy {A} (key : A -> Z) (l : list A) : list A :=
  fold_left (fun acc x => insertBy key x acc) l [].

(** ** Requests and responses *)

(** [req.user], as the [auth] middleware leaves it. *)
Record AuthUser := {
  user_id : ObjectId;
  user_role : Role;
  user_name : string
}.

(** A request on [/:doubtSessionId/...]; [doubtSession] is
    [req.doubtSession], undefined until a middleware assigns it. *)
Record Request := {
  user : AuthUser;
  doubtSessionId : ObjectId;
  doubtSession : option Doc
}.

Definition request (u : AuthUser) (i : ObjectId) : Request :=
  {| user := u; doubtSessionId := i; doubtSession := None |}.

Record InitiateBody := {
  b_doubtType : option string;
  b_trainerId : option ObjectId;
  b_sessionId : option ObjectId;
  b_initialDoubtText : option string;
  b_attachmentUrl : option string
}.

Record MessageBody := {
  mb_messageText : option string;
  mb_attachmentUrl : option string
}.

Inductive Json :=
| msgOnly (msg : string)
| initiated (msg : string) (doubtSessionId : ObjectId)
    (initialMessage : ChatMessage) (aiInitialResponse : option string)
| messageJson (message : ChatMessage)
| messagesJson (l : list ChatMessage)
| closedJson (msg : string) (doubtSession : DoubtSession)
| sessionsJson (l : list DoubtSession).

Record Response := {
  statusCode : nat;
  body : Json
}.

Definition respond (c : nat) (m : string) : Response :=
  {| statusCode := c; body := msgOnly m |}.

(** ** Authorization guard *)

Definition isStudentParticipant (s : DoubtSession) (userId : ObjectId)
  : bool :=
  Nat.eqb (ds_student s) userId.

(** [doubtSession.trainer && doubtSession.trainer.equals(userId)] *)
Definition isTrainerParticipant (s : DoubtSession) (userId : ObjectId)
  : bool :=
  match ds_trainer s with
  | Some t => Nat.eqb t userId
  | None => false
  end.

(** The middleware answers itself ([inl]) or calls [next()] ([inr]) with
    the request as it leaves it.  The admin branch calls [next()] before
    the session is loaded, so [req.doubtSession] stays undefined. *)
Definition isParticipantInDoubtSession (req : Request)
  : M World (Response + Request) :=
  tryCatch
    (if Role_eqb (user_role (user req)) admin then ret (inr req)
     else
       w <- getWorld ;;
       match findById ds_id (doubts w) (doubtSessionId req) with
       | None =>
           ret (inl (respond 404
                       "Doubt session not found for authorization check."))
       | Some s =>
           if negb (isStudentParticipant s (user_id (user req)))
              && negb (isTrainerParticipant s (user_id (user req)))
           then ret (inl (respond 403
                            "Not authorized to access this doubt session."))
           else ret (inr {| user := user req;
                            doubtSessionId := doubtSessionId req;
                            doubtSession := Some (loaded s) |})
       end)
    (ret (inl (respond 500 "Server error during authorization check."))).

(** The role middlewares of [middleware/authMiddleware.js].  They run
    after [auth], which has set [req.user]; [None] stands for [next()]. *)
Definition isStudent (u : AuthUser) : option Response :=
  if Role_eqb (user_role u) student then None
  else Some (respond 403 "Student role required").

Definition isTrainerOrAdmin (u : AuthUser) : option Response :=
  if Role_eqb (user_role u) trainer || Role_eqb (user_role u) admin
     || Role_eqb (user_role u) principal
  then None
  else Some (respond 403 "Trainer or Admin role required").

Definition isAdmin (u : AuthUser) : option Response :=
  if Role_eqb (user_role u) admin then None
  else Some (respond 403 "Admin role required").

(** ** Routes *)

(** [routes/doubtRoutes.js],
    [router.METHOD(path, auth, middleware, handler)] for a role
    middleware. *)
Definition withRole (middleware : AuthUser -> option Response)
  (u : AuthUser) (handler : M World Response) : M World Response :=
  match middleware u with
  | Some response => ret response
  | None => handler
  end.

(** [routes/doubtRoutes.js],
    [router.METHOD('/:doubtSessionId/...', auth,
    isParticipantInDoubtSession, handler)]: the three session-scoped
    routes (messages, send, close).  The handler receives the request
    object as the middleware leaves it. *)
Definition guarded (handler : Request -> M World Response) (req : Request)
  : M World Response :=
  r <- isParticipantInDoubtSession req ;;
  match r with
  | inl response => ret response
  | inr req' => handler req'
  end.

(** ** Handlers *)

Definition terminalOrResolved (s : Status) : bool :=
  Status_eqb s resolved || Status_eqb s closed || Status_eqb s cancelled.

(** [exports.closeDoubtSession] *)
Definition closeDoubtSession (req : Request) : M World Response :=
  tryCatch
    (match doubtSession req with
     | None => throw
     | Some d =>
         if Status_eqb (ds_status (d_val d)) closed
            || Status_eqb (ds_status (d_val d)) resolved
            || Status_eqb (ds_status (d_val d)) cancelled
         then ret (respond 400
                "Doubt session is already closed, resolved, or cancelled.")
         else
           let isAdmin := Role_eqb (user_role (user req)) admin in
           if negb isAdmin
              && negb (isStudentParticipant (d_val d) (user_id (user req)))
              && negb (isTrainerParticipant (d_val d) (user_id (user req)))
           then ret (respond 403
                  "Only the student who opened the doubt, the assigned trainer, or an admin can close this session.")
           else
             d' <- save (setStatus d closed) ;;
             emit (doubtSessionClosed (doubtSessionId req)
                     (doubtSessionId req) (user_name (user req)) "closed") ;;
             ret {| statusCode := 200;
                    body := closedJson "Doubt session closed successfully."
                              (d_val d') |}
     end)
    (ret (respond 500 "Server error closing session.")).

(** [exports.getDoubtSessionMessages]; [populate] only decorates the
    sender and is left out. *)
Definition getDoubtSessionMessages (req : Request) : M World Response :=
  tryCatch
    (w <- getWorld ;;
     ret {| statusCode := 200;
            body := messagesJson
                      (sortBy cm_createdAt
                         (filter (fun m => Nat.eqb (cm_doubtSession m)
                                             (doubtSessionId req))
                            (messages w))) |})
    (ret (respond 500 "Server error fetching messages.")).

(** [exports.getTrainerDoubtSessions] *)
Definition getTrainerDoubtSessions (u : AuthUser) : M World Response :=
  tryCatch
    (w <- getWorld ;;
     ret {| statusCode := 200;
            body := sessionsJson
                      (sortBy (fun s => - ds_updatedAt s)
                         (filter
                            (fun s =>
                               match ds_trainer s with
                               | Some t => Nat.eqb t (user_id u)
                               | None => false
                               end
                               && existsb
                                    (String.eqb (statusName (ds_status s)))
                                    ["pending"; "open"])
                            (doubts w))) |})
    (ret (respond 500 "Server error while fetching sessions")).

(** [exports.sendDoubtMessage].  The re-read of the saved message only
    populates the sender's name and picture, and the conversation history
    collected before the timer is set is never used; both are left out. *)
Definition sendDoubtMessage (b : MessageBody) (req : Request)
  : M World Response :=
  let userId := user_id (user req) in
  let userRole := user_role (user req) in
  if negb (truthy (mb_messageText b)) && negb (truthy (mb_attachmentUrl b))
  then ret (respond 400 "Message text or attachment URL is required.")
  else
    tryCatch
      (match doubtSession req with
       | None => throw
       | Some d =>
           let aiStudent :=
             DoubtType_eqb (ds_doubtType (d_val d)) aiDoubt
             && Role_eqb userRole student in
           gate <-
             (if terminalOrResolved (ds_status (d_val d)) then
                if aiStudent then
                  now <- newDate ;;
                  d' <- save (setLastMessageAt (setStatus d in_progress)
                                now) ;;
                  ret (inr d')
                else
                  ret (inl (respond 400
                    "Cannot send messages to a closed or resolved session."))
              else ret (inr d)) ;;
           match gate with
           | inl response => ret response
           | inr d1 =>
               chatMessage <-
                 saveChatMessage
                   {| i_doubtSession := ds_id (d_val d1);
                      i_sender := Some userId;
                      i_senderRole := senderRoleOf userRole;
                      i_messageText := mb_messageText b;
                      i_attachmentUrl := mb_attachmentUrl b |} ;;
               now <- newDate ;;
               let d2 := setLastMessageAt d1 now in
               let d3 :=
                 if Role_eqb userRole trainer
                    && Status_eqb (ds_status (d_val d2)) pending
                 then setStatus d2 in_progress else d2 in
               d4 <- save d3 ;;
               emit (newMessage (doubtSessionId req) chatMessage) ;;
               (if Role_eqb userRole trainer then
                  id <- freshId ;;
                  asked <- newDate ;;
                  emit (newNotification (ds_student (d_val d4)) id
                          ("You have a new reply from "
                           ++ user_name (user req))%string
                          (substring0 50 (ds_initialDoubtText (d_val d4))
                           ++ "...")%string
                          asked (ds_id (d_val d4)))
                else ret tt) ;;
               (if aiStudent then
                  setTimeout (aiFollowUp d4 (mb_messageText b)) 3000
                else ret tt) ;;
               ret {| statusCode := 201; body := messageJson chatMessage |}
           end
       end)
      (ret (respond 500 "Server error sending message.")).

Definition schoolNotFound (schoolName : string) : string :=
  ("The school " ++ dquote ++ schoolName ++ dquote
   ++ " associated with your account could not be found in the system. Please contact support.")%string.

(** [exports.initiateDoubtSession]; [u] is [req.user]. *)
Definition initiateDoubtSession (u : AuthUser) (b : InitiateBody)
  : M World Response :=
  match nonEmpty (b_doubtType b), nonEmpty (b_initialDoubtText b) with
  | Some doubtType, Some initialDoubtText =>
      w <- getWorld ;;
      match findById u_id (users w) (user_id u) with
      | None => ret (respond 404 "Authenticated student not found.")
      | Some studentUser =>
          match nonEmpty (u_school studentUser) with
          | None =>
              ret (respond 400
                "Your student profile is missing assigned school information. Please contact support.")
          | Some schoolName =>
              match findSchoolByName (schools w) schoolName with
              | None => ret (respond 400 (schoolNotFound schoolName))
              | Some schoolDoc =>
                  let schoolObjectId := sc_id schoolDoc in
                  tryCatch
                    (if String.eqb doubtType "trainer" then
                       match b_trainerId b, b_sessionId b with
                       | Some trainerId, Some sessionId =>
                           match findById u_id (users w) trainerId with
                           | None =>
                               ret (respond 400 "Invalid trainer selected.")
                           | Some trainerUser =>
                               if negb (Role_eqb (u_role trainerUser) trainer)
                               then
                                 ret (respond 400 "Invalid trainer selected.")
                               else
                                 match findSessionByTopic (sessions w)
                                         sessionId with
                                 | None =>
                                     ret (respond 400
                                            "Invalid session selected.")
                                 | Some _ =>
                                     now <- newDate ;;
                                     d <- saveNewDoubtSession
                                            {| n_student := u_id studentUser;
                                               n_trainer :=
                                                 Some (u_id trainerUser);
                                               n_grade := u_grade studentUser;
                                               n_school := schoolObjectId;
                                               n_session := Some sessionId;
                                               n_initialDoubtText :=
                                                 initialDoubtText;
                                               n_doubtType := trainerDoubt;
                                               n_status := pending;
                                               n_lastMessageAt := now |} ;;
                                     initialChatMessage <-
                                       saveChatMessage
                                         {| i_doubtSession := ds_id (d_val d);
                                            i_sender :=
                                              Some (u_id studentUser);
                                            i_senderRole := Some fromStudent;
                                            i_messageText :=
                                              Some initialDoubtText;
                                            i_attachmentUrl :=
                                              b_attachmentUrl b |} ;;
                                     emit (newDoubtSession trainerId
                                             (ds_id (d_val d))
                                             (u_name studentUser)
                                             (excerpt 100 initialDoubtText)
                                             (u_school studentUser)
                                             (u_grade studentUser)) ;;
                                     ret {| statusCode := 201;
                                            body :=
                                              initiated
                                                "Doubt session initiated with trainer."
                                                (ds_id (d_val d))
                                                initialChatMessage None |}
                                 end
                           end
                       | _, _ =>
                           ret (respond 400
                             "Trainer ID and Session ID are required for trainer doubts.")
                       end
                     else if String.eqb doubtType "ai" then
                       now <- newDate ;;
                       d <- saveNewDoubtSession
                              {| n_student := u_id studentUser;
                                 n_trainer := None;
                                 n_grade := u_grade studentUser;
                                 n_school := schoolObjectId;
                                 n_session := None;
                                 n_initialDoubtText := initialDoubtText;
                                 n_doubtType := aiDoubt;
                                 n_status := in_progress;
                                 n_lastMessageAt := now |} ;;
                       initialChatMessage <-
                         saveChatMessage
                           {| i_doubtSession := ds_id (d_val d);
                              i_sender := Some (u_id studentUser);
                              i_senderRole := Some fromStudent;
                              i_messageText := Some initialDoubtText;
                              i_attachmentUrl := b_attachmentUrl b |} ;;
                       setTimeout
                         (aiAnswer d (u_name studentUser) initialDoubtText)
                         5000 ;;
                       ret {| statusCode := 201;
                              body :=
                                initiated "Doubt session initiated with AI."
                                  (ds_id (d_val d)) initialChatMessage
                                  (Some "I'm processing your doubt...") |}
                     else ret (respond 400 "Invalid doubt type."))
                    (ret (respond 500
                            "Server error during doubt session initiation."))
              end
          end
      end
  | _, _ => ret (respond 400 "Doubt type and initial doubt text are required.")
  end.

(** ** The simulated responder *)

(** Which statement of a callback's [try] block throws, if any. *)
Inductive Fault := noFault | atMessageSave | atSessionSave | atEmit.

Definition Fault_eqb (a b : Fault) : bool :=
  match a, b with
  | noFault, noFault | atMessageSave, atMessageSave
  | atSessionSave, atSessionSave | atEmit, atEmit => true
  | _, _ => false
  end.

(** A callback runs over the world and the document it closed over: the
    document is one object, assigned in the [try] block and again in the
    [catch] block. *)
Definition Frame : Type := Doc * World.

Definition inWorld {A} (m : M World A) : M Frame A :=
  fun '(d, w) => match m w with
                 | Return a w' => Return a (d, w')
                 | Throw w' => Throw (d, w')
                 end.

Definition theDoc : M Frame Doc := fun '(d, w) => Return d (d, w).

Definition assign (f : Doc -> Doc) : M Frame unit :=
  fun '(d, w) => Return tt (f d, w).

(** [await doubtSession.save()] inside a callback. *)
Definition saveTheDoc : M Frame unit :=
  fun '(d, w) => match save d w with
                 | Return d' w' => Return tt (d', w')
                 | Throw w' => Throw (d, w')
                 end.

Definition faultAt (f here : Fault) : M Frame unit :=
  if Fault_eqb f here then throw else ret tt.

Definition aiAnswerText (studentName initialDoubtText : string) : string :=
  ("Hello " ++ studentName
   ++ ", I'm the AI assistant! Regarding your doubt: " ++ dquote
   ++ initialDoubtText ++ dquote
   ++ ", here's what I found... [Simulated AI Answer based on your query]. Please provide feedback if this was helpful.")%string.

Definition aiFollowUpText (messageText : option string) : string :=
  ("(AI Follow-up to " ++ dquote ++ interpolate messageText ++ dquote
   ++ ") Here" ++ rsquo
   ++ "s more clarification: ... [Simulated AI Answer].")%string.

(** The callback set by [initiateDoubtSession]. *)
Definition aiAnswerCallback (studentName initialDoubtText : string)
  (f : Fault) : M Frame unit :=
  tryCatch
    (d <- theDoc ;;
     faultAt f atMessageSave ;;
     aiChatMessage <-
       inWorld (saveChatMessage
                  {| i_doubtSession := ds_id (d_val d);
                     i_sender := None;
                     i_senderRole := Some fromAi;
                     i_messageText :=
                       Some (aiAnswerText studentName initialDoubtText);
                     i_attachmentUrl := None |}) ;;
     assign (fun d => setStatus d resolved) ;;
     now <- inWorld newDate ;;
     assign (fun d => setLastMessageAt d now) ;;
     faultAt f atSessionSave ;;
     saveTheDoc ;;
     faultAt f atEmit ;;
     inWorld (emit (newMessage (ds_id (d_val d)) aiChatMessage)))
    (d <- theDoc ;;
     errorChatMessage <-
       inWorld (saveChatMessage
                  {| i_doubtSession := ds_id (d_val d);
                     i_sender := None;
                     i_senderRole := Some fromSystem;
                     i_messageText :=
                       Some "AI encountered an error. Please try again later or contact a trainer.";
                     i_attachmentUrl := None |}) ;;
     inWorld (emit (newMessage (ds_id (d_val d)) errorChatMessage)) ;;
     assign (fun d => setStatus d cancelled) ;;
     now <- inWorld newDate ;;
     assign (fun d => setLastMessageAt d now) ;;
     saveTheDoc).

(** The callback set by [sendDoubtMessage]. *)
Definition aiFollowUpCallback (messageText : option string) (f : Fault)
  : M Frame unit :=
  tryCatch
    (d <- theDoc ;;
     faultAt f atMessageSave ;;
     aiChatMessage <-
       inWorld (saveChatMessage
                  {| i_doubtSession := ds_id (d_val d);
                     i_sender := None;
                     i_senderRole := Some fromAi;
                     i_messageText := Some (aiFollowUpText messageText);
                     i_attachmentUrl := None |}) ;;
     now <- inWorld newDate ;;
     assign (fun d => setLastMessageAt d now) ;;
     assign (fun d => setStatus d resolved) ;;
     faultAt f atSessionSave ;;
     saveTheDoc ;;
     faultAt f atEmit ;;
     inWorld (emit (newMessage (ds_id (d_val d)) aiChatMessage)))
    (d <- theDoc ;;
     errorChatMessage <-
       inWorld (saveChatMessage
                  {| i_doubtSession := ds_id (d_val d);
                     i_sender := None;
                     i_senderRole := Some fromSystem;
                     i_messageText :=
                       Some "AI encountered an error processing your follow-up. Please try again.";
                     i_attachmentUrl := None |}) ;;
     inWorld (emit (newMessage (ds_id (d_val d)) errorChatMessage))).

Definition stateOf {S A} (o : Outcome S A) : S :=
  match o with
  | Return _ s => s
  | Throw s => s
  end.

(** Running a callback to its end; an exception that escapes its [catch]
    block is an unhandled rejection and leaves the world as it is then. *)
Definition runTask (t : Task) (f : Fault) (w : World) : World :=
  match t with
  | aiAnswer d studentName initialDoubtText =>
      snd (stateOf (aiAnswerCallback studentName initialDoubtText f (d, w)))
  | aiFollowUp d messageText =>
      snd (stateOf (aiFollowUpCallback messageText f (d, w)))
  end.

(** ** The server as a transition system *)

Inductive Op :=
| doInitiate (u : AuthUser) (b : InitiateBody)
| doMessages (u : AuthUser) (i : ObjectId)
| doSend (u : AuthUser) (i : ObjectId) (b : MessageBody)
| doClose (u : AuthUser) (i : ObjectId)
| doTrainerDoubts (u : AuthUser)
| doTick (ms : nat)
| doFire (handle : nat) (f : Fault).

Definition findTimer (l : list Timer) (handle : nat) : option Timer :=
  find (fun t => Nat.eqb (tm_id t) handle) l.

(** The event loop runs a callback once its delay has elapsed and drops
    the timer. *)
Definition fire (handle : nat) (f : Fault) (w : World) : World :=
  match findTimer (timers w) handle with
  | Some t =>
      if tm_due t <=? clock w then
        runTask (tm_task t) f
          (withTimers w
             (filter (fun x => negb (Nat.eqb (tm_id x) handle)) (timers w)))
      else w
  | None => w
  end.

(** A step of the server: a request on one of the routes of
    [routes/doubtRoutes.js] by an authenticated user, the passing of
    time, or the event loop taking up a timer. *)
Definition run (o : Op) (w : World) : World :=
  match o with
  | doInitiate u b =>
      stateOf (withRole isStudent u (initiateDoubtSession u b) w)
  | doMessages u i => stateOf (guarded getDoubtSessionMessages (request u i) w)
  | doSend u i b => stateOf (guarded (sendDoubtMessage b) (request u i) w)
  | doClose u i => stateOf (guarded closeDoubtSession (request u i) w)
  | doTrainerDoubts u =>
      stateOf (withRole isTrainerOrAdmin u (getTrainerDoubtSessions u) w)
  | doTick ms => withClock w (clock w + Z.of_nat ms)
  | doFire handle f => fire handle f w
  end.

Definition runAll (l : list Op) (w : World) : World :=
  fold_left (fun acc o => run o acc) l w.

(** The stored session of an id. *)
Definition stored (w : World) (i : ObjectId) : option DoubtSession :=
  findById ds_id (doubts w) i.

(** ** Further handlers of the controller *)

(** [exports.getMyDoubtSessions]; as in the other listings, [populate]
    only decorates the referenced documents and is left out. *)
Definition getMyDoubtSessions (u : AuthUser) : M World Response :=
  tryCatch
    (w <- getWorld ;;
     ret {| statusCode := 200;
            body := sessionsJson
                      (sortBy (fun s => - ds_lastMessageAt s)
                         (filter
                            (fun s => Nat.eqb (ds_student s) (user_id u))
                            (doubts w))) |})
    (ret (respond 500 "Server error fetching doubt sessions.")).

(** [exports.getAllDoubtSessions] *)
Definition getAllDoubtSessions : M World Response :=
  tryCatch
    (w <- getWorld ;;
     ret {| statusCode := 200;
            body := sessionsJson
                      (sortBy (fun s => - ds_lastMessageAt s) (doubts w)) |})
    (ret (respond 500 "Server error fetching all doubt sessions.")).

(** [exports.getActiveStudentDoubts] *)
Definition getActiveStudentDoubts (u : AuthUser) : M World Response :=
  tryCatch
    (w <- getWorld ;;
     ret {| statusCode := 200;
            body := sessionsJson
                      (sortBy (fun s => - ds_lastMessageAt s)
                         (filter
                            (fun s =>
                               Nat.eqb (ds_student s) (user_id u)
                               && existsb
                                    (String.eqb (statusName (ds_status s)))
                                    ["pending"; "in_progress"])
                            (doubts w))) |})
    (ret (respond 500 "Server error fetching active doubt sessions.")).

(** The body of [POST /:doubtSessionId/feedback/ai]; [fb_helpful] is
    [None] when the field is anything but a boolean. *)
Record FeedbackBody := {
  fb_helpful : option bool;
  fb_feedbackText : option string
}.

Definition withAiFeedback (s : DoubtSession) (helpful : option bool)
  (text : option string) : DoubtSession :=
  {| ds_id := ds_id s; ds_student := ds_student s; ds_trainer := ds_trainer s;
     ds_grade := ds_grade s; ds_school := ds_school s;
     ds_session := ds_session s;
     ds_initialDoubtText := ds_initialDoubtText s;
     ds_doubtType := ds_doubtType s; ds_status := ds_status s;
     ds_lastMessageAt := ds_lastMessageAt s; ds_aiHelpful := helpful;
     ds_aiFeedbackText := text;
     ds_createdAt := ds_createdAt s; ds_updatedAt := ds_updatedAt s |}.

Definition optionBool_eqb (a b : option bool) : bool :=
  match a, b with
  | Some x, Some y => Bool.eqb x y
  | None, None => true
  | _, _ => false
  end.

Definition optionString_eqb (a b : option string) : bool :=
  match a, b with
  | Some x, Some y => String.eqb x y
  | None, None => true
  | _, _ => false
  end.

(** [DoubtSession.findOne({ _id, student, doubtType: 'ai' })] *)
Definition findAiSessionOf (l : list DoubtSession) (i student : ObjectId)
  : option DoubtSession :=
  find (fun s => Nat.eqb (ds_id s) i
                 && Nat.eqb (ds_student s) student
                 && DoubtType_eqb (ds_doubtType s) aiDoubt) l.

(** [feedbackText || null], through the [trim] setter of
    [aiFeedbackText]. *)
Definition feedbackTextOf (text : option string) : option string :=
  option_map trim (nonEmpty text).

(** [exports.submitAiFeedback].  The two assignments mark a path modified
    when its value changes, and [save] writes when one is marked.  The
    record does not tell an absent [aiFeedbackText] from a null one; the
    two differ only before the first submission, when [aiHelpful] is
    still null and the assignment of a boolean marks it anyway. *)
Definition submitAiFeedback (u : AuthUser) (i : ObjectId) (b : FeedbackBody)
  : M World Response :=
  match fb_helpful b with
  | None => ret (respond 400 "Helpful field must be a boolean.")
  | Some helpful =>
      tryCatch
        (w <- getWorld ;;
         match findAiSessionOf (doubts w) i (user_id u) with
         | None =>
             ret (respond 404
                    "AI doubt session not found or you are not the student.")
         | Some s =>
             let aiFeedbackText := feedbackTextOf (fb_feedbackText b) in
             let modified :=
               negb (optionBool_eqb (ds_aiHelpful s) (Some helpful))
               || negb (optionString_eqb (ds_aiFeedbackText s)
                          aiFeedbackText) in
             if modified then
               now <- newDate ;;
               let s' := withUpdatedAt
                           (withAiFeedback s (Some helpful) aiFeedbackText)
                           now in
               (fun w0 =>
                  Return tt
                    (withDoubts w0
                       (updateById (ds_id s)
                          (fun r =>
                             withUpdatedAt
                               (withAiFeedback r (Some helpful)
                                  aiFeedbackText) now)
                          (doubts w0)))) ;;
               ret {| statusCode := 200;
                      body := closedJson "AI feedback submitted successfully."
                                s' |}
             else
               ret {| statusCode := 200;
                      body := closedJson "AI feedback submitted successfully."
                                s |}
         end)
        (ret (respond 500 "Server error submitting AI feedback."))
  end.

(** ** Sample data *)

Module Sample.

Definition asha : User :=
  {| u_id := 1%nat; u_name := "Asha"; u_role := student;
     u_school := Some "Green View High School"; u_grade := Some 7 |}.

Definition ravi : User :=
  {| u_id := 2%nat; u_name := "Ravi"; u_role := trainer;
     u_school := None; u_grade := None |}.

Definition root : User :=
  {| u_id := 3%nat; u_name := "Root"; u_role := admin;
     u_school := None; u_grade := None |}.

(** A student whose school name has no school record. *)
Definition lina : User :=
  {| u_id := 4%nat; u_name := "Lina"; u_role := student;
     u_school := Some "Lakeside"; u_grade := Some 7 |}.

Definition start : World :=
  {| users := [asha; ravi; root; lina];
     schools := [{| sc_id := 10%nat;
                    sc_schoolName := "Green View High School" |}];
     sessions := [{| se_id := 20%nat; se_grade := 7;
                     se_sessions := [21%nat; 22%nat] |}];
     doubts := []; messages := []; timers := []; events := [];
     clock := 1000; nextId := 100%nat |}.

Definition asAsha : AuthUser :=
  {| user_id := 1%nat; user_role := student; user_name := "Asha" |}.
Definition asRavi : AuthUser :=
  {| user_id := 2%nat; user_role := trainer; user_name := "Ravi" |}.
Definition asRoot : AuthUser :=
  {| user_id := 3%nat; user_role := admin; user_name := "Root" |}.

Definition askRavi : InitiateBody :=
  {| b_doubtType := Some "trainer"; b_trainerId := Some 2%nat;
     b_sessionId := Some 21%nat;
     b_initialDoubtText := Some "Why is the sky blue?";
     b_attachmentUrl := None |}.





Definition askAi : InitiateBody :=
  {| b_doubtType := Some "ai"; b_trainerId := None; b_sessionId := None;
     b_initialDoubtText := Some "What is photosynthesis?";
     b_attachmentUrl := None |}.

Definition textOnly (s : string) : MessageBody :=
  {| mb_messageText := Some s; mb_attachmentUrl := None |}.

Definition textAndFile : MessageBody :=
  {| mb_messageText := Some "see the picture";
     mb_attachmentUrl := Some "https://files.example/leaf.png" |}.

(** Asha asked Ravi: session 100 is [pending]. *)
Definition askedTrainer : World := run (doInitiate asAsha askRavi) start.

(** Asha asked the AI: session 100 is [in_progress], timer 102 pending. *)
Definition askedAi : World := run (doInitiate asAsha askAi) start.

(** The AI answered after five seconds: session 100 is [resolved]. *)
Definition answered : World :=
  runAll [doTick 5000; doFire 102%nat noFault] askedAi.

(** Asha closed her AI session before the answer arrived. *)
Definition closedEarly : World := run (doClose asAsha 100%nat) askedAi.

(** The timer set when Asha asked the AI. *)
Definition answerTimer : Timer :=
  {| tm_id := 102%nat; tm_due := 6000;
     tm_task :=
       aiAnswer
         (loaded
            {| ds_id := 100%nat; ds_student := 1%nat; ds_trainer := None;
               ds_grade := 7; ds_school := 10%nat; ds_session := None;
               ds_initialDoubtText := "What is photosynthesis?";
               ds_doubtType := aiDoubt; ds_status := in_progress;
               ds_lastMessageAt := 1000; ds_aiHelpful := None;
               ds_aiFeedbackText := None; ds_createdAt := 1000;
               ds_updatedAt := 1000 |})
         "Asha" "What is photosynthesis?" |}.

(** Asha closes the session at once; five seconds pass. *)
Definition closeThenWait : list Op :=
  [doClose asAsha 100%nat; doTick 5000].

(** Asha sent a follow-up on the resolved AI session: timer 105 pending. *)
Definition followedUp : World :=
  run (doSend asAsha 100%nat (textOnly "and at night?")) answered.

(** The session Asha opened with Ravi, as it is stored while [pending]. *)
Definition pendingSession : DoubtSession :=
  {| ds_id := 100%nat; ds_student := 1%nat; ds_trainer := Some 2%nat;
     ds_grade := 7; ds_school := 10%nat; ds_session := Some 21%nat;
     ds_initialDoubtText := "Why is the sky blue?";
     ds_doubtType := trainerDoubt; ds_status := pending;
     ds_lastMessageAt := 1000; ds_aiHelpful := None;
     ds_aiFeedbackText := None; ds_createdAt := 1000;
     ds_updatedAt := 1000 |}.

(** Asha's AI session once the answer has arrived. *)
Definition resolvedSession : DoubtSession :=
  {| ds_id := 100%nat; ds_student := 1%nat; ds_trainer := None;
     ds_grade := 7; ds_school := 10%nat; ds_session := None;
     ds_initialDoubtText := "What is photosynthesis?";
     ds_doubtType := aiDoubt; ds_status := resolved;
     ds_lastMessageAt := 6000; ds_aiHelpful := None;
     ds_aiFeedbackText := None; ds_createdAt := 1000;
     ds_updatedAt := 6000 |}.

(** Asha has a pending session with Ravi (100) and asks the AI as well:
    session 102, timer 104. *)
Definition twoSessions : World := run (doInitiate asAsha askAi) askedTrainer.

(** Asha closed her session with Ravi. *)
Definition closedByAsha : World := run (doClose asAsha 100%nat) askedTrainer.

Definition greenView : School :=
  {| sc_id := 10%nat; sc_schoolName := "Green View High School" |}.

(** A question with blanks around it, and one of blanks only. *)
Definition askPadded : InitiateBody :=
  {| b_doubtType := Some "ai"; b_trainerId := None; b_sessionId := None;
     b_initialDoubtText := Some "  What is light?  ";
     b_attachmentUrl := Some "https://files.example/prism.png" |}.

Definition askBlank : InitiateBody :=
  {| b_doubtType := Some "ai"; b_trainerId := None; b_sessionId := None;
     b_initialDoubtText := Some "   "; b_attachmentUrl := None |}.

Definition thanks : FeedbackBody :=
  {| fb_helpful := Some true; fb_feedbackText := Some " thanks " |}.

End Sample.

(** ** Notions used in the statements *)

(** The message a send request stores. *)
Definition sentMessage (u : AuthUser) (i : ObjectId) (b : MessageBody)
  (w : World) (role : SenderRole) : ChatMessage :=
  {| cm_id := nextId w; cm_doubtSession := i;
     cm_sender := Some (user_id u); cm_senderRole := role;
     cm_messageText := mb_messageText b;
     cm_attachmentUrl := mb_attachmentUrl b; cm_createdAt := clock w |}.

(** A message with a text or an attachment. *)
Definition hasContent (m : ChatMessage) : bool :=
  truthy (cm_messageText m) || truthy (cm_attachmentUrl m).

(** The document a callback closed over. *)
Definition taskDoc (t : Task) : Doc :=
  match t with
  | aiAnswer d _ _ => d
  | aiFollowUp d _ => d
  end.

(** The delay a callback is scheduled with: [5000] in
    [initiateDoubtSession], [3000] in [sendDoubtMessage]. *)
Definition delayOf (t : Task) : Z :=
  match t with
  | aiAnswer _ _ _ => 5000
  | aiFollowUp _ _ => 3000
  end.

(** The reply a callback composes in its [try] block. *)
Definition replyOf (t : Task) : string :=
  match t with
  | aiAnswer _ studentName initialDoubtText =>
      aiAnswerText studentName initialDoubtText
  | aiFollowUp _ messageText => aiFollowUpText messageText
  end.

(** A pending timer as the handlers set it: its handle was drawn from
    the id counter, the callback's copy of the session is not yet
    [resolved], and the session is in the store. *)
Definition pendingOk (w : World) (t : Timer) : Prop :=
  (tm_id t < nextId w)%nat
  /\ ds_status (d_val (taskDoc (tm_task t))) <> resolved
  /\ stored w (ds_id (d_val (taskDoc (tm_task t)))) <> None.

Definition wellFormed (w : World) : Prop :=
  forall t, In t (timers w) -> pendingOk w t.

(** What a request handler or a callback may do to the world: draw ids,
    append messages that have content, append well-set timers that are
    due after the delay of their callback, update stored sessions in
    place.  It never removes a session, a message or a timer, and it does
    not move the clock. *)
Record Ext (w w' : World) : Prop := mkExt {
  ext_nextId : (nextId w <= nextId w')%nat;
  ext_clock : clock w' = clock w;
  ext_timers :
    exists l, timers w' = (timers w ++ l)%list
              /\ forall t, In t l ->
                           (nextId w <= tm_id t)%nat /\ pendingOk w' t
                           /\ tm_due t = clock w + delayOf (tm_task t);
  ext_messages :
    exists l, messages w' = (messages w ++ l)%list
              /\ forall m, In m l -> hasContent m = true;
  ext_stored : forall i, stored w i <> None -> stored w' i <> None
}.

(** What a step may do to a stored session: everything that identifies
    it stays, the AI feedback stays, and a status other than [pending]
    does not become [pending]. *)
Definition sameSession (r r' : DoubtSession) : Prop :=
  ds_id r' = ds_id r
  /\ ds_student r' = ds_student r
  /\ ds_trainer r' = ds_trainer r
  /\ ds_grade r' = ds_grade r
  /\ ds_school r' = ds_school r
  /\ ds_session r' = ds_session r
  /\ ds_initialDoubtText r' = ds_initialDoubtText r
  /\ ds_doubtType r' = ds_doubtType r
  /\ ds_createdAt r' = ds_createdAt r
  /\ ds_aiHelpful r' = ds_aiHelpful r
  /\ ds_aiFeedbackText r' = ds_aiFeedbackText r
  /\ (ds_status r <> pending -> ds_status r' <> pending).

(** The session collection of [w'] is the one of [w], rewritten in place
    on the sessions whose id is in [touched], with new sessions at the
    end. *)
Definition Evolves (touched : ObjectId -> Prop) (w w' : World) : Prop :=
  exists f l,
    doubts w' = (map f (doubts w) ++ l)%list
    /\ (forall r, sameSession r (f r))
    /\ (forall r, ~ touched (ds_id r) -> f r = r).

(** A document that may be saved: it is a session of [touched], and if
    its status is marked modified the status is not [pending]. *)
Definition docOk (touched : ObjectId -> Prop) (d : Doc) : Prop :=
  touched (ds_id (d_val d))
  /\ (d_modStatus d = true -> ds_status (d_val d) <> pending).

(** A computation over the world that only evolves the sessions and
    returns a value satisfying [Q]. *)
Definition keeps {A} (touched : ObjectId -> Prop) (m : M World A)
  (Q : A -> Prop) : Prop :=
  forall w,
    match m w with
    | Return a w' => Evolves touched w w' /\ Q a
    | Throw w' => Evolves touched w w'
    end.

(** The same for a callback, with a condition on its document before and
    after. *)
Definition keepsF {A} (touched : ObjectId -> Prop) (P Q : Doc -> Prop)
  (m : M Frame A) : Prop :=
  forall d w,
    touched (ds_id (d_val d)) -> P d ->
    match m (d, w) with
    | Return _ (d', w') =>
        Evolves touched w w' /\ touched (ds_id (d_val d')) /\ Q d'
    | Throw (d', w') => Evolves touched w w' /\ touched (ds_id (d_val d'))
    end.

Definition safeStatus (d : Doc) : Prop :=
  d_modStatus d = true -> ds_status (d_val d) <> pending.

(** The sessions a step may rewrite: the one a send or a close
    addresses, the one of the timer that fires. *)
Definition touchedBy (o : Op) (w : World) : ObjectId -> Prop :=
  match o with
  | doSend _ i _ => eq i
  | doClose _ i => eq i
  | doFire h _ =>
      match findTimer (timers w) h with
      | Some t => eq (ds_id (d_val (taskDoc (tm_task t))))
      | None => fun _ => False
      end
  | _ => fun _ => False
  end.

(** The checks of [initiateDoubtSession] that come before the session is
    saved. *)
Definition passesChecks (u : AuthUser) (b : InitiateBody) (w : World)
  (st : User) (sc : School) (text : string) : Prop :=
  nonEmpty (b_initialDoubtText b) = Some text
  /\ findById u_id (users w) (user_id u) = Some st
  /\ (exists schoolName,
        nonEmpty (u_school st) = Some schoolName
        /\ findSchoolByName (schools w) schoolName = Some sc)
  /\ (b_doubtType b = Some "ai"
      \/ (b_doubtType b = Some "trainer"
          /\ exists trainerId sessionId tr topic,
               b_trainerId b = Some trainerId
               /\ b_sessionId b = Some sessionId
               /\ findById u_id (users w) trainerId = Some tr
               /\ u_role tr = trainer
               /\ findSessionByTopic (sessions w) sessionId = Some topic)).

(** A trainer-type session that is finished, in a world where no pending
    timer is for it; the id counter is past its id. *)
Definition settled (w : World) (i : ObjectId) (s : DoubtSession) : Prop :=
  stored w i = Some s
  /\ ds_doubtType s = trainerDoubt
  /\ terminalOrResolved (ds_status s) = true
  /\ (i < nextId w)%nat
  /\ forall t, In t (timers w) -> ds_id (d_val (taskDoc (tm_task t))) <> i.

(** What every request leaves of a stored session: the fields that
    identify it, and a status other than [pending] does not become
    [pending].  The AI feedback is not among them, [submitAiFeedback]
    writes it. *)
Definition sameCore (r r' : DoubtSession) : Prop :=
  ds_id r' = ds_id r
  /\ ds_student r' = ds_student r
  /\ ds_trainer r' = ds_trainer r
  /\ ds_grade r' = ds_grade r
  /\ ds_school r' = ds_school r
  /\ ds_session r' = ds_session r
  /\ ds_initialDoubtText r' = ds_initialDoubtText r
  /\ ds_doubtType r' = ds_doubtType r
  /\ ds_createdAt r' = ds_createdAt r
  /\ (ds_status r <> pending -> ds_status r' <> pending).

(** A request on a route of [routes/doubtRoutes.js] or a step of the
    event loop: the steps of the chat, the three listings behind a role
    middleware and the AI feedback.  The upload and the two look-ups of
    trainers and topics do not read or write the sessions and are left
    out. *)
Inductive Call :=
| chat (o : Op)
| doMyDoubts (u : AuthUser)
| doActiveDoubts (u : AuthUser)
| doAllDoubts (u : AuthUser)
| doFeedback (u : AuthUser) (i : ObjectId) (b : FeedbackBody).

Definition serve (c : Call) (w : World) : World :=
  match c with
  | chat o => run o w
  | doMyDoubts u => stateOf (withRole isStudent u (getMyDoubtSessions u) w)
  | doActiveDoubts u =>
      stateOf (withRole isStudent u (getActiveStudentDoubts u) w)
  | doAllDoubts u => stateOf (withRole isAdmin u getAllDoubtSessions w)
  | doFeedback u i b =>
      stateOf (withRole isStudent u (submitAiFeedback u i b) w)
  end.

Definition serveAll (l : list Call) (w : World) : World :=
  fold_left (fun acc c => serve c acc) l w.

(** * Properties *)

(** ** Lists, queries and documents *)

Lemma In_insertBy {A} (key : A -> Z) (x y : A) (l : list A) :
  In y (insertBy key x l) <-> y = x \/ In y l.
Proof.
  induction l as [|z r IH]; simpl.
  - intuition.
  - destruct (key x <? key z); simpl; rewrite ?IH; intuition.
Qed.

Lemma In_sortBy {A} (key : A -> Z) (y : A) (l : list A) :
  In y (sortBy key l) <-> In y l.
Proof.
  unfold sortBy.
  assert (G : forall acc,
             In y (fold_left (fun a x => insertBy key x a) l acc)
             <-> In y l \/ In y acc).
  { induction l as [|x r IH]; intro acc; simpl.
    - intuition.
    - rewrite IH, In_insertBy. intuition. }
  rewrite G. simpl. intuition.
Qed.

Lemma Status_eqb_eq (a b : Status) : Status_eqb a b = true <-> a = b.
Proof. destruct a, b; simpl; split; congruence. Qed.

Lemma Role_eqb_eq (a b : Role) : Role_eqb a b = true <-> a = b.
Proof. destruct a, b; simpl; split; congruence. Qed.

Lemma Role_eqb_neq (a b : Role) : Role_eqb a b = false <-> a <> b.
Proof. destruct a, b; simpl; split; congruence. Qed.

Lemma DoubtType_eqb_eq (a b : DoubtType) : DoubtType_eqb a b = true <-> a = b.
Proof. destruct a, b; simpl; split; congruence. Qed.

Lemma findById_id {A} (idOf : A -> ObjectId) (l : list A) (i : ObjectId)
  (x : A) :
  findById idOf l i = Some x -> idOf x = i /\ In x l.
Proof.
  unfold findById. intro H. apply find_some in H.
  destruct H as [H1 H2]. apply Nat.eqb_eq in H2. auto.
Qed.

Lemma stored_id (w : World) (i : ObjectId) (s : DoubtSession) :
  stored w i = Some s -> ds_id s = i.
Proof. intro H. apply findById_id in H. tauto. Qed.

(** Updating by id rewrites the first match of the same id. *)
Lemma findById_updateById (f : DoubtSession -> DoubtSession)
  (l : list DoubtSession) (i : ObjectId) (s : DoubtSession) :
  (forall r, ds_id (f r) = ds_id r) ->
  findById ds_id l i = Some s ->
  findById ds_id (updateById i f l) i = Some (f s).
Proof.
  intros Hf. unfold findById, updateById.
  induction l as [|r l IH]; simpl; [discriminate|].
  destruct (Nat.eqb (ds_id r) i) eqn:E.
  - intro H. injection H as <-. rewrite Hf, E. reflexivity.
  - rewrite E. exact IH.
Qed.

(** Updating one id leaves the documents of other ids alone. *)
Lemma findById_updateById_other (f : DoubtSession -> DoubtSession)
  (l : list DoubtSession) (i j : ObjectId) :
  (forall r, ds_id (f r) = ds_id r) ->
  i <> j ->
  findById ds_id (updateById i f l) j = findById ds_id l j.
Proof.
  intros Hf Hij. unfold findById, updateById.
  induction l as [|r l IH]; simpl; [reflexivity|].
  destruct (Nat.eqb (ds_id r) i) eqn:E.
  - rewrite Hf. apply Nat.eqb_eq in E.
    assert (N : Nat.eqb (ds_id r) j = false)
      by (apply Nat.eqb_neq; congruence).
    rewrite N. exact IH.
  - destruct (Nat.eqb (ds_id r) j); [reflexivity | exact IH].
Qed.

Lemma writeBack_id (d : Doc) (now : Date) (r : DoubtSession) :
  ds_id (writeBack d now r) = ds_id r.
Proof. unfold writeBack. destruct (d_modStatus d), (d_modLastMessageAt d); reflexivity. Qed.

Lemma writeBack_status (d : Doc) (now : Date) (r : DoubtSession) :
  ds_status (writeBack d now r)
  = if d_modStatus d then ds_status (d_val d) else ds_status r.
Proof. unfold writeBack. destruct (d_modStatus d), (d_modLastMessageAt d); reflexivity. Qed.

Lemma writeBack_lastMessageAt (d : Doc) (now : Date) (r : DoubtSession) :
  ds_lastMessageAt (writeBack d now r)
  = if d_modLastMessageAt d then ds_lastMessageAt (d_val d)
    else ds_lastMessageAt r.
Proof. unfold writeBack. destruct (d_modStatus d), (d_modLastMessageAt d); reflexivity. Qed.

(** [save] with a modified path, on a stored document. *)
Lemma save_modified (d : Doc) (w : World) (r : DoubtSession) :
  d_modStatus d || d_modLastMessageAt d = true ->
  stored w (ds_id (d_val d)) = Some r ->
  save d w
  = Return (loaded (withUpdatedAt (d_val d) (clock w)))
      (withDoubts w
         (updateById (ds_id (d_val d)) (writeBack d (clock w)) (doubts w))).
Proof.
  intros Hm Hs. unfold save. rewrite Hm.
  unfold stored in Hs. rewrite Hs. reflexivity.
Qed.

Lemma save_clean (d : Doc) (w : World) :
  d_modStatus d || d_modLastMessageAt d = false ->
  save d w = Return d w.
Proof. intro Hm. unfold save. rewrite Hm. reflexivity. Qed.

(** ** Extension of the world *)

Lemma find_app_some {A} (p : A -> bool) (l l' : list A) (x : A) :
  find p l = Some x -> find p (l ++ l') = Some x.
Proof.
  induction l as [|y l IH]; simpl; [discriminate|].
  destruct (p y); auto.
Qed.

Lemma find_app_not_none {A} (p : A -> bool) (l l' : list A) :
  find p l <> None -> find p (l ++ l') <> None.
Proof.
  destruct (find p l) as [x|] eqn:E; [|congruence].
  intros _. rewrite (find_app_some p l l' x E). discriminate.
Qed.

Lemma findById_app_not_none {A} (idOf : A -> ObjectId) (l l' : list A)
  (i : ObjectId) :
  findById idOf l i <> None -> findById idOf (l ++ l') i <> None.
Proof. apply find_app_not_none. Qed.

Lemma findById_app_last {A} (idOf : A -> ObjectId) (l : list A) (x : A)
  (i : ObjectId) :
  idOf x = i -> findById idOf (l ++ [x]) i <> None.
Proof.
  intro H. unfold findById.
  induction l as [|y l IH]; simpl.
  - rewrite H, Nat.eqb_refl. discriminate.
  - destruct (Nat.eqb (idOf y) i); [discriminate | exact IH].
Qed.

Lemma findById_updateById_not_none (f : DoubtSession -> DoubtSession)
  (l : list DoubtSession) (i j : ObjectId) :
  (forall r, ds_id (f r) = ds_id r) ->
  findById ds_id l i <> None ->
  findById ds_id (updateById j f l) i <> None.
Proof.
  intros Hf H. destruct (findById ds_id l i) as [s|] eqn:E; [|congruence].
  destruct (Nat.eq_dec j i) as [-> | Hne].
  - rewrite (findById_updateById f l i s Hf E). discriminate.
  - rewrite (findById_updateById_other f l j i Hf Hne), E. discriminate.
Qed.

Lemma Ext_refl (w : World) : Ext w w.
Proof.
  constructor; auto.
  - exists []. split; [symmetry; apply app_nil_r | intros t []].
  - exists []. split; [symmetry; apply app_nil_r | intros t []].
Qed.

Lemma pendingOk_ext (w w' : World) (t : Timer) :
  Ext w w' -> pendingOk w t -> pendingOk w' t.
Proof.
  intros E (H1 & H2 & H3). pose proof (ext_nextId _ _ E).
  repeat split; [lia | exact H2 | exact (ext_stored _ _ E _ H3)].
Qed.

Lemma Ext_trans (w1 w2 w3 : World) : Ext w1 w2 -> Ext w2 w3 -> Ext w1 w3.
Proof.
  intros E1 E2.
  pose proof (ext_nextId _ _ E1) as N1. pose proof (ext_nextId _ _ E2) as N2.
  destruct (ext_timers _ _ E1) as (l1 & T1 & P1).
  destruct (ext_timers _ _ E2) as (l2 & T2 & P2).
  destruct (ext_messages _ _ E1) as (m1 & M1 & Q1).
  destruct (ext_messages _ _ E2) as (m2 & M2 & Q2).
  constructor.
  - lia.
  - rewrite (ext_clock _ _ E2). exact (ext_clock _ _ E1).
  - exists (l1 ++ l2)%list. split.
    + rewrite T2, T1, app_assoc. reflexivity.
    + intros t Ht. apply in_app_or in Ht. destruct Ht as [Ht | Ht].
      * destruct (P1 t Ht) as (Ha & Hb & Hc). split; [exact Ha|].
        split; [exact (pendingOk_ext _ _ _ E2 Hb) | exact Hc].
      * destruct (P2 t Ht) as (Ha & Hb & Hc). split; [lia|].
        split; [exact Hb|]. rewrite Hc, (ext_clock _ _ E1). reflexivity.
  - exists (m1 ++ m2)%list. split.
    + rewrite M2, M1, app_assoc. reflexivity.
    + intros m Hm. apply in_app_or in Hm. destruct Hm; auto.
  - intros i Hi. apply (ext_stored _ _ E2), (ext_stored _ _ E1), Hi.
Qed.

(** The primitive writes. *)

Lemma Ext_emit (e : Event) (w : World) : Ext w (stateOf (emit e w)).
Proof.
  constructor; simpl; auto.
  - exists []. split; [symmetry; apply app_nil_r | intros t []].
  - exists []. split; [symmetry; apply app_nil_r | intros t []].
Qed.

Lemma Ext_freshId (w : World) : Ext w (stateOf (freshId w)).
Proof.
  constructor; simpl; auto.
  - exists []. split; [symmetry; apply app_nil_r | intros t []].
  - exists []. split; [symmetry; apply app_nil_r | intros t []].
Qed.

Lemma save_outcome (d : Doc) (w : World) :
  save d w = Return d w
  \/ save d w = Throw w
  \/ (d_modStatus d || d_modLastMessageAt d = true
      /\ stored w (ds_id (d_val d)) <> None
      /\ save d w
         = Return (loaded (withUpdatedAt (d_val d) (clock w)))
             (withDoubts w
                (updateById (ds_id (d_val d)) (writeBack d (clock w))
                   (doubts w)))).
Proof.
  unfold save, stored.
  destruct (d_modStatus d || d_modLastMessageAt d); [|left; reflexivity].
  destruct (findById ds_id (doubts w) (ds_id (d_val d)));
    [right; right | right; left; reflexivity].
  repeat split. discriminate.
Qed.

Lemma Ext_withDoubts_update (w : World) (j : ObjectId)
  (f : DoubtSession -> DoubtSession) :
  (forall r, ds_id (f r) = ds_id r) ->
  Ext w (withDoubts w (updateById j f (doubts w))).
Proof.
  intro Hf. constructor; simpl; auto.
  - exists []. split; [symmetry; apply app_nil_r | intros t []].
  - exists []. split; [symmetry; apply app_nil_r | intros t []].
  - intros i Hi. unfold stored in *. simpl.
    apply findById_updateById_not_none; assumption.
Qed.

Lemma Ext_save (d : Doc) (w : World) : Ext w (stateOf (save d w)).
Proof.
  destruct (save_outcome d w) as [-> | [-> | (_ & _ & ->)]]; simpl;
    try apply Ext_refl.
  apply Ext_withDoubts_update. intro. apply writeBack_id.
Qed.

(** The document [save] hands back keeps the id and the status. *)
Lemma save_doc (d d' : Doc) (w w' : World) :
  save d w = Return d' w' ->
  ds_id (d_val d') = ds_id (d_val d)
  /\ ds_status (d_val d') = ds_status (d_val d)
  /\ (w' = w \/ stored w (ds_id (d_val d)) <> None).
Proof.
  destruct (save_outcome d w) as [-> | [-> | (_ & Hs & ->)]];
    intro H; inversion H; subst; auto.
Qed.

Lemma saveChatMessage_outcome (i : ChatMessageInput) (w : World) :
  saveChatMessage i w = Throw w
  \/ exists role,
       i_senderRole i = Some role
       /\ messageTextValid (i_messageText i) (i_attachmentUrl i) = true
       /\ saveChatMessage i w
          = Return
              {| cm_id := nextId w; cm_doubtSession := i_doubtSession i;
                 cm_sender := i_sender i; cm_senderRole := role;
                 cm_messageText := i_messageText i;
                 cm_attachmentUrl := i_attachmentUrl i;
                 cm_createdAt := clock w |}
              (withMessages (withNextId w (S (nextId w)))
                 (messages w
                  ++ [{| cm_id := nextId w;
                         cm_doubtSession := i_doubtSession i;
                         cm_sender := i_sender i; cm_senderRole := role;
                         cm_messageText := i_messageText i;
                         cm_attachmentUrl := i_attachmentUrl i;
                         cm_createdAt := clock w |}])%list).
Proof.
  unfold saveChatMessage.
  destruct (i_senderRole i) as [role|]; [|left; reflexivity].
  destruct (messageTextValid (i_messageText i) (i_attachmentUrl i)) eqn:V;
    [|left; reflexivity].
  right. exists role. repeat split.
Qed.

Lemma messageTextValid_content (text att : option string) :
  messageTextValid text att = true -> truthy text || truthy att = true.
Proof.
  unfold messageTextValid. destruct (truthy att), (truthy text); simpl; auto.
Qed.

Lemma Ext_saveChatMessage (i : ChatMessageInput) (w : World) :
  Ext w (stateOf (saveChatMessage i w)).
Proof.
  destruct (saveChatMessage_outcome i w) as [-> | (role & _ & V & ->)];
    simpl; [apply Ext_refl|].
  constructor; simpl; auto.
  - exists []. split; [symmetry; apply app_nil_r | intros t []].
  - eexists. split; [reflexivity|].
    intros m [<- | []]. unfold hasContent. simpl.
    apply messageTextValid_content, V.
Qed.

(** ** The guard *)

Lemma guard_admin (req : Request) (w : World) :
  user_role (user req) = admin ->
  isParticipantInDoubtSession req w = Return (inr req) w.
Proof.
  intro H. unfold isParticipantInDoubtSession, tryCatch. rewrite H.
  reflexivity.
Qed.

Lemma guard_participant (u : AuthUser) (i : ObjectId) (w : World)
  (s : DoubtSession) :
  user_role u <> admin ->
  stored w i = Some s ->
  isStudentParticipant s (user_id u) || isTrainerParticipant s (user_id u)
  = true ->
  isParticipantInDoubtSession (request u i) w
  = Return (inr {| user := u; doubtSessionId := i;
                   doubtSession := Some (loaded s) |}) w.
Proof.
  intros Hr Hs Hp. apply Role_eqb_neq in Hr.
  unfold isParticipantInDoubtSession, tryCatch, bind, getWorld. simpl.
  rewrite Hr. unfold stored in Hs. rewrite Hs.
  apply orb_true_iff in Hp.
  destruct (isStudentParticipant s (user_id u)),
    (isTrainerParticipant s (user_id u)); simpl; try reflexivity.
  destruct Hp; discriminate.
Qed.

Lemma guard_outsider (u : AuthUser) (i : ObjectId) (w : World)
  (s : DoubtSession) :
  user_role u <> admin ->
  stored w i = Some s ->
  isStudentParticipant s (user_id u) || isTrainerParticipant s (user_id u)
  = false ->
  isParticipantInDoubtSession (request u i) w
  = Return (inl (respond 403 "Not authorized to access this doubt session."))
      w.
Proof.
  intros Hr Hs Hp. apply Role_eqb_neq in Hr.
  unfold isParticipantInDoubtSession, tryCatch, bind, getWorld. simpl.
  rewrite Hr. unfold stored in Hs. rewrite Hs.
  apply orb_false_iff in Hp. destruct Hp as [-> ->]. reflexivity.
Qed.

Lemma guard_missing (u : AuthUser) (i : ObjectId) (w : World) :
  user_role u <> admin ->
  stored w i = None ->
  isParticipantInDoubtSession (request u i) w
  = Return (inl (respond 404
                   "Doubt session not found for authorization check.")) w.
Proof.
  intros Hr Hs. apply Role_eqb_neq in Hr.
  unfold isParticipantInDoubtSession, tryCatch, bind, getWorld. simpl.
  rewrite Hr. unfold stored in Hs. rewrite Hs. reflexivity.
Qed.

(** The guard never changes the world. *)
Lemma guard_pure (req : Request) (w : World) :
  exists r, isParticipantInDoubtSession req w = Return r w.
Proof.
  unfold isParticipantInDoubtSession, tryCatch, bind, getWorld, ret.
  destruct (Role_eqb (user_role (user req)) admin); [eauto|].
  destruct (findById ds_id (doubts w) (doubtSessionId req)); [|eauto].
  destruct (negb _ && negb _); eauto.
Qed.

(** ** Trainer listing *)

(** C10.  [getTrainerDoubtSessions] answers 200 with exactly the stored
    sessions that are assigned to the calling trainer and whose status is
    [pending]: the second name of its filter, "open", is the name of no
    status, so a session that is [in_progress] (or in any other status)
    is never listed. *)
Theorem C10_trainer_listing_is_pending_only (u : AuthUser) (w : World) :
  (forall st, statusName st <> "open")
  /\ exists l,
       getTrainerDoubtSessions u w
       = Return {| statusCode := 200; body := sessionsJson l |} w
       /\ (forall s, In s l <->
                     In s (doubts w)
                     /\ ds_trainer s = Some (user_id u)
                     /\ ds_status s = pending)
       /\ (forall s, In s l -> ds_status s <> in_progress).
Proof.
  split; [intros [] ; discriminate|].
  eexists. split; [reflexivity|].
  assert (G : forall s,
    In s (sortBy (fun s0 => - ds_updatedAt s0)
            (filter
               (fun s0 =>
                  match ds_trainer s0 with
                  | Some t => Nat.eqb t (user_id u)
                  | None => false
                  end
                  && existsb (String.eqb (statusName (ds_status s0)))
                       ["pending"; "open"])
               (doubts w)))
    <-> In s (doubts w) /\ ds_trainer s = Some (user_id u)
        /\ ds_status s = pending).
  { intro s. rewrite In_sortBy, filter_In, andb_true_iff.
    split.
    - intros (Hin & Ht & Hst). split; [exact Hin|]. split.
      + destruct (ds_trainer s) as [t|]; [|discriminate].
        apply Nat.eqb_eq in Ht. congruence.
      + destruct (ds_status s); simpl in Hst; congruence.
    - intros (Hin & Ht & Hst). rewrite Ht, Hst, Nat.eqb_refl. auto. }
  split; [exact G|].
  intros s Hs. apply G in Hs. destruct Hs as (_ & _ & ->). discriminate.
Qed.

(** ** Closing a session *)

(** C3.  An admin is let through by the guard whatever the session, and
    reads the messages like a participant.  But the guard's admin branch
    leaves [req.doubtSession] undefined, so [closeDoubtSession] throws on
    its first read of the session and answers 500 without touching the
    store; read on the sample world, session 100 is [pending] before and
    after the admin's close request.  The admin test inside
    [closeDoubtSession] is never reached. *)
Theorem C3_admin_close_answers_500 (i : ObjectId) (id : ObjectId)
  (name : string) (w : World) :
  let root := {| user_id := id; user_role := admin; user_name := name |} in
  isParticipantInDoubtSession (request root i) w
  = Return (inr (request root i)) w
  /\ guarded getDoubtSessionMessages (request root i) w
     = getDoubtSessionMessages (request root i) w
  /\ guarded closeDoubtSession (request root i) w
     = Return (respond 500 "Server error closing session.") w
  /\ option_map ds_status (stored Sample.askedTrainer 100%nat) = Some pending
  /\ option_map ds_status
       (stored (run (doClose Sample.asRoot 100%nat) Sample.askedTrainer)
          100%nat)
     = Some pending.
Proof.
  repeat split; reflexivity.
Qed.

(** What the admin test in [closeDoubtSession] would do if the session
    had been loaded: an admin who is no participant closes a session that
    is [pending] or [in_progress]. *)
Lemma close_with_loaded_session_admits_admin (u : AuthUser) (i : ObjectId)
  (w : World) (s : DoubtSession) :
  user_role u = admin ->
  stored w i = Some s ->
  ds_status s = pending \/ ds_status s = in_progress ->
  exists r w' s',
    closeDoubtSession
      {| user := u; doubtSessionId := i; doubtSession := Some (loaded s) |} w
    = Return r w'
    /\ statusCode r = 200%nat
    /\ stored w' i = Some s' /\ ds_status s' = closed.
Proof.
  intros Hr Hs Hst. pose proof (stored_id _ _ _ Hs) as Hid.
  unfold closeDoubtSession, tryCatch, bind. simpl. rewrite Hr. simpl.
  assert (E : Status_eqb (ds_status s) closed
              || Status_eqb (ds_status s) resolved
              || Status_eqb (ds_status s) cancelled = false)
    by (destruct Hst as [-> | ->]; reflexivity).
  rewrite E.
  assert (Hd : setStatus (loaded s) closed
               = {| d_val := withStatus s closed; d_modStatus := true;
                    d_modLastMessageAt := false |})
    by (unfold setStatus; simpl; destruct Hst as [-> | ->]; reflexivity).
  rewrite Hd.
  erewrite save_modified; [|reflexivity|simpl; rewrite Hid; exact Hs].
  simpl. do 3 eexists. split; [reflexivity|]. split; [reflexivity|].
  unfold stored. simpl. rewrite Hid. split.
  - apply findById_updateById; [intro; apply writeBack_id | exact Hs].
  - rewrite writeBack_status. reflexivity.
Qed.

(** C2, as the code has it.  For a participant of the session (the owning
    student or the assigned trainer, with a role other than admin), a
    close request on a session that is [pending] or [in_progress] answers
    200 and stores the status [closed]; on a session that is [resolved],
    [closed] or [cancelled] it answers 400 and changes nothing. *)
Theorem C2_close_by_participant (u : AuthUser) (i : ObjectId) (w : World)
  (s : DoubtSession) :
  stored w i = Some s ->
  user_role u <> admin ->
  isStudentParticipant s (user_id u) || isTrainerParticipant s (user_id u)
  = true ->
  (ds_status s = pending \/ ds_status s = in_progress ->
   exists r w' s',
     guarded closeDoubtSession (request u i) w = Return r w'
     /\ statusCode r = 200%nat
     /\ stored w' i = Some s' /\ ds_status s' = closed
     /\ messages w' = messages w)
  /\ (ds_status s = resolved \/ ds_status s = closed
      \/ ds_status s = cancelled ->
      guarded closeDoubtSession (request u i) w
      = Return
          (respond 400
             "Doubt session is already closed, resolved, or cancelled.") w).
Proof.
  intros Hs Hr Hp. pose proof (stored_id _ _ _ Hs) as Hid.
  unfold guarded, bind at 1. rewrite (guard_participant u i w s Hr Hs Hp).
  unfold guarded, bind at 1. rewrite (guard_participant u i w s Hr Hs Hp).
  apply Role_eqb_neq in Hr. split.
  - intro Hst.
    unfold closeDoubtSession, tryCatch, bind. simpl. rewrite Hr. simpl.
    assert (E : Status_eqb (ds_status s) closed
                || Status_eqb (ds_status s) resolved
                || Status_eqb (ds_status s) cancelled = false)
      by (destruct Hst as [-> | ->]; reflexivity).
    rewrite E.
    assert (N : negb (isStudentParticipant s (user_id u))
                && negb (isTrainerParticipant s (user_id u)) = false).
    { apply orb_true_iff in Hp. destruct Hp as [-> | ->]; simpl;
        [reflexivity | apply andb_false_r]. }
    rewrite N.
    assert (Hd : setStatus (loaded s) closed
                 = {| d_val := withStatus s closed; d_modStatus := true;
                      d_modLastMessageAt := false |})
      by (unfold setStatus; simpl; destruct Hst as [-> | ->]; reflexivity).
    rewrite Hd.
    erewrite save_modified; [|reflexivity|simpl; rewrite Hid; exact Hs].
    simpl. do 3 eexists. split; [reflexivity|]. split; [reflexivity|].
    unfold stored. simpl. rewrite Hid. split; [|split].
    + apply findById_updateById; [intro; apply writeBack_id | exact Hs].
    + rewrite writeBack_status. reflexivity.
    + reflexivity.
  - intro Hst.
    unfold closeDoubtSession, tryCatch, bind. simpl.
    assert (E : Status_eqb (ds_status s) closed
                || Status_eqb (ds_status s) resolved
                || Status_eqb (ds_status s) cancelled = true)
      by (destruct Hst as [-> | [-> | ->]]; reflexivity).
    rewrite E. reflexivity.
Qed.

(** C2 at the sample worlds: Asha closes her pending session, and is
    refused on the one already closed. *)
Lemma C2_close_by_participant_witness :
  (exists r w' s',
     guarded closeDoubtSession (request Sample.asAsha 100%nat)
       Sample.askedTrainer = Return r w'
     /\ statusCode r = 200%nat
     /\ stored w' 100%nat = Some s' /\ ds_status s' = closed
     /\ messages w' = messages Sample.askedTrainer)
  /\ guarded closeDoubtSession (request Sample.asAsha 100%nat)
       Sample.closedEarly
     = Return
         (respond 400
            "Doubt session is already closed, resolved, or cancelled.")
         Sample.closedEarly.
Proof.
  split.
  - refine (proj1 (C2_close_by_participant Sample.asAsha 100%nat
                     Sample.askedTrainer _ _ _ _) _).
    + vm_compute. reflexivity.
    + discriminate.
    + reflexivity.
    + left. reflexivity.
  - refine (proj2 (C2_close_by_participant Sample.asAsha 100%nat
                     Sample.closedEarly _ _ _ _) _).
    + vm_compute. reflexivity.
    + discriminate.
    + reflexivity.
    + right. left. reflexivity.
Defined.

(** C2 as stated fails: Asha, the owning student, asks to close her
    [resolved] session and is answered 400. *)
Lemma C2_counterexample :
  ~ (forall (u : AuthUser) (i : ObjectId) (w : World) (s : DoubtSession),
        stored w i = Some s ->
        user_role u = admin
        \/ isStudentParticipant s (user_id u)
           || isTrainerParticipant s (user_id u) = true ->
        ds_status s = pending \/ ds_status s = in_progress
        \/ ds_status s = resolved ->
        exists r w' s',
          guarded closeDoubtSession (request u i) w = Return r w'
          /\ statusCode r = 200%nat
          /\ stored w' i = Some s' /\ ds_status s' = closed).
Proof.
  intro H.
  destruct (H Sample.asAsha 100%nat Sample.answered
              {| ds_id := 100%nat; ds_student := 1%nat; ds_trainer := None;
                 ds_grade := 7; ds_school := 10%nat; ds_session := None;
                 ds_initialDoubtText := "What is photosynthesis?";
                 ds_doubtType := aiDoubt; ds_status := resolved;
                 ds_lastMessageAt := 6000; ds_aiHelpful := None;
                 ds_aiFeedbackText := None; ds_createdAt := 1000;
                 ds_updatedAt := 6000 |})
    as (r & w' & s' & Hrun & Hcode & _).
  - vm_compute. reflexivity.
  - right. reflexivity.
  - right. right. reflexivity.
  - vm_compute in Hrun. injection Hrun as <- _. discriminate Hcode.
Qed.

(** ** Sending a message *)

Lemma terminalOrResolved_true (st : Status) :
  terminalOrResolved st = true
  <-> st = resolved \/ st = closed \/ st = cancelled.
Proof.
  destruct st; simpl; split; intro H; try discriminate; auto;
    destruct H as [H | [H | H]]; discriminate.
Qed.

Lemma terminalOrResolved_false (st : Status) :
  terminalOrResolved st = false <-> st = pending \/ st = in_progress.
Proof.
  destruct st; simpl; split; intro H; try discriminate; auto;
    destruct H as [H | H]; discriminate.
Qed.

Lemma setLastMessageAt_same (d : Doc) (v : Date) :
  ds_lastMessageAt (d_val d) = v -> setLastMessageAt d v = d.
Proof.
  intro H. unfold setLastMessageAt. rewrite H, Z.eqb_refl. reflexivity.
Qed.

Lemma body_check (b : MessageBody) :
  truthy (mb_messageText b) || truthy (mb_attachmentUrl b) = true ->
  negb (truthy (mb_messageText b)) && negb (truthy (mb_attachmentUrl b))
  = false
  /\ messageTextValid (mb_messageText b) (mb_attachmentUrl b) = true.
Proof.
  unfold messageTextValid.
  destruct (truthy (mb_messageText b)), (truthy (mb_attachmentUrl b));
    simpl; intro; split; congruence.
Qed.

Ltac no_new := exists []; split; [rewrite app_nil_r; reflexivity | intros ? []].

(** [Ext] between a world and an explicit successor: [Hc] says that a
    message with the request's text and attachment has content, [Hr] that
    the callback's document is not [resolved], [Hs] that the session is
    stored. *)
Ltac ext_leaf Hc Hr Hs :=
  constructor; simpl;
  [ lia
  | reflexivity
  | first
      [ no_new
      | eexists; split; [reflexivity|];
        intros ? [<- | []]; split; [simpl; lia|];
        unfold pendingOk, stored; simpl; repeat split;
        [ lia
        | first [exact Hr | discriminate]
        | first [ exact Hs
                | apply findById_updateById_not_none;
                  [intro; apply writeBack_id | exact Hs]
                | apply findById_app_last; reflexivity ] ] ]
  | first
      [ no_new
      | eexists; split; [reflexivity|];
        intros ? [<- | []]; first [apply Hc; reflexivity | exact Hc] ]
  | let j := fresh "j" in
    let Hj := fresh "Hj" in
    intros j Hj; unfold stored in *; simpl;
    first [ exact Hj
          | apply findById_updateById_not_none;
            [intro; apply writeBack_id | exact Hj]
          | apply findById_app_not_none; exact Hj ] ].

(** A send request on a [pending] or [in_progress] session, past the
    guard and the body check. *)
Lemma send_on_active_session (u : AuthUser) (i : ObjectId)
  (b : MessageBody) (w : World) (s : DoubtSession) :
  stored w i = Some s ->
  ds_status s = pending \/ ds_status s = in_progress ->
  truthy (mb_messageText b) || truthy (mb_attachmentUrl b) = true ->
  match senderRoleOf (user_role u) with
  | None =>
      sendDoubtMessage b
        {| user := u; doubtSessionId := i; doubtSession := Some (loaded s) |}
        w
      = Return (respond 500 "Server error sending message.") w
  | Some role =>
      exists w' s',
        sendDoubtMessage b
          {| user := u; doubtSessionId := i;
             doubtSession := Some (loaded s) |} w
        = Return {| statusCode := 201;
                    body := messageJson (sentMessage u i b w role) |} w'
        /\ messages w' = (messages w ++ [sentMessage u i b w role])%list
        /\ stored w' i = Some s'
        /\ ds_lastMessageAt s' = clock w
        /\ ds_status s'
           = (if Role_eqb (user_role u) trainer
                 && Status_eqb (ds_status s) pending
              then in_progress else ds_status s)
        /\ Ext w w'
  end.
Proof.
  intros Hs Hst Hb. pose proof (stored_id _ _ _ Hs) as Hid.
  assert (Hsome : findById ds_id (doubts w) i <> None)
    by (unfold stored in Hs; rewrite Hs; discriminate).
  destruct (body_check b Hb) as [Hb' Hv].
  apply terminalOrResolved_false in Hst.
  unfold sendDoubtMessage. simpl. rewrite Hb', Hst.
  unfold tryCatch, bind at 1. unfold ret at 1. unfold bind at 1.
  unfold saveChatMessage. simpl.
  destruct (senderRoleOf (user_role u)) as [role|] eqn:Hrole;
    [|reflexivity].
  rewrite Hv. unfold bind, freshId, newDate. simpl.
  unfold sentMessage. rewrite Hid.
  apply terminalOrResolved_false in Hst.
  set (d3 := if Role_eqb (user_role u) trainer
                && Status_eqb (ds_status (d_val (setLastMessageAt (loaded s) (clock w)))) pending
             then setStatus (setLastMessageAt (loaded s) (clock w)) in_progress
             else setLastMessageAt (loaded s) (clock w)).
  assert (Hd3 : ds_id (d_val d3) = i
                /\ ds_student (d_val d3) = ds_student s
                /\ (if d_modLastMessageAt d3
                    then ds_lastMessageAt (d_val d3)
                    else ds_lastMessageAt s) = clock w
                /\ (if d_modStatus d3 then ds_status (d_val d3)
                    else ds_status s)
                   = (if Role_eqb (user_role u) trainer
                         && Status_eqb (ds_status s) pending
                      then in_progress else ds_status s)
                /\ ds_status (d_val d3) <> resolved).
  { assert (Hnr : ds_status s <> resolved)
      by (destruct Hst as [-> | ->]; discriminate).
    subst d3. unfold setLastMessageAt, setStatus. simpl.
    destruct (ds_lastMessageAt s =? clock w) eqn:E; simpl;
      [apply Z.eqb_eq in E|];
      destruct (Role_eqb (user_role u) trainer); simpl;
      destruct Hst as [-> | ->]; simpl; repeat split; auto;
      try discriminate; exact Hnr. }
  destruct Hd3 as (Hd3id & Hd3st & Hd3l & Hd3s & Hd3r).
  assert (Hc : forall m, cm_messageText m = mb_messageText b ->
                         cm_attachmentUrl m = mb_attachmentUrl b ->
                         hasContent m = true)
    by (intros m H1 H2; unfold hasContent; rewrite H1, H2; exact Hb).
  rewrite <- Hd3id in Hsome.
  destruct (d_modStatus d3 || d_modLastMessageAt d3) eqn:Hmod.
  - erewrite save_modified; [|exact Hmod|rewrite Hd3id; exact Hs].
    unfold ret, emit, setTimeout. rewrite Hd3id.
    destruct (Role_eqb (user_role u) trainer) eqn:Htr;
      destruct (DoubtType_eqb (ds_doubtType s) aiDoubt
                && Role_eqb (user_role u) student) eqn:Hai; simpl;
      do 2 eexists; (split; [reflexivity|]); simpl;
      (split; [reflexivity|]); unfold stored; simpl;
      (split; [apply findById_updateById;
               [intro; apply writeBack_id | exact Hs]|]);
      rewrite writeBack_lastMessageAt, writeBack_status;
      (split; [assumption|]); (split; [assumption|]);
      ext_leaf Hc Hd3r Hsome.
  - rewrite save_clean by exact Hmod.
    apply orb_false_iff in Hmod. destruct Hmod as [Hm1 Hm2].
    rewrite Hm1 in Hd3s. rewrite Hm2 in Hd3l.
    unfold ret, emit, setTimeout.
    destruct (Role_eqb (user_role u) trainer) eqn:Htr;
      destruct (DoubtType_eqb (ds_doubtType s) aiDoubt
                && Role_eqb (user_role u) student) eqn:Hai; simpl;
      do 2 eexists; (split; [reflexivity|]); simpl;
      (split; [reflexivity|]); unfold stored; simpl;
      (split; [exact Hs|]);
      (split; [assumption|]); (split; [assumption|]);
      ext_leaf Hc Hd3r Hsome.
Qed.

(** A send request on a [resolved], [closed] or [cancelled] session. *)
Lemma send_on_finished_session (u : AuthUser) (i : ObjectId)
  (b : MessageBody) (w : World) (s : DoubtSession) :
  stored w i = Some s ->
  ds_status s = resolved \/ ds_status s = closed \/ ds_status s = cancelled ->
  let reopens :=
    DoubtType_eqb (ds_doubtType s) aiDoubt
    && Role_eqb (user_role u) student
    && (isStudentParticipant s (user_id u)
        || isTrainerParticipant s (user_id u))
    && (truthy (mb_messageText b) || truthy (mb_attachmentUrl b)) in
  (reopens = true ->
   exists r w' m s',
     guarded (sendDoubtMessage b) (request u i) w = Return r w'
     /\ statusCode r = 201%nat
     /\ messages w' = (messages w ++ [m])%list
     /\ cm_doubtSession m = i
     /\ cm_sender m = Some (user_id u)
     /\ cm_senderRole m = fromStudent
     /\ stored w' i = Some s'
     /\ ds_status s' = in_progress
     /\ ds_lastMessageAt s' = clock w
     /\ Ext w w'
     /\ exists d,
          timers w'
          = (timers w
             ++ [{| tm_id := S (nextId w); tm_due := clock w + 3000;
                    tm_task := aiFollowUp d (mb_messageText b) |}])%list
          /\ ds_id (d_val d) = i)
  /\ (reopens = false ->
      exists r,
        guarded (sendDoubtMessage b) (request u i) w = Return r w
        /\ (400 <= statusCode r)%nat).
Proof.
  intros Hs Hst reopens. pose proof (stored_id _ _ _ Hs) as Hid.
  assert (Hsome : findById ds_id (doubts w) i <> None)
    by (unfold stored in Hs; rewrite Hs; discriminate).
  apply terminalOrResolved_true in Hst. subst reopens. split.
  - intro H. repeat rewrite andb_true_iff in H.
    destruct H as (((Hai & Hrole) & Hp) & Hb).
    apply Role_eqb_eq in Hrole.
    assert (Hr : user_role u <> admin) by (rewrite Hrole; discriminate).
    unfold guarded, bind at 1. rewrite (guard_participant u i w s Hr Hs Hp).
    unfold sendDoubtMessage. simpl.
    assert (Hb' : negb (truthy (mb_messageText b))
                  && negb (truthy (mb_attachmentUrl b)) = false).
    { destruct (truthy (mb_messageText b)), (truthy (mb_attachmentUrl b));
        try reflexivity; discriminate. }
    rewrite Hb', Hst, Hai, Hrole. simpl.
    assert (Hv : messageTextValid (mb_messageText b) (mb_attachmentUrl b)
                 = true).
    { unfold messageTextValid.
      destruct (truthy (mb_messageText b)), (truthy (mb_attachmentUrl b));
        try reflexivity; discriminate. }
    assert (Hne : Status_eqb (ds_status s) in_progress = false).
    { apply terminalOrResolved_true in Hst.
      destruct Hst as [-> | [-> | ->]]; reflexivity. }
    unfold tryCatch, bind, newDate.
    assert (Hsave :
      exists d,
        save (setLastMessageAt (setStatus (loaded s) in_progress) (clock w)) w
        = Return (loaded d)
            (withDoubts w
               (updateById i
                  (writeBack
                     (setLastMessageAt (setStatus (loaded s) in_progress)
                        (clock w)) (clock w))
                  (doubts w)))
        /\ ds_id d = i /\ ds_lastMessageAt d = clock w
        /\ ds_status d = in_progress /\ ds_student d = ds_student s
        /\ d_modStatus
             (setLastMessageAt (setStatus (loaded s) in_progress) (clock w))
           = true).
    { unfold setStatus. simpl. rewrite Hne. unfold setLastMessageAt. simpl.
      destruct (ds_lastMessageAt s =? clock w) eqn:E.
      - apply Z.eqb_eq in E.
        erewrite save_modified;
          [|reflexivity|simpl; rewrite Hid; exact Hs].
        simpl. rewrite Hid. eexists. split; [reflexivity|].
        simpl. auto.
      - erewrite save_modified;
          [|reflexivity|simpl; rewrite Hid; exact Hs].
        simpl. rewrite Hid. eexists. split; [reflexivity|].
        simpl. auto. }
    destruct Hsave as (d & -> & Hdid & Hdl & Hds & Hdst & Hmod).
    unfold saveChatMessage. simpl. rewrite Hv.
    unfold bind, freshId, newDate. simpl.
    rewrite (setLastMessageAt_same (loaded d) (clock w) Hdl).
    rewrite save_clean by reflexivity. unfold ret.
    do 4 eexists. split; [reflexivity|]. simpl.
    split; [reflexivity|]. split; [reflexivity|].
    split; [exact Hdid|]. split; [reflexivity|]. split; [reflexivity|].
    unfold stored. simpl. split; [|split; [|split; [|split]]].
    + apply findById_updateById; [intro; apply writeBack_id | exact Hs].
    + rewrite writeBack_status, Hmod.
      unfold setLastMessageAt, setStatus. simpl. rewrite Hne. simpl.
      destruct (ds_lastMessageAt s =? clock w); reflexivity.
    + rewrite writeBack_lastMessageAt.
      unfold setLastMessageAt, setStatus. simpl. rewrite Hne. simpl.
      destruct (ds_lastMessageAt s =? clock w) eqn:E; simpl; auto.
      apply Z.eqb_eq in E. auto.
    + assert (Hc : forall m, cm_messageText m = mb_messageText b ->
                             cm_attachmentUrl m = mb_attachmentUrl b ->
                             hasContent m = true)
        by (intros m H1 H2; unfold hasContent; rewrite H1, H2; exact Hb).
      assert (Hr' : ds_status d <> resolved) by (rewrite Hds; discriminate).
      rewrite <- Hdid in Hsome.
      ext_leaf Hc Hr' Hsome.
    + eexists. split; [reflexivity | exact Hdid].
  - intro H.
    destruct (Role_eqb (user_role u) admin) eqn:Hadm.
    + apply Role_eqb_eq in Hadm.
      unfold guarded, bind at 1. rewrite guard_admin by exact Hadm.
      unfold sendDoubtMessage. simpl.
      destruct (negb (truthy (mb_messageText b))
                && negb (truthy (mb_attachmentUrl b)));
        eexists; (split; [reflexivity|simpl; lia]).
    + apply Role_eqb_neq in Hadm.
      destruct (isStudentParticipant s (user_id u)
                || isTrainerParticipant s (user_id u)) eqn:Hp.
      * unfold guarded, bind at 1.
        rewrite (guard_participant u i w s Hadm Hs Hp).
        unfold sendDoubtMessage. simpl.
        destruct (truthy (mb_messageText b) || truthy (mb_attachmentUrl b))
          eqn:Hb.
        -- assert (Hb' : negb (truthy (mb_messageText b))
                         && negb (truthy (mb_attachmentUrl b)) = false).
           { destruct (truthy (mb_messageText b)),
               (truthy (mb_attachmentUrl b)); try reflexivity; discriminate. }
           rewrite Hb', Hst. rewrite !andb_true_r in H. rewrite H.
           unfold tryCatch, bind, ret. simpl.
           eexists. split; [reflexivity|simpl; lia].
        -- apply orb_false_iff in Hb. destruct Hb as [-> ->]. simpl.
           eexists. split; [reflexivity|simpl; lia].
      * unfold guarded, bind at 1.
        rewrite (guard_outsider u i w s Hadm Hs Hp).
        eexists. split; [reflexivity|simpl; lia].
Qed.


(** C1, as the code has it.  On a session that is [resolved], [closed] or
    [cancelled], a send request is accepted exactly when the session is
    of type ai, the sender's role is student, the sender is a
    participant and the message has a text or an attachment: then it
    answers 201, stores one new message from that student and stores the
    status [in_progress], from any of the three statuses.  Every other
    send request on such a session is answered with an error and changes
    nothing. *)
Theorem C1_send_on_finished_session (u : AuthUser) (i : ObjectId)
  (b : MessageBody) (w : World) (s : DoubtSession) :
  stored w i = Some s ->
  ds_status s = resolved \/ ds_status s = closed \/ ds_status s = cancelled ->
  let reopens :=
    DoubtType_eqb (ds_doubtType s) aiDoubt
    && Role_eqb (user_role u) student
    && (isStudentParticipant s (user_id u)
        || isTrainerParticipant s (user_id u))
    && (truthy (mb_messageText b) || truthy (mb_attachmentUrl b)) in
  (reopens = true ->
   exists r w' m s',
     guarded (sendDoubtMessage b) (request u i) w = Return r w'
     /\ statusCode r = 201%nat
     /\ messages w' = (messages w ++ [m])%list
     /\ cm_doubtSession m = i
     /\ cm_sender m = Some (user_id u)
     /\ cm_senderRole m = fromStudent
     /\ stored w' i = Some s'
     /\ ds_status s' = in_progress)
  /\ (reopens = false ->
      exists r,
        guarded (sendDoubtMessage b) (request u i) w = Return r w
        /\ (400 <= statusCode r)%nat).
Proof.
  intros Hs Hst reopens.
  destruct (send_on_finished_session u i b w s Hs Hst) as [Hyes Hno].
  split; [|exact Hno].
  intro H. destruct (Hyes H) as (r & w' & m & s' & H1 & H2 & H3 & H4 & H5
                                  & H6 & H7 & H8 & _).
  exists r, w', m, s'. repeat split; assumption.
Qed.

(** C1 on the session Asha closed early: her next message reopens it, and
    Ravi, who is no participant, is refused. *)
Lemma C1_send_on_finished_session_witness :
  (exists r w' m s',
     guarded (sendDoubtMessage (Sample.textOnly "one more question"))
       (request Sample.asAsha 100%nat) Sample.closedEarly = Return r w'
     /\ statusCode r = 201%nat
     /\ messages w' = (messages Sample.closedEarly ++ [m])%list
     /\ cm_doubtSession m = 100%nat
     /\ cm_sender m = Some 1%nat
     /\ cm_senderRole m = fromStudent
     /\ stored w' 100%nat = Some s'
     /\ ds_status s' = in_progress)
  /\ (exists r,
        guarded (sendDoubtMessage (Sample.textOnly "hello"))
          (request Sample.asRavi 100%nat) Sample.closedEarly
        = Return r Sample.closedEarly
        /\ (400 <= statusCode r)%nat).
Proof.
  split.
  - refine (proj1 (C1_send_on_finished_session Sample.asAsha 100%nat
                     (Sample.textOnly "one more question")
                     Sample.closedEarly _ _ _) _).
    + vm_compute. reflexivity.
    + right. left. reflexivity.
    + reflexivity.
  - refine (proj2 (C1_send_on_finished_session Sample.asRavi 100%nat
                     (Sample.textOnly "hello") Sample.closedEarly _ _ _) _).
    + vm_compute. reflexivity.
    + right. left. reflexivity.
    + reflexivity.
Defined.

(** C1 as stated fails: a session that is [closed] is not shut for good.
    Asha's message on her closed AI session is answered 201, stored, and
    puts the session back to [in_progress]. *)
Lemma C1_counterexample :
  ~ (forall (u : AuthUser) (i : ObjectId) (b : MessageBody) (w : World)
            (s : DoubtSession),
        stored w i = Some s ->
        ds_status s = closed \/ ds_status s = cancelled ->
        exists r w',
          guarded (sendDoubtMessage b) (request u i) w = Return r w'
          /\ (400 <= statusCode r)%nat
          /\ messages w' = messages w
          /\ stored w' i = Some s).
Proof.
  intro H.
  destruct (H Sample.asAsha 100%nat (Sample.textOnly "one more question")
              Sample.closedEarly
              {| ds_id := 100%nat; ds_student := 1%nat; ds_trainer := None;
                 ds_grade := 7; ds_school := 10%nat; ds_session := None;
                 ds_initialDoubtText := "What is photosynthesis?";
                 ds_doubtType := aiDoubt; ds_status := closed;
                 ds_lastMessageAt := 1000; ds_aiHelpful := None;
                 ds_aiFeedbackText := None; ds_createdAt := 1000;
                 ds_updatedAt := 1000 |})
    as (r & w' & Hrun & Hcode & _).
  - vm_compute. reflexivity.
  - left. reflexivity.
  - vm_compute in Hrun. injection Hrun as <- _. simpl in Hcode. lia.
Qed.

(** C8.  Every send request that is answered 201 stored one new message
    of the sender in the session and left the stored [lastMessageAt] at
    the time of the request; when the session was [pending], the stored
    status is [in_progress] if the sender's role is trainer and still
    [pending] for every other role. *)
Theorem C8_successful_send (u : AuthUser) (i : ObjectId) (b : MessageBody)
  (w w' : World) (r : Response) :
  guarded (sendDoubtMessage b) (request u i) w = Return r w' ->
  statusCode r = 201%nat ->
  exists s s' m,
    stored w i = Some s
    /\ stored w' i = Some s'
    /\ messages w' = (messages w ++ [m])%list
    /\ cm_doubtSession m = i
    /\ cm_sender m = Some (user_id u)
    /\ ds_lastMessageAt s' = clock w
    /\ (ds_status s = pending -> user_role u = trainer ->
        ds_status s' = in_progress)
    /\ (ds_status s = pending -> user_role u <> trainer ->
        ds_status s' = pending).
Proof.
  intros Hrun Hcode.
  destruct (Role_eqb (user_role u) admin) eqn:Hadm.
  { apply Role_eqb_eq in Hadm. exfalso.
    unfold guarded, bind at 1 in Hrun.
    rewrite guard_admin in Hrun by exact Hadm.
    unfold sendDoubtMessage in Hrun. simpl in Hrun.
    destruct (negb (truthy (mb_messageText b))
              && negb (truthy (mb_attachmentUrl b)));
      inversion Hrun; subst; discriminate Hcode. }
  apply Role_eqb_neq in Hadm.
  destruct (stored w i) as [s|] eqn:Hs.
  2:{ exfalso. unfold guarded, bind at 1 in Hrun.
      rewrite (guard_missing u i w Hadm Hs) in Hrun.
      inversion Hrun; subst; discriminate Hcode. }
  destruct (isStudentParticipant s (user_id u)
            || isTrainerParticipant s (user_id u)) eqn:Hp.
  2:{ exfalso. unfold guarded, bind at 1 in Hrun.
      rewrite (guard_outsider u i w s Hadm Hs Hp) in Hrun.
      inversion Hrun; subst; discriminate Hcode. }
  destruct (truthy (mb_messageText b) || truthy (mb_attachmentUrl b))
    eqn:Hb.
  2:{ exfalso. unfold guarded, bind at 1 in Hrun.
      rewrite (guard_participant u i w s Hadm Hs Hp) in Hrun.
      unfold sendDoubtMessage in Hrun. simpl in Hrun.
      apply orb_false_iff in Hb. destruct Hb as [Hb1 Hb2].
      rewrite Hb1, Hb2 in Hrun. simpl in Hrun.
      inversion Hrun; subst; discriminate Hcode. }
  destruct (terminalOrResolved (ds_status s)) eqn:Hst.
  - apply terminalOrResolved_true in Hst.
    destruct (send_on_finished_session u i b w s Hs Hst) as [Hyes Hno].
    rewrite Hp, Hb, !andb_true_r in Hyes, Hno.
    destruct (DoubtType_eqb (ds_doubtType s) aiDoubt
              && Role_eqb (user_role u) student).
    + destruct (Hyes eq_refl)
        as (r0 & w0 & m & s' & H1 & H2 & H3 & H4 & H5 & H6 & H7 & H8 & H9
           & _).
      rewrite H1 in Hrun. injection Hrun as <- <-.
      exists s, s', m. repeat split; try assumption.
      * intros Hpen. rewrite Hpen in Hst.
        destruct Hst as [? | [? | ?]]; discriminate.
      * intros Hpen. rewrite Hpen in Hst.
        destruct Hst as [? | [? | ?]]; discriminate.
    + exfalso. destruct (Hno eq_refl) as (r0 & H1 & H2).
      rewrite H1 in Hrun. injection Hrun as <- <-. lia.
  - apply terminalOrResolved_false in Hst.
    unfold guarded, bind at 1 in Hrun.
    rewrite (guard_participant u i w s Hadm Hs Hp) in Hrun.
    pose proof (send_on_active_session u i b w s Hs Hst Hb) as Hact.
    destruct (senderRoleOf (user_role u)) as [role|].
    + destruct Hact as (w0 & s' & H1 & H2 & H3 & H4 & H5 & _).
      rewrite H1 in Hrun. injection Hrun as <- <-.
      exists s, s', (sentMessage u i b w role).
      repeat split; try assumption.
      * intros Hpen Htr. rewrite H5, Hpen, Htr. reflexivity.
      * intros Hpen Htr. rewrite H5, Hpen.
        apply Role_eqb_neq in Htr. rewrite Htr. reflexivity.
    + exfalso. rewrite Hact in Hrun.
      inversion Hrun; subst; discriminate Hcode.
Qed.

(** C8 on the sample world: Ravi answers Asha's pending session. *)
Lemma C8_successful_send_witness :
  exists s s' m,
    stored Sample.askedTrainer 100%nat = Some s
    /\ stored (run (doSend Sample.asRavi 100%nat
                      (Sample.textOnly "Rayleigh scattering."))
                 Sample.askedTrainer) 100%nat = Some s'
    /\ messages (run (doSend Sample.asRavi 100%nat
                        (Sample.textOnly "Rayleigh scattering."))
                   Sample.askedTrainer)
       = (messages Sample.askedTrainer ++ [m])%list
    /\ cm_doubtSession m = 100%nat
    /\ cm_sender m = Some (user_id Sample.asRavi)
    /\ ds_lastMessageAt s' = clock Sample.askedTrainer
    /\ (ds_status s = pending -> user_role Sample.asRavi = trainer ->
        ds_status s' = in_progress)
    /\ (ds_status s = pending -> user_role Sample.asRavi <> trainer ->
        ds_status s' = pending).
Proof.
  refine (C8_successful_send Sample.asRavi 100%nat
            (Sample.textOnly "Rayleigh scattering.") Sample.askedTrainer
            (run (doSend Sample.asRavi 100%nat
                    (Sample.textOnly "Rayleigh scattering."))
               Sample.askedTrainer)
            {| statusCode := 201;
               body := messageJson
                         {| cm_id := 102%nat; cm_doubtSession := 100%nat;
                            cm_sender := Some 2%nat;
                            cm_senderRole := fromTrainer;
                            cm_messageText := Some "Rayleigh scattering.";
                            cm_attachmentUrl := None;
                            cm_createdAt := 1000 |} |} _ _).
  - vm_compute. reflexivity.
  - reflexivity.
Defined.

(** ** Every handler extends the world *)

Lemma Ext_guarded (h : Request -> M World Response) (req : Request)
  (w : World) :
  (forall req', Ext w (stateOf (h req' w))) ->
  Ext w (stateOf (guarded h req w)).
Proof.
  intro H. unfold guarded, bind.
  destruct (guard_pure req w) as (r & ->).
  destruct r as [resp | req']; [apply Ext_refl | apply H].
Qed.

Lemma Ext_closeDoubtSession (req : Request) (w : World) :
  Ext w (stateOf (closeDoubtSession req w)).
Proof.
  unfold closeDoubtSession, tryCatch, bind.
  destruct (doubtSession req) as [d|]; [|apply Ext_refl].
  destruct (Status_eqb (ds_status (d_val d)) closed
            || Status_eqb (ds_status (d_val d)) resolved
            || Status_eqb (ds_status (d_val d)) cancelled);
    [apply Ext_refl|].
  destruct (negb (Role_eqb (user_role (user req)) admin)
            && negb (isStudentParticipant (d_val d) (user_id (user req)))
            && negb (isTrainerParticipant (d_val d) (user_id (user req))));
    [apply Ext_refl|].
  destruct (save_outcome (setStatus d closed) w)
    as [-> | [-> | (_ & _ & ->)]]; simpl.
  - apply (Ext_emit _ w).
  - apply Ext_refl.
  - eapply Ext_trans;
      [apply Ext_withDoubts_update; intro; apply writeBack_id|].
    apply (Ext_emit _ (withDoubts w _)).
Qed.

Lemma Ext_getDoubtSessionMessages (req : Request) (w : World) :
  Ext w (stateOf (getDoubtSessionMessages req w)).
Proof. apply Ext_refl. Qed.

Lemma Ext_getTrainerDoubtSessions (u : AuthUser) (w : World) :
  Ext w (stateOf (getTrainerDoubtSessions u w)).
Proof. apply Ext_refl. Qed.

Lemma Ext_guarded_send (u : AuthUser) (i : ObjectId) (b : MessageBody)
  (w : World) :
  Ext w (stateOf (guarded (sendDoubtMessage b) (request u i) w)).
Proof.
  destruct (Role_eqb (user_role u) admin) eqn:Hadm.
  { apply Role_eqb_eq in Hadm. unfold guarded, bind at 1.
    rewrite guard_admin by exact Hadm.
    unfold sendDoubtMessage. simpl.
    destruct (negb (truthy (mb_messageText b))
              && negb (truthy (mb_attachmentUrl b))); apply Ext_refl. }
  apply Role_eqb_neq in Hadm.
  destruct (stored w i) as [s|] eqn:Hs.
  2:{ unfold guarded, bind at 1. rewrite (guard_missing u i w Hadm Hs).
      apply Ext_refl. }
  destruct (isStudentParticipant s (user_id u)
            || isTrainerParticipant s (user_id u)) eqn:Hp.
  2:{ unfold guarded, bind at 1.
      rewrite (guard_outsider u i w s Hadm Hs Hp). apply Ext_refl. }
  destruct (truthy (mb_messageText b) || truthy (mb_attachmentUrl b))
    eqn:Hb.
  2:{ unfold guarded, bind at 1.
      rewrite (guard_participant u i w s Hadm Hs Hp).
      unfold sendDoubtMessage. simpl.
      apply orb_false_iff in Hb. destruct Hb as [-> ->]. apply Ext_refl. }
  destruct (terminalOrResolved (ds_status s)) eqn:Hst.
  - apply terminalOrResolved_true in Hst.
    destruct (send_on_finished_session u i b w s Hs Hst) as [Hyes Hno].
    rewrite Hp, Hb, !andb_true_r in Hyes, Hno.
    destruct (DoubtType_eqb (ds_doubtType s) aiDoubt
              && Role_eqb (user_role u) student).
    + destruct (Hyes eq_refl)
        as (r0 & w0 & m & s' & -> & _ & _ & _ & _ & _ & _ & _ & _ & E & _).
      exact E.
    + destruct (Hno eq_refl) as (r0 & -> & _). apply Ext_refl.
  - apply terminalOrResolved_false in Hst.
    unfold guarded, bind at 1.
    rewrite (guard_participant u i w s Hadm Hs Hp).
    pose proof (send_on_active_session u i b w s Hs Hst Hb) as Hact.
    destruct (senderRoleOf (user_role u)) as [role|].
    + destruct Hact as (w0 & s' & -> & _ & _ & _ & _ & E). exact E.
    + rewrite Hact. apply Ext_refl.
Qed.

(** ** Initiating a session *)

Lemma nonEmpty_Some (v : option string) (s : string) :
  nonEmpty v = Some s -> v = Some s /\ truthy v = true.
Proof.
  destruct v as [t|]; simpl; [|discriminate].
  destruct (String.eqb t ""); [discriminate|].
  intro H. injection H as ->. auto.
Qed.


Lemma initial_message_valid (v att : option string) (s : string) :
  nonEmpty v = Some s -> messageTextValid (Some s) att = true.
Proof.
  intro H. apply nonEmpty_Some in H. destruct H as [-> H].
  unfold messageTextValid. rewrite H. destruct (negb (truthy att)); reflexivity.
Qed.

Ltac refused o := subst o; left; eexists; split; [reflexivity | simpl; lia].

(** Every run of [initiateDoubtSession] either answers an error and
    leaves the world as it was, or answers 201 after appending one session
    and one message (and, for an AI doubt, one timer). *)
Lemma initiate_cases (u : AuthUser) (b : InitiateBody) (w : World) :
  (exists r,
     initiateDoubtSession u b w = Return r w /\ (400 <= statusCode r)%nat)
  \/ (exists r w' ds cm text,
        initiateDoubtSession u b w = Return r w'
        /\ statusCode r = 201%nat
        /\ nonEmpty (b_initialDoubtText b) = Some text
        /\ doubts w' = (doubts w ++ [ds])%list
        /\ messages w' = (messages w ++ [cm])%list
        /\ ds_id ds = nextId w
        /\ ds_student ds = user_id u
        /\ ds_lastMessageAt ds = clock w
        /\ cm_doubtSession cm = ds_id ds
        /\ cm_sender cm = Some (user_id u)
        /\ cm_senderRole cm = fromStudent
        /\ cm_messageText cm = Some text
        /\ cm_attachmentUrl cm = b_attachmentUrl b
        /\ ((b_doubtType b = Some "trainer"
             /\ ds_doubtType ds = trainerDoubt
             /\ ds_status ds = pending
             /\ ds_trainer ds <> None
             /\ ds_trainer ds = b_trainerId b
             /\ ds_session ds <> None
             /\ ds_session ds = b_sessionId b
             /\ timers w' = timers w)
            \/ (b_doubtType b = Some "ai"
                /\ ds_doubtType ds = aiDoubt
                /\ ds_status ds = in_progress
                /\ ds_trainer ds = None
                /\ exists name,
                     timers w'
                     = (timers w
                        ++ [{| tm_id := S (S (nextId w));
                               tm_due := clock w + 5000;
                               tm_task := aiAnswer (loaded ds) name text |}])%list))
        /\ Ext w w').
Proof.
  assert (Hc : forall text, nonEmpty (b_initialDoubtText b) = Some text ->
                 forall m, cm_messageText m = Some text ->
                           hasContent m = true).
  { intros text Ht m Hm. unfold hasContent. rewrite Hm.
    apply nonEmpty_Some in Ht. destruct Ht as [Ht1 Ht2].
    rewrite <- Ht1, Ht2. reflexivity. }
  remember (initiateDoubtSession u b w) as o eqn:Ho.
  unfold initiateDoubtSession in Ho.
  destruct (nonEmpty (b_doubtType b)) as [dt|] eqn:Hdt; [|refused o].
  destruct (nonEmpty (b_initialDoubtText b)) as [text|] eqn:Htext;
    [|refused o].
  unfold bind at 1, getWorld at 1 in Ho.
  destruct (findById u_id (users w) (user_id u)) as [st|] eqn:Hst;
    [|refused o].
  destruct (findById_id _ _ _ _ Hst) as [Hsid _].
  destruct (nonEmpty (u_school st)) as [schoolName|]; [|refused o].
  destruct (findSchoolByName (schools w) schoolName) as [schoolDoc|];
    [|refused o].
  pose proof (initial_message_valid _ (b_attachmentUrl b) _ Htext) as Hv.
  apply nonEmpty_Some in Hdt. destruct Hdt as [Hdt _].
  unfold tryCatch in Ho.
  destruct (String.eqb dt "trainer") eqn:Etr.
  - apply String.eqb_eq in Etr. subst dt.
    destruct (b_trainerId b) as [trainerId|] eqn:Htid; [|refused o].
    destruct (b_sessionId b) as [sessionId|] eqn:Hsess; [|refused o].
    destruct (findById u_id (users w) trainerId) as [tr|] eqn:Htr;
      [|refused o].
    destruct (findById_id _ _ _ _ Htr) as [Htrid _].
    destruct (negb (Role_eqb (u_role tr) trainer)); [refused o|].
    destruct (findSessionByTopic (sessions w) sessionId); [|refused o].
    unfold bind at 1, newDate at 1 in Ho. unfold bind at 1 in Ho.
    unfold saveNewDoubtSession in Ho. simpl in Ho.
    destruct (u_grade st) as [g|] eqn:Hg; [|refused o].
    unfold doubtSessionValid in Ho. simpl in Ho.
    destruct (negb (String.eqb (trim text) "")); [|refused o].
    unfold bind, freshId, newDate, saveChatMessage in Ho. simpl in Ho.
    rewrite Hv in Ho.
    unfold bind, freshId, newDate, emit, ret in Ho. simpl in Ho.
    subst o. right. do 5 eexists. split; [reflexivity|]. simpl.
    rewrite Hsid, Htrid.
    repeat (split; [reflexivity|]). split.
    + left. repeat split; try reflexivity; try assumption; discriminate.
    + specialize (Hc text eq_refl). ext_leaf Hc Hc Hc.
  - destruct (String.eqb dt "ai") eqn:Eai; [|refused o].
    apply String.eqb_eq in Eai. subst dt.
    unfold bind at 1, newDate at 1 in Ho. unfold bind at 1 in Ho.
    unfold saveNewDoubtSession in Ho. simpl in Ho.
    destruct (u_grade st) as [g|] eqn:Hg; [|refused o].
    unfold doubtSessionValid in Ho. simpl in Ho.
    destruct (negb (String.eqb (trim text) "")); [|refused o].
    unfold bind, freshId, newDate, saveChatMessage in Ho. simpl in Ho.
    rewrite Hv in Ho.
    unfold bind, freshId, newDate, setTimeout, ret in Ho. simpl in Ho.
    subst o. right. do 5 eexists. split; [reflexivity|]. simpl.
    rewrite Hsid.
    repeat (split; [reflexivity|]). split.
    + right. repeat split; try reflexivity; try assumption.
      eexists. reflexivity.
    + specialize (Hc text eq_refl). ext_leaf Hc Hc Hc.
Qed.

(** A request that is not answered 201 stored nothing: the world is the
    one before the request. *)
Lemma initiate_failure_changes_nothing (u : AuthUser) (b : InitiateBody)
  (w w' : World) (r : Response) :
  initiateDoubtSession u b w = Return r w' ->
  statusCode r <> 201%nat ->
  w' = w.
Proof.
  intros Hrun Hcode.
  destruct (initiate_cases u b w)
    as [(r0 & H & _) | (r0 & w0 & ds & cm & text & H & H201 & _)];
    rewrite H in Hrun; injection Hrun as <- <-; [reflexivity | contradiction].
Qed.

(** C7.  Every initiate request that is answered 201 appended exactly one
    session and exactly one message: the session belongs to the caller
    and is [pending] for a trainer doubt and [in_progress] for an AI
    doubt, and the message is the caller's, in that session, with sender
    role student. *)
Theorem C7_successful_initiate (u : AuthUser) (b : InitiateBody)
  (w w' : World) (r : Response) :
  initiateDoubtSession u b w = Return r w' ->
  statusCode r = 201%nat ->
  exists ds cm,
    doubts w' = (doubts w ++ [ds])%list
    /\ messages w' = (messages w ++ [cm])%list
    /\ ds_student ds = user_id u
    /\ cm_doubtSession cm = ds_id ds
    /\ cm_sender cm = Some (user_id u)
    /\ cm_senderRole cm = fromStudent
    /\ ((b_doubtType b = Some "trainer"
         /\ ds_doubtType ds = trainerDoubt /\ ds_status ds = pending)
        \/ (b_doubtType b = Some "ai"
            /\ ds_doubtType ds = aiDoubt /\ ds_status ds = in_progress)).
Proof.
  intros Hrun Hcode.
  destruct (initiate_cases u b w)
    as [(r0 & H & Hc)
       | (r0 & w0 & ds & cm & text & H & _ & _ & Hd & Hm & _ & Hst & _
          & Hcd & Hcs & Hcr & _ & _ & Hkind & _)];
    rewrite H in Hrun; injection Hrun as <- <-.
  - rewrite Hcode in Hc. lia.
  - exists ds, cm. repeat (split; [assumption|]).
    destruct Hkind as [(H1 & H2 & H3 & _) | (H1 & H2 & H3 & _)]; auto.
Qed.

(** C7 on the sample world: Asha's question to the AI. *)
Lemma C7_successful_initiate_witness :
  exists ds cm,
    doubts Sample.askedAi = (doubts Sample.start ++ [ds])%list
    /\ messages Sample.askedAi = (messages Sample.start ++ [cm])%list
    /\ ds_student ds = user_id Sample.asAsha
    /\ cm_doubtSession cm = ds_id ds
    /\ cm_sender cm = Some (user_id Sample.asAsha)
    /\ cm_senderRole cm = fromStudent
    /\ ((b_doubtType Sample.askAi = Some "trainer"
         /\ ds_doubtType ds = trainerDoubt /\ ds_status ds = pending)
        \/ (b_doubtType Sample.askAi = Some "ai"
            /\ ds_doubtType ds = aiDoubt /\ ds_status ds = in_progress)).
Proof.
  refine (C7_successful_initiate Sample.asAsha Sample.askAi Sample.start
            Sample.askedAi
            {| statusCode := 201;
               body := initiated "Doubt session initiated with AI." 100%nat
                         {| cm_id := 101%nat; cm_doubtSession := 100%nat;
                            cm_sender := Some 1%nat;
                            cm_senderRole := fromStudent;
                            cm_messageText := Some "What is photosynthesis?";
                            cm_attachmentUrl := None;
                            cm_createdAt := 1000 |}
                         (Some "I'm processing your doubt...") |} _ _).
  - vm_compute. reflexivity.
  - reflexivity.
Defined.




(** ** The callbacks extend the world *)

Lemma frame_bind {A B} (m : M Frame A) (k : A -> M Frame B) :
  (forall d w, Ext w (snd (stateOf (m (d, w))))) ->
  (forall a d w, Ext w (snd (stateOf (k a (d, w))))) ->
  forall d w, Ext w (snd (stateOf (bind m k (d, w)))).
Proof.
  intros Hm Hk d w. unfold bind. specialize (Hm d w).
  destruct (m (d, w)) as [a [d1 w1] | [d1 w1]]; simpl in *.
  - eapply Ext_trans; [exact Hm | apply Hk].
  - exact Hm.
Qed.

Lemma frame_tryCatch {A} (body handler : M Frame A) :
  (forall d w, Ext w (snd (stateOf (body (d, w))))) ->
  (forall d w, Ext w (snd (stateOf (handler (d, w))))) ->
  forall d w, Ext w (snd (stateOf (tryCatch body handler (d, w)))).
Proof.
  intros Hb Hh d w. unfold tryCatch. specialize (Hb d w).
  destruct (body (d, w)) as [a [d1 w1] | [d1 w1]]; simpl in *.
  - exact Hb.
  - eapply Ext_trans; [exact Hb | apply Hh].
Qed.

Lemma frame_inWorld {A} (m : M World A) :
  (forall w, Ext w (stateOf (m w))) ->
  forall d w, Ext w (snd (stateOf (inWorld m (d, w)))).
Proof.
  intros Hm d w. unfold inWorld. specialize (Hm w).
  destruct (m w); exact Hm.
Qed.

Lemma frame_saveTheDoc (d : Doc) (w : World) :
  Ext w (snd (stateOf (saveTheDoc (d, w)))).
Proof.
  unfold saveTheDoc. pose proof (Ext_save d w) as H.
  destruct (save d w); exact H.
Qed.

Lemma frame_faultAt (f here : Fault) (d : Doc) (w : World) :
  Ext w (snd (stateOf (faultAt f here (d, w)))).
Proof. unfold faultAt. destruct (Fault_eqb f here); apply Ext_refl. Qed.

Ltac frame_steps :=
  repeat first
    [ apply frame_tryCatch
    | apply frame_bind; [|intros ?]
    | apply frame_faultAt
    | apply frame_saveTheDoc
    | apply frame_inWorld; intro; first
        [ apply Ext_saveChatMessage | apply Ext_emit | apply Ext_refl ]
    | intros ? ?; apply Ext_refl ].

Lemma Ext_aiAnswerCallback (studentName text : string) (f : Fault)
  (d : Doc) (w : World) :
  Ext w (snd (stateOf (aiAnswerCallback studentName text f (d, w)))).
Proof. revert d w. unfold aiAnswerCallback. frame_steps. Qed.

Lemma Ext_aiFollowUpCallback (text : option string) (f : Fault)
  (d : Doc) (w : World) :
  Ext w (snd (stateOf (aiFollowUpCallback text f (d, w)))).
Proof. revert d w. unfold aiFollowUpCallback. frame_steps. Qed.

Lemma Ext_runTask (t : Task) (f : Fault) (w : World) :
  Ext w (runTask t f w).
Proof.
  destruct t; simpl;
    [apply Ext_aiAnswerCallback | apply Ext_aiFollowUpCallback].
Qed.

(** ** Steps of the server *)

(** A step is a handler or callback run that extends the world, or the
    passing of time. *)
Lemma run_cases (o : Op) (w : World) :
  Ext w (run o w)
  \/ (exists ms, o = doTick ms /\ run o w = withClock w (clock w + Z.of_nat ms))
  \/ (exists h f,
        o = doFire h f
        /\ Ext (withTimers w
                  (filter (fun x => negb (Nat.eqb (tm_id x) h)) (timers w)))
             (run o w)).
Proof.
  destruct o as [u b | u i | u i b | u i | u | ms | h f]; simpl.
  - left. unfold withRole. destruct (isStudent u); [apply Ext_refl|].
    destruct (initiate_cases u b w)
      as [(r & -> & _)
         | (r & w' & ds & cm & text & -> & _ & _ & _ & _ & _ & _ & _ & _ & _
            & _ & _ & _ & _ & E)];
      [apply Ext_refl | exact E].
  - left. apply Ext_guarded. intro. apply Ext_getDoubtSessionMessages.
  - left. apply Ext_guarded_send.
  - left. apply Ext_guarded. intro. apply Ext_closeDoubtSession.
  - left. unfold withRole. destruct (isTrainerOrAdmin u); [apply Ext_refl|].
    apply (Ext_getTrainerDoubtSessions u w).
  - right. left. exists ms. auto.
  - unfold fire. destruct (findTimer (timers w) h) as [t|];
      [|left; apply Ext_refl].
    destruct (tm_due t <=? clock w); [|left; apply Ext_refl].
    right. right. exists h, f. split; [reflexivity | apply Ext_runTask].
Qed.

(** What a step appends to the message collection. *)
Lemma run_messages (o : Op) (w : World) :
  exists l,
    messages (run o w) = (messages w ++ l)%list
    /\ forall m, In m l -> hasContent m = true.
Proof.
  destruct (run_cases o w) as [E | [(ms & _ & ->) | (h & f & _ & E)]].
  - exact (ext_messages _ _ E).
  - exists []. split; [symmetry; apply app_nil_r | intros m []].
  - exact (ext_messages _ _ E).
Qed.

(** ** Content of stored messages *)

(** C4, as the code has it.  Whatever the server does in one step
    (initiate, send, close, a read, or a fired callback with or without a
    fault), every message it adds to the collection has a text or an
    attachment; a message with neither is never stored.  A message with
    both is stored as it is: a participant's send with a text and an
    attachment on a [pending] or [in_progress] session appends one
    message that carries both, unchanged, and the first message of an
    accepted initiation carries the text and the attachment of the
    request. *)
Theorem C4_stored_messages_have_content (w : World) :
  (forall o m,
      In m (messages (run o w)) -> In m (messages w) \/ hasContent m = true)
  /\ (forall u i b s role,
        stored w i = Some s ->
        isStudentParticipant s (user_id u)
        || isTrainerParticipant s (user_id u) = true ->
        ds_status s = pending \/ ds_status s = in_progress ->
        senderRoleOf (user_role u) = Some role ->
        truthy (mb_messageText b) = true ->
        truthy (mb_attachmentUrl b) = true ->
        exists m,
          messages (run (doSend u i b) w) = (messages w ++ [m])%list
          /\ cm_messageText m = mb_messageText b
          /\ cm_attachmentUrl m = mb_attachmentUrl b)
  /\ (forall u b r w',
        withRole isStudent u (initiateDoubtSession u b) w = Return r w' ->
        statusCode r = 201%nat ->
        exists m,
          messages w' = (messages w ++ [m])%list
          /\ cm_messageText m = b_initialDoubtText b
          /\ cm_attachmentUrl m = b_attachmentUrl b).
Proof.
  split; [|split].
  - intros o m H. destruct (run_messages o w) as (l & Hl & Hc).
    rewrite Hl in H. apply in_app_or in H. destruct H; auto.
  - intros u i b s role Hs Hp Hst Hrole Ht Ha.
    assert (Hadm : user_role u <> admin)
      by (intro E; rewrite E in Hrole; discriminate).
    assert (Hb : truthy (mb_messageText b) || truthy (mb_attachmentUrl b)
                 = true) by (rewrite Ht; reflexivity).
    pose proof (send_on_active_session u i b w s Hs Hst Hb) as Hact.
    rewrite Hrole in Hact. destruct Hact as (w' & s' & Hrun & Hm & _).
    simpl. unfold guarded, bind at 1.
    rewrite (guard_participant u i w s Hadm Hs Hp), Hrun. simpl.
    exists (sentMessage u i b w role). split; [exact Hm|].
    split; reflexivity.
  - intros u b r w' Hrun Hcode. unfold withRole in Hrun.
    destruct (isStudent u) as [r0|] eqn:Hgate.
    + unfold isStudent in Hgate.
      destruct (Role_eqb (user_role u) student); [discriminate|].
      injection Hgate as <-. injection Hrun as <- _. discriminate Hcode.
    + destruct (initiate_cases u b w)
        as [(r0 & H & Hc)
           | (r0 & w0 & ds & cm & text & H & _ & Htext & _ & Hm & _ & _ & _
              & _ & _ & _ & Hmt & Hma & _)];
        rewrite H in Hrun; injection Hrun as <- <-.
      * rewrite Hcode in Hc. lia.
      * exists cm. split; [exact Hm|]. split; [|exact Hma].
        apply nonEmpty_Some in Htext. rewrite Hmt. symmetry. apply Htext.
Qed.

(** C4 on the sample world: Asha's send request with a text and a file
    on her AI session stores one message that carries both. *)
Lemma C4_stored_messages_have_content_witness :
  exists m,
    messages (run (doSend Sample.asAsha 100%nat Sample.textAndFile)
                Sample.askedAi)
    = (messages Sample.askedAi ++ [m])%list
    /\ cm_messageText m = Some "see the picture"
    /\ cm_attachmentUrl m = Some "https://files.example/leaf.png".
Proof.
  refine (proj1 (proj2 (C4_stored_messages_have_content Sample.askedAi))
            Sample.asAsha 100%nat Sample.textAndFile
            {| ds_id := 100%nat; ds_student := 1%nat; ds_trainer := None;
               ds_grade := 7; ds_school := 10%nat; ds_session := None;
               ds_initialDoubtText := "What is photosynthesis?";
               ds_doubtType := aiDoubt; ds_status := in_progress;
               ds_lastMessageAt := 1000; ds_aiHelpful := None;
               ds_aiFeedbackText := None; ds_createdAt := 1000;
               ds_updatedAt := 1000 |} fromStudent _ _ _ _ _ _);
    try reflexivity.
  right. reflexivity.
Defined.

(** C4 as stated fails: a send request with both a text and an
    attachment is answered 201 and its message is stored with both
    fields populated. *)
Lemma C4_counterexample :
  ~ (forall (o : Op) (w : World) (m : ChatMessage),
        In m (messages (run o w)) ->
        In m (messages w)
        \/ xorb (truthy (cm_messageText m)) (truthy (cm_attachmentUrl m))
           = true).
Proof.
  intro H.
  destruct (H (doSend Sample.asAsha 100%nat Sample.textAndFile)
              Sample.askedAi
              {| cm_id := 103%nat; cm_doubtSession := 100%nat;
                 cm_sender := Some 1%nat; cm_senderRole := fromStudent;
                 cm_messageText := Some "see the picture";
                 cm_attachmentUrl := Some "https://files.example/leaf.png";
                 cm_createdAt := 1000 |}) as [Hin | Hx].
  - vm_compute. right. left. reflexivity.
  - vm_compute in Hin. destruct Hin as [Hin | []]. discriminate Hin.
  - vm_compute in Hx. discriminate Hx.
Qed.

(** ** Pending timers *)

Lemma find_filter_other (l : list Timer) (h h' : nat) :
  h <> h' ->
  findTimer (filter (fun x => negb (Nat.eqb (tm_id x) h')) l) h
  = findTimer l h.
Proof.
  intro Hne. unfold findTimer.
  induction l as [|x l IH]; simpl; [reflexivity|].
  destruct (Nat.eqb (tm_id x) h') eqn:E'; simpl.
  - apply Nat.eqb_eq in E'.
    assert (N : Nat.eqb (tm_id x) h = false)
      by (apply Nat.eqb_neq; congruence).
    rewrite N. exact IH.
  - destruct (Nat.eqb (tm_id x) h); [reflexivity | exact IH].
Qed.

Lemma find_filter_same (l : list Timer) (h : nat) :
  findTimer (filter (fun x => negb (Nat.eqb (tm_id x) h)) l) h = None.
Proof.
  unfold findTimer.
  induction l as [|x l IH]; simpl; [reflexivity|].
  destruct (Nat.eqb (tm_id x) h) eqn:E; simpl; [exact IH|].
  rewrite E. exact IH.
Qed.

Lemma wellFormed_ext (w w' : World) :
  wellFormed w -> Ext w w' -> wellFormed w'.
Proof.
  intros Hw E t Ht.
  destruct (ext_timers _ _ E) as (l & Hl & Hnew).
  rewrite Hl in Ht. apply in_app_or in Ht. destruct Ht as [Ht | Ht].
  - exact (pendingOk_ext _ _ _ E (Hw t Ht)).
  - exact (proj1 (proj2 (Hnew t Ht))).
Qed.

(** The invariant of the timer queue holds in a world without timers and
    is kept by every step. *)
Lemma wellFormed_no_timers (w : World) : timers w = [] -> wellFormed w.
Proof. intros H t Ht. rewrite H in Ht. destruct Ht. Qed.

Lemma wellFormed_run (o : Op) (w : World) :
  wellFormed w -> wellFormed (run o w).
Proof.
  intro Hw.
  destruct (run_cases o w) as [E | [(ms & _ & ->) | (h & f & _ & E)]].
  - exact (wellFormed_ext _ _ Hw E).
  - exact Hw.
  - refine (wellFormed_ext _ _ _ E).
    intros t Ht. simpl in Ht. apply filter_In in Ht.
    exact (Hw t (proj1 Ht)).
Qed.

Lemma wellFormed_runAll (l : list Op) (w : World) :
  wellFormed w -> wellFormed (runAll l w).
Proof.
  revert w. unfold runAll.
  induction l as [|o l IH]; intros w Hw; simpl; [exact Hw|].
  apply IH, wellFormed_run, Hw.
Qed.

(** No step other than the firing of the timer itself takes a pending
    timer out of the queue. *)
Lemma run_keeps_timer (o : Op) (w : World) (h : nat) (t : Timer) :
  findTimer (timers w) h = Some t ->
  (forall f, o <> doFire h f) ->
  findTimer (timers (run o w)) h = Some t.
Proof.
  intros Hf Ho.
  destruct (run_cases o w) as [E | [(ms & _ & ->) | (h' & f & -> & E)]].
  - destruct (ext_timers _ _ E) as (l & -> & _).
    apply find_app_some, Hf.
  - exact Hf.
  - destruct (ext_timers _ _ E) as (l & -> & _). simpl.
    apply find_app_some. unfold findTimer in *.
    fold (findTimer (filter (fun x => negb (Nat.eqb (tm_id x) h'))
                       (timers w)) h).
    rewrite find_filter_other; [exact Hf|].
    intros ->. exact (Ho f eq_refl).
Qed.

Lemma runAll_keeps_timer (l : list Op) (w : World) (h : nat) (t : Timer) :
  findTimer (timers w) h = Some t ->
  (forall f, ~ In (doFire h f) l) ->
  findTimer (timers (runAll l w)) h = Some t.
Proof.
  revert w. unfold runAll.
  induction l as [|o l IH]; intros w Hf Hl; simpl; [exact Hf|].
  apply IH.
  - apply run_keeps_timer; [exact Hf|].
    intros f ->. exact (Hl f (or_introl eq_refl)).
  - intros f Hin. exact (Hl f (or_intror Hin)).
Qed.

(** The document a callback is about to save, when its copy of the
    session was not [resolved]: the status is marked modified, in either
    order of the two assignments. *)
Lemma resolving_doc (d : Doc) (now : Date) :
  ds_status (d_val d) <> resolved ->
  (d_modStatus (setLastMessageAt (setStatus d resolved) now) = true
   /\ ds_id (d_val (setLastMessageAt (setStatus d resolved) now))
      = ds_id (d_val d)
   /\ ds_status (d_val (setLastMessageAt (setStatus d resolved) now))
      = resolved)
  /\ (d_modStatus (setStatus (setLastMessageAt d now) resolved) = true
      /\ ds_id (d_val (setStatus (setLastMessageAt d now) resolved))
         = ds_id (d_val d)
      /\ ds_status (d_val (setStatus (setLastMessageAt d now) resolved))
         = resolved).
Proof.
  intro H.
  assert (E : Status_eqb (ds_status (d_val d)) resolved = false).
  { destruct (Status_eqb (ds_status (d_val d)) resolved) eqn:E;
      [|reflexivity]. apply Status_eqb_eq in E. contradiction. }
  unfold setStatus, setLastMessageAt. rewrite E. simpl.
  destruct (ds_lastMessageAt (d_val d) =? now); simpl; rewrite ?E; simpl;
    repeat split; reflexivity.
Qed.

(** When its delay has elapsed, a pending timer fires whatever the
    status of its session: without a fault the callback stores the AI's
    message and writes the status [resolved]. *)
Lemma fire_answers (w : World) (h : nat) (t : Timer) :
  wellFormed w ->
  findTimer (timers w) h = Some t ->
  tm_due t <= clock w ->
  exists m s',
    messages (fire h noFault w) = (messages w ++ [m])%list
    /\ cm_doubtSession m = ds_id (d_val (taskDoc (tm_task t)))
    /\ cm_sender m = None
    /\ cm_senderRole m = fromAi
    /\ cm_messageText m = Some (replyOf (tm_task t))
    /\ cm_attachmentUrl m = None
    /\ stored (fire h noFault w) (ds_id (d_val (taskDoc (tm_task t))))
       = Some s'
    /\ ds_status s' = resolved
    /\ findTimer (timers (fire h noFault w)) h = None.
Proof.
  intros Hw Hf Hdue.
  assert (Hin : In t (timers w)).
  { unfold findTimer in Hf. apply find_some in Hf. tauto. }
  destruct (Hw t Hin) as (_ & Hst & Hsto).
  destruct (stored w (ds_id (d_val (taskDoc (tm_task t))))) as [s|] eqn:Hs;
    [clear Hsto | congruence].
  unfold fire. rewrite Hf. apply Z.leb_le in Hdue. rewrite Hdue.
  set (w0 := withTimers w
               (filter (fun x => negb (Nat.eqb (tm_id x) h)) (timers w))).
  assert (Hs0 : forall v,
             stored (withMessages (withNextId w0 (S (nextId w0))) v)
               (ds_id (d_val (taskDoc (tm_task t)))) = Some s)
    by (intro; exact Hs).
  destruct (tm_task t) as [d name text | d text]; simpl in Hst, Hs, Hs0 |- *.
  - destruct (resolving_doc d (clock w) Hst) as [(Hm & Hid & Hres) _].
    unfold aiAnswerCallback, tryCatch, bind. simpl.
    unfold saveTheDoc.
    erewrite save_modified;
      [|rewrite Hm; reflexivity|rewrite Hid; apply Hs0].
    simpl. do 2 eexists.
    split; [reflexivity|]. split; [reflexivity|]. split; [reflexivity|].
    split; [reflexivity|]. split; [reflexivity|]. split; [reflexivity|].
    unfold stored. simpl. rewrite Hid.
    split; [|split].
    + apply findById_updateById; [intro; apply writeBack_id | exact Hs].
    + rewrite writeBack_status, Hm. exact Hres.
    + apply find_filter_same.
  - destruct (resolving_doc d (clock w) Hst) as [_ (Hm & Hid & Hres)].
    unfold aiFollowUpCallback, tryCatch, bind. simpl.
    unfold saveTheDoc.
    erewrite save_modified;
      [|rewrite Hm; reflexivity|rewrite Hid; apply Hs0].
    simpl. do 2 eexists.
    split; [reflexivity|]. split; [reflexivity|]. split; [reflexivity|].
    split; [reflexivity|]. split; [reflexivity|]. split; [reflexivity|].
    unfold stored. simpl. rewrite Hid.
    split; [|split].
    + apply findById_updateById; [intro; apply writeBack_id | exact Hs].
    + rewrite writeBack_status, Hm. exact Hres.
    + apply find_filter_same.
Qed.

(** A timer is not taken up before it is due. *)
Lemma fire_before_due (w : World) (h : nat) (t : Timer) (f : Fault) :
  findTimer (timers w) h = Some t ->
  clock w < tm_due t ->
  fire h f w = w.
Proof.
  intros Hf Hdue. unfold fire. rewrite Hf.
  apply Z.leb_gt in Hdue. rewrite Hdue. reflexivity.
Qed.

Lemma find_app {A} (p : A -> bool) (l l' : list A) :
  find p (l ++ l')
  = match find p l with
    | Some x => Some x
    | None => find p l'
    end.
Proof.
  induction l as [|y l IH]; simpl; [reflexivity|].
  destruct (p y); [reflexivity | exact IH].
Qed.

Lemma find_filter_none {A} (p q : A -> bool) (l : list A) :
  find p l = None -> find p (filter q l) = None.
Proof.
  induction l as [|y l IH]; simpl; [reflexivity|].
  destruct (p y) eqn:E; [discriminate|]. intro H.
  destruct (q y); simpl; [rewrite E|]; exact (IH H).
Qed.

(** A timer that a step adds to the queue is due after the delay of its
    callback, counted from the time of the step. *)
Lemma new_timer_due (o : Op) (w : World) (h : nat) (t : Timer) :
  findTimer (timers w) h = None ->
  findTimer (timers (run o w)) h = Some t ->
  tm_due t = clock w + delayOf (tm_task t).
Proof.
  unfold findTimer. intros Hold Hnew.
  destruct (run_cases o w) as [E | [(ms & _ & Hrun) | (h' & f & _ & E)]].
  - destruct (ext_timers _ _ E) as (l & Hl & Hdue).
    rewrite Hl, find_app, Hold in Hnew.
    apply find_some in Hnew. exact (proj2 (proj2 (Hdue t (proj1 Hnew)))).
  - rewrite Hrun in Hnew. simpl in Hnew. congruence.
  - destruct (ext_timers _ _ E) as (l & Hl & Hdue).
    rewrite Hl in Hnew. simpl in Hnew.
    rewrite find_app, (find_filter_none _ _ _ Hold) in Hnew.
    apply find_some in Hnew. exact (proj2 (proj2 (Hdue t (proj1 Hnew)))).
Qed.

(** C9.  Take a step that schedules a timer (an AI initiation, or a
    student's follow-up on an AI session) in a world whose timer queue is
    as the handlers set it, and then any steps of the server that do not
    take up that timer: initiations, sends, closes by anyone, reads, the
    passing of time, the firing of other timers.  The timer is due 5000
    ms (answer) or 3000 ms (follow-up) after the step that set it, and it
    is still pending after the other steps: nothing cancels it.  Before
    it is due the event loop leaves it alone.  Once it is due it fires,
    and without a fault its callback stores the reply it composes (role
    ai, no sender, no attachment) and writes the status [resolved] over
    whatever status the session has by then, [closed] included; the timer
    is then gone. *)
Theorem C9_pending_timer_always_fires (w : World) (o : Op) (h : nat)
  (t : Timer) (steps : list Op) :
  wellFormed w ->
  findTimer (timers w) h = None ->
  findTimer (timers (run o w)) h = Some t ->
  (forall f, ~ In (doFire h f) steps) ->
  match tm_task t with
  | aiAnswer _ _ _ => tm_due t = clock w + 5000
  | aiFollowUp _ _ => tm_due t = clock w + 3000
  end
  /\ findTimer (timers (runAll steps (run o w))) h = Some t
  /\ (clock (runAll steps (run o w)) < tm_due t ->
      forall f,
        run (doFire h f) (runAll steps (run o w)) = runAll steps (run o w))
  /\ (tm_due t <= clock (runAll steps (run o w)) ->
      exists m s',
        messages (run (doFire h noFault) (runAll steps (run o w)))
        = (messages (runAll steps (run o w)) ++ [m])%list
        /\ cm_doubtSession m = ds_id (d_val (taskDoc (tm_task t)))
        /\ cm_sender m = None
        /\ cm_senderRole m = fromAi
        /\ cm_attachmentUrl m = None
        /\ match tm_task t with
           | aiAnswer _ studentName initialDoubtText =>
               cm_messageText m
               = Some ("Hello " ++ studentName
                       ++ ", I'm the AI assistant! Regarding your doubt: "
                       ++ dquote ++ initialDoubtText ++ dquote
                       ++ ", here's what I found... [Simulated AI Answer based on your query]. Please provide feedback if this was helpful.")%string
           | aiFollowUp _ messageText =>
               cm_messageText m
               = Some ("(AI Follow-up to " ++ dquote
                       ++ interpolate messageText ++ dquote
                       ++ ") Here" ++ rsquo
                       ++ "s more clarification: ... [Simulated AI Answer].")%string
           end
        /\ stored (run (doFire h noFault) (runAll steps (run o w)))
             (ds_id (d_val (taskDoc (tm_task t)))) = Some s'
        /\ ds_status s' = resolved
        /\ findTimer
             (timers (run (doFire h noFault) (runAll steps (run o w)))) h
           = None).
Proof.
  intros Hw Hold Hnew Hsteps.
  pose proof (new_timer_due o w h t Hold Hnew) as Hdue.
  pose proof (runAll_keeps_timer steps (run o w) h t Hnew Hsteps) as Hkept.
  split; [destruct (tm_task t); exact Hdue|].
  split; [exact Hkept|]. split.
  - intros Hearly f. simpl. exact (fire_before_due _ h t f Hkept Hearly).
  - intro Hlate. simpl.
    destruct (fire_answers _ h t
                (wellFormed_runAll steps _ (wellFormed_run o w Hw))
                Hkept Hlate)
      as (m & s' & H1 & H2 & H3 & H4 & H5 & H6 & H7 & H8 & H9).
    exists m, s'. repeat (split; [assumption|]).
    split; [destruct (tm_task t); exact H5|].
    repeat (split; [assumption|]). assumption.
Qed.

(** C9 on the sample world: Asha asks the AI at time 1000 and closes her
    session before the answer is due; the timer, due at 6000, stays,
    fires after five seconds, and the closed session ends up [resolved]
    with the AI's reply stored. *)
Lemma C9_pending_timer_always_fires_witness :
  tm_due Sample.answerTimer = 1000 + 5000
  /\ option_map ds_status
       (stored (runAll Sample.closeThenWait Sample.askedAi) 100%nat)
     = Some closed
  /\ findTimer (timers (runAll Sample.closeThenWait Sample.askedAi)) 102%nat
     = Some Sample.answerTimer
  /\ run (doFire 102%nat noFault)
       (runAll [doClose Sample.asAsha 100%nat; doTick 4999] Sample.askedAi)
     = runAll [doClose Sample.asAsha 100%nat; doTick 4999] Sample.askedAi
  /\ exists m s',
       messages (run (doFire 102%nat noFault)
                   (runAll Sample.closeThenWait Sample.askedAi))
       = (messages (runAll Sample.closeThenWait Sample.askedAi)
          ++ [m])%list
       /\ cm_doubtSession m = 100%nat
       /\ cm_sender m = None
       /\ cm_senderRole m = fromAi
       /\ cm_attachmentUrl m = None
       /\ cm_messageText m
          = Some ("Hello Asha, I'm the AI assistant! Regarding your doubt: "
                  ++ dquote ++ "What is photosynthesis?" ++ dquote
                  ++ ", here's what I found... [Simulated AI Answer based on your query]. Please provide feedback if this was helpful.")%string
       /\ stored (run (doFire 102%nat noFault)
                    (runAll Sample.closeThenWait Sample.askedAi)) 100%nat
          = Some s'
       /\ ds_status s' = resolved
       /\ findTimer
            (timers (run (doFire 102%nat noFault)
                       (runAll Sample.closeThenWait Sample.askedAi)))
            102%nat
          = None.
Proof.
  assert (H : wellFormed Sample.start)
    by (apply wellFormed_no_timers; reflexivity).
  assert (F0 : findTimer (timers Sample.start) 102%nat = None)
    by reflexivity.
  assert (F : findTimer
                (timers (run (doInitiate Sample.asAsha Sample.askAi)
                           Sample.start)) 102%nat
              = Some Sample.answerTimer) by reflexivity.
  assert (N : forall f, ~ In (doFire 102%nat f) Sample.closeThenWait).
  { intros f [E | [E | []]]; discriminate E. }
  assert (N' : forall f,
             ~ In (doFire 102%nat f)
                 [doClose Sample.asAsha 100%nat; doTick 4999]).
  { intros f [E | [E | []]]; discriminate E. }
  split.
  { exact (proj1 (C9_pending_timer_always_fires Sample.start
                    (doInitiate Sample.asAsha Sample.askAi) 102%nat
                    Sample.answerTimer Sample.closeThenWait H F0 F N)). }
  split; [reflexivity|]. split.
  { exact (proj1 (proj2 (C9_pending_timer_always_fires Sample.start
                           (doInitiate Sample.asAsha Sample.askAi) 102%nat
                           Sample.answerTimer Sample.closeThenWait
                           H F0 F N))). }
  split.
  { refine (proj1 (proj2 (proj2
              (C9_pending_timer_always_fires Sample.start
                 (doInitiate Sample.asAsha Sample.askAi) 102%nat
                 Sample.answerTimer
                 [doClose Sample.asAsha 100%nat; doTick 4999]
                 H F0 F N'))) _ noFault).
    vm_compute. reflexivity. }
  refine (proj2 (proj2 (proj2
            (C9_pending_timer_always_fires Sample.start
               (doInitiate Sample.asAsha Sample.askAi) 102%nat
               Sample.answerTimer Sample.closeThenWait H F0 F N))) _).
  vm_compute. discriminate.
Defined.

(** ** Failure of the simulated responder *)

(** The callback set by [initiateDoubtSession]: whichever statement of
    its [try] block throws, the [catch] block stores a system message
    without sender and writes the status [cancelled]. *)
Lemma answer_failure_cancels (d : Doc) (name text : string) (f : Fault)
  (w : World) (s : DoubtSession) :
  f <> noFault ->
  stored w (ds_id (d_val d)) = Some s ->
  ds_status (d_val d) <> cancelled ->
  exists l m s',
    messages (runTask (aiAnswer d name text) f w)
    = (messages w ++ l ++ [m])%list
    /\ cm_senderRole m = fromSystem
    /\ cm_sender m = None
    /\ cm_doubtSession m = ds_id (d_val d)
    /\ stored (runTask (aiAnswer d name text) f w) (ds_id (d_val d))
       = Some s'
    /\ ds_status s' = cancelled.
Proof.
  intros Hf Hs Hst.
  assert (Hs0 : forall n v,
             stored (withMessages (withNextId w n) v) (ds_id (d_val d))
             = Some s) by (intros; exact Hs).
  assert (Hc : forall d0 now,
             ds_status (d_val d0) <> cancelled ->
             d_modStatus (setLastMessageAt (setStatus d0 cancelled) now)
             = true
             /\ ds_id (d_val (setLastMessageAt (setStatus d0 cancelled) now))
                = ds_id (d_val d0)
             /\ ds_status
                  (d_val (setLastMessageAt (setStatus d0 cancelled) now))
                = cancelled).
  { intros d0 now H.
    assert (E : Status_eqb (ds_status (d_val d0)) cancelled = false).
    { destruct (Status_eqb (ds_status (d_val d0)) cancelled) eqn:E;
        [|reflexivity]. apply Status_eqb_eq in E. contradiction. }
    unfold setStatus, setLastMessageAt. rewrite E. simpl.
    destruct (ds_lastMessageAt (d_val d0) =? now); repeat split. }
  destruct f; [contradiction| | |].
  - (* the message cannot be saved *)
    destruct (Hc d (clock w) Hst) as (Hm & Hid & Hcan).
    simpl. unfold aiAnswerCallback, tryCatch, bind. simpl.
    unfold saveTheDoc.
    erewrite save_modified;
      [|rewrite Hm; reflexivity|rewrite Hid; apply Hs0].
    simpl. exists []. do 2 eexists.
    split; [first [reflexivity | assumption]|]. split; [first [reflexivity | assumption]|]. split; [first [reflexivity | assumption]|].
    split; [first [reflexivity | assumption]|]. unfold stored. simpl. rewrite Hid. split.
    + apply findById_updateById; [intro; apply writeBack_id | exact Hs].
    + rewrite writeBack_status, Hm. exact Hcan.
  - (* the session cannot be saved *)
    set (d1 := setLastMessageAt (setStatus d resolved) (clock w)).
    assert (Hd1 : ds_id (d_val d1) = ds_id (d_val d)
                  /\ ds_status (d_val d1) <> cancelled).
    { subst d1. unfold setStatus, setLastMessageAt.
      destruct (Status_eqb (ds_status (d_val d)) resolved) eqn:E; simpl;
        [apply Status_eqb_eq in E|];
        destruct (ds_lastMessageAt _ =? clock w); simpl; split;
        try reflexivity; try exact Hst; try discriminate;
        rewrite E; discriminate. }
    destruct Hd1 as [Hd1id Hd1st].
    destruct (Hc d1 (clock w) Hd1st) as (Hm & Hid & Hcan).
    simpl. unfold aiAnswerCallback, tryCatch, bind. simpl. fold d1.
    unfold saveTheDoc.
    erewrite save_modified;
      [|rewrite Hm; reflexivity|rewrite Hid, Hd1id; apply Hs0].
    simpl. eexists [_]. do 2 eexists.
    split; [rewrite <- app_assoc; reflexivity|].
    split; [first [reflexivity | assumption]|]. split; [first [reflexivity | assumption]|].
    split; [first [reflexivity | assumption]|]. unfold stored. simpl. rewrite Hid, Hd1id. split.
    + apply findById_updateById; [intro; apply writeBack_id | exact Hs].
    + rewrite writeBack_status, Hm. exact Hcan.
  - (* the answer cannot be emitted *)
    set (d1 := setLastMessageAt (setStatus d resolved) (clock w)).
    assert (Hd1 : ds_id (d_val d1) = ds_id (d_val d)
                  /\ ds_status (d_val d1) <> cancelled).
    { subst d1. unfold setStatus, setLastMessageAt.
      destruct (Status_eqb (ds_status (d_val d)) resolved) eqn:E; simpl;
        [apply Status_eqb_eq in E|];
        destruct (ds_lastMessageAt _ =? clock w); simpl; split;
        try reflexivity; try exact Hst; try discriminate;
        rewrite E; discriminate. }
    destruct Hd1 as [Hd1id Hd1st].
    simpl. unfold aiAnswerCallback, tryCatch, bind. simpl. fold d1.
    unfold saveTheDoc.
    destruct (save_outcome d1
                (withMessages (withNextId w (S (nextId w)))
                   (messages w
                    ++ [{| cm_id := nextId w;
                           cm_doubtSession := ds_id (d_val d);
                           cm_sender := None; cm_senderRole := fromAi;
                           cm_messageText := Some (aiAnswerText name text);
                           cm_attachmentUrl := None;
                           cm_createdAt := clock w |}])%list))
      as [E | [E | (_ & _ & E)]]; rewrite E; simpl.
    + destruct (Hc d1 (clock w) Hd1st) as (Hm & Hid & Hcan).
      erewrite save_modified;
        [|rewrite Hm; reflexivity|rewrite Hid, Hd1id; apply Hs0].
      simpl. eexists [_]. do 2 eexists.
      split; [rewrite <- app_assoc; reflexivity|].
      split; [first [reflexivity | assumption]|]. split; [first [reflexivity | assumption]|].
      split; [first [reflexivity | assumption]|]. unfold stored. simpl. rewrite Hid, Hd1id.
      split.
      * apply findById_updateById; [intro; apply writeBack_id | exact Hs].
      * rewrite writeBack_status, Hm. exact Hcan.
    + destruct (Hc d1 (clock w) Hd1st) as (Hm & Hid & Hcan).
      erewrite save_modified;
        [|rewrite Hm; reflexivity|rewrite Hid, Hd1id; apply Hs0].
      simpl. eexists [_]. do 2 eexists.
      split; [rewrite <- app_assoc; reflexivity|].
      split; [first [reflexivity | assumption]|]. split; [first [reflexivity | assumption]|].
      split; [first [reflexivity | assumption]|]. unfold stored. simpl. rewrite Hid, Hd1id.
      split.
      * apply findById_updateById; [intro; apply writeBack_id | exact Hs].
      * rewrite writeBack_status, Hm. exact Hcan.
    + set (d2 := loaded (withUpdatedAt (d_val d1) (clock w))).
      assert (Hd2st : ds_status (d_val d2) <> cancelled) by exact Hd1st.
      destruct (Hc d2 (clock w) Hd2st) as (Hm & Hid & Hcan).
      assert (Hd2id : ds_id (d_val d2) = ds_id (d_val d)) by exact Hd1id.
      erewrite save_modified; [|rewrite Hm; reflexivity|].
      2:{ rewrite Hid, Hd2id. unfold stored. simpl. rewrite Hd1id.
          apply findById_updateById; [intro; apply writeBack_id|].
          exact Hs. }
      simpl. eexists [_]. do 2 eexists.
      split; [rewrite <- app_assoc; reflexivity|].
      split; [first [reflexivity | assumption]|]. split; [first [reflexivity | assumption]|].
      split; [first [reflexivity | assumption]|]. unfold stored. simpl. rewrite Hid, Hd2id.
      split.
      * apply findById_updateById; [intro; apply writeBack_id|].
        rewrite Hd1id.
        apply findById_updateById; [intro; apply writeBack_id | exact Hs].
      * rewrite writeBack_status, Hm. exact Hcan.
Qed.

(** C5.  The callback set by [sendDoubtMessage] has no status write in
    its [catch] block.  When its [try] block throws before the session is
    saved, the callback stores the system message (no sender) and leaves
    every stored session as it was.  Read on the sample world: Asha's
    follow-up put session 100 back to [in_progress]; after the failed
    follow-up answer it is still [in_progress], not [cancelled], and when
    only the emit fails it is [resolved].  The sibling callback of
    [initiateDoubtSession] does write [cancelled] on the same fault. *)
Theorem C5_follow_up_failure_does_not_cancel (d : Doc)
  (text : option string) (w : World) :
  (doubts (runTask (aiFollowUp d text) atMessageSave w) = doubts w
   /\ doubts (runTask (aiFollowUp d text) atSessionSave w) = doubts w
   /\ exists m,
        messages (runTask (aiFollowUp d text) atMessageSave w)
        = (messages w ++ [m])%list
        /\ cm_senderRole m = fromSystem
        /\ cm_sender m = None
        /\ cm_doubtSession m = ds_id (d_val d))
  /\ (option_map ds_status
        (stored (run (doTick 3000) Sample.followedUp) 100%nat)
      = Some in_progress
      /\ option_map ds_status
           (stored (runAll [doTick 3000; doFire 105%nat atMessageSave]
                      Sample.followedUp) 100%nat)
         = Some in_progress
      /\ map cm_senderRole
           (messages (runAll [doTick 3000; doFire 105%nat atMessageSave]
                        Sample.followedUp))
         = [fromStudent; fromAi; fromStudent; fromSystem]
      /\ option_map ds_status
           (stored (runAll [doTick 3000; doFire 105%nat atSessionSave]
                      Sample.followedUp) 100%nat)
         = Some in_progress
      /\ option_map ds_status
           (stored (runAll [doTick 3000; doFire 105%nat atEmit]
                      Sample.followedUp) 100%nat)
         = Some resolved
      /\ option_map ds_status
           (stored (runAll [doTick 5000; doFire 102%nat atMessageSave]
                      Sample.askedAi) 100%nat)
         = Some cancelled).
Proof.
  split.
  - split; [reflexivity|]. split; [reflexivity|].
    eexists. repeat split; reflexivity.
  - repeat split; vm_compute; reflexivity.
Qed.

(** ** Setting the timer *)

Lemma findTimer_fresh (w : World) (h : nat) (t : Timer) :
  wellFormed w ->
  (nextId w <= h)%nat ->
  tm_id t = h ->
  findTimer (timers w ++ [t]) h = Some t.
Proof.
  intros Hw Hh Ht. unfold findTimer.
  assert (G : forall l, (forall x, In x l -> (tm_id x < nextId w)%nat) ->
                        find (fun x => Nat.eqb (tm_id x) h) (l ++ [t])
                        = Some t).
  { induction l as [|x l IH]; intro Hl; simpl.
    - rewrite Ht, Nat.eqb_refl. reflexivity.
    - assert (N : Nat.eqb (tm_id x) h = false).
      { apply Nat.eqb_neq. pose proof (Hl x (or_introl eq_refl)). lia. }
      rewrite N. apply IH. intros y Hy. apply Hl. right. exact Hy. }
  apply G. intros x Hx. exact (proj1 (Hw x Hx)).
Qed.

(** An AI initiation that is answered 201 leaves one more pending timer,
    due five seconds later, for the new session. *)
Lemma initiate_sets_timer (u : AuthUser) (b : InitiateBody) (w w' : World)
  (r : Response) :
  wellFormed w ->
  initiateDoubtSession u b w = Return r w' ->
  statusCode r = 201%nat ->
  b_doubtType b = Some "ai" ->
  exists t,
    findTimer (timers w') (S (S (nextId w))) = Some t
    /\ tm_due t = clock w + 5000
    /\ ds_id (d_val (taskDoc (tm_task t))) = nextId w
    /\ wellFormed w'.
Proof.
  intros Hw Hrun Hcode Hai.
  destruct (initiate_cases u b w)
    as [(r0 & H & Hc)
       | (r0 & w0 & ds & cm & text & H & _ & _ & _ & _ & Hid & _ & _ & _ & _
          & _ & _ & _ & Hkind & E)];
    rewrite H in Hrun; injection Hrun as <- <-.
  - rewrite Hcode in Hc. lia.
  - destruct Hkind as [(Htr & _) | (_ & _ & _ & _ & name & Ht)];
      [congruence|].
    eexists. rewrite Ht. split; [|split; [|split]].
    + apply findTimer_fresh; [exact Hw | lia | reflexivity].
    + reflexivity.
    + exact Hid.
    + exact (wellFormed_ext _ _ Hw E).
Qed.

(** A student's message that reopens an AI session leaves one more
    pending timer, due three seconds later, for that session. *)
Lemma reopening_send_sets_timer (u : AuthUser) (i : ObjectId)
  (b : MessageBody) (w : World) (s : DoubtSession) :
  wellFormed w ->
  stored w i = Some s ->
  ds_status s = resolved \/ ds_status s = closed \/ ds_status s = cancelled ->
  ds_doubtType s = aiDoubt ->
  user_role u = student ->
  isStudentParticipant s (user_id u) || isTrainerParticipant s (user_id u)
  = true ->
  truthy (mb_messageText b) || truthy (mb_attachmentUrl b) = true ->
  exists r w' t,
    guarded (sendDoubtMessage b) (request u i) w = Return r w'
    /\ statusCode r = 201%nat
    /\ findTimer (timers w') (S (nextId w)) = Some t
    /\ tm_due t = clock w + 3000
    /\ ds_id (d_val (taskDoc (tm_task t))) = i
    /\ wellFormed w'.
Proof.
  intros Hw Hs Hst Hai Hrole Hp Hb.
  destruct (send_on_finished_session u i b w s Hs Hst) as [Hyes _].
  rewrite Hai, Hrole, Hp, Hb in Hyes.
  destruct (Hyes eq_refl)
    as (r & w' & m & s' & Hrun & Hcode & _ & _ & _ & _ & _ & _ & _ & E
        & d & Ht & Hd).
  exists r, w'. eexists. split; [exact Hrun|]. split; [exact Hcode|].
  rewrite Ht. split; [|split; [|split]].
  - apply findTimer_fresh; [exact Hw | lia | reflexivity].
  - reflexivity.
  - exact Hd.
  - exact (wellFormed_ext _ _ Hw E).
Qed.

(** * The other handlers and the invariants of the store *)

Local Open Scope list_scope.

(** ** Sessions evolve in place *)

Lemma sameSession_refl (r : DoubtSession) : sameSession r r.
Proof. unfold sameSession. tauto. Qed.

Lemma sameSession_trans (a b c : DoubtSession) :
  sameSession a b -> sameSession b c -> sameSession a c.
Proof.
  unfold sameSession.
  intros (A1 & A2 & A3 & A4 & A5 & A6 & A7 & A8 & A9 & A10 & A11 & A12)
         (B1 & B2 & B3 & B4 & B5 & B6 & B7 & B8 & B9 & B10 & B11 & B12).
  repeat split; try congruence. auto.
Qed.

Lemma Evolves_refl (T : ObjectId -> Prop) (w : World) : Evolves T w w.
Proof.
  exists (fun r => r), []. rewrite map_id, app_nil_r.
  repeat split; auto using sameSession_refl.
Qed.

Lemma Evolves_same_doubts (T : ObjectId -> Prop) (w w' : World) :
  doubts w' = doubts w -> Evolves T w w'.
Proof.
  intro H. exists (fun r => r), []. rewrite map_id, app_nil_r.
  repeat split; auto using sameSession_refl.
Qed.

Lemma Evolves_trans (T : ObjectId -> Prop) (w1 w2 w3 : World) :
  Evolves T w1 w2 -> Evolves T w2 w3 -> Evolves T w1 w3.
Proof.
  intros (f & l & H1 & S1 & U1) (g & l' & H2 & S2 & U2).
  exists (fun r => g (f r)), (map g l ++ l')%list.
  split; [|split].
  - rewrite H2, H1, map_app, map_map, app_assoc. reflexivity.
  - intro r. exact (sameSession_trans _ _ _ (S1 r) (S2 (f r))).
  - intros r Hr. rewrite (U1 r Hr). apply U2, Hr.
Qed.

Lemma Evolves_weaken (T T' : ObjectId -> Prop) (w w' : World) :
  (forall i, T i -> T' i) -> Evolves T w w' -> Evolves T' w w'.
Proof.
  intros HT (f & l & H & S & U). exists f, l.
  split; [exact H|]. split; [exact S|].
  intros r Hr. apply U. intro Ht. exact (Hr (HT _ Ht)).
Qed.

Lemma findById_map (f : DoubtSession -> DoubtSession)
  (l l' : list DoubtSession) (i : ObjectId) (s : DoubtSession) :
  (forall r, ds_id (f r) = ds_id r) ->
  findById ds_id l i = Some s ->
  findById ds_id (map f l ++ l') i = Some (f s).
Proof.
  intros Hf. unfold findById.
  induction l as [|r l IH]; simpl; [discriminate|].
  rewrite Hf. destruct (Nat.eqb (ds_id r) i).
  - intro H. injection H as <-. reflexivity.
  - exact IH.
Qed.

(** A stored session survives an evolution, as the same session. *)
Lemma Evolves_stored (T : ObjectId -> Prop) (w w' : World) (i : ObjectId)
  (s : DoubtSession) :
  Evolves T w w' ->
  stored w i = Some s ->
  exists s', stored w' i = Some s' /\ sameSession s s'
             /\ (~ T i -> s' = s).
Proof.
  intros (f & l & H & S & U) Hs. exists (f s).
  pose proof (stored_id _ _ _ Hs) as Hid.
  split; [|split].
  - unfold stored. rewrite H.
    apply findById_map; [|exact Hs]. intro r. exact (proj1 (S r)).
  - apply S.
  - intro HT. apply U. rewrite Hid. exact HT.
Qed.

(** ** A small program logic for the handlers *)

Lemma keeps_ret {A} (T : ObjectId -> Prop) (a : A) (Q : A -> Prop) :
  Q a -> keeps T (ret a) Q.
Proof. intros H w. simpl. split; [apply Evolves_refl | exact H]. Qed.

Lemma keeps_throw {A} (T : ObjectId -> Prop) (Q : A -> Prop) :
  keeps T (@throw World A) Q.
Proof. intro w. simpl. apply Evolves_refl. Qed.

Lemma keeps_bind {A B} (T : ObjectId -> Prop) (m : M World A)
  (k : A -> M World B) (Q : A -> Prop) (R : B -> Prop) :
  keeps T m Q -> (forall a, Q a -> keeps T (k a) R) -> keeps T (bind m k) R.
Proof.
  intros Hm Hk w. unfold bind. specialize (Hm w).
  destruct (m w) as [a w1 | w1]; [|exact Hm].
  destruct Hm as [E Ha]. specialize (Hk a Ha w1).
  destruct (k a w1) as [b w2 | w2].
  - destruct Hk as [E' Hb]. split; [exact (Evolves_trans _ _ _ _ E E') | exact Hb].
  - exact (Evolves_trans _ _ _ _ E Hk).
Qed.

Lemma keeps_tryCatch {A} (T : ObjectId -> Prop) (body handler : M World A)
  (Q : A -> Prop) :
  keeps T body Q -> keeps T handler Q -> keeps T (tryCatch body handler) Q.
Proof.
  intros Hb Hh w. unfold tryCatch. specialize (Hb w).
  destruct (body w) as [a w1 | w1]; [exact Hb|].
  specialize (Hh w1). destruct (handler w1) as [a w2 | w2].
  - destruct Hh as [E' Ha]. split; [exact (Evolves_trans _ _ _ _ Hb E') | exact Ha].
  - exact (Evolves_trans _ _ _ _ Hb Hh).
Qed.

Lemma keeps_post {A} (T : ObjectId -> Prop) (m : M World A)
  (Q Q' : A -> Prop) :
  keeps T m Q -> (forall a, Q a -> Q' a) -> keeps T m Q'.
Proof.
  intros Hm HQ w. specialize (Hm w). destruct (m w); [|exact Hm].
  destruct Hm. auto.
Qed.

(** A computation that leaves the session collection alone. *)
Lemma keeps_frame {A} (T : ObjectId -> Prop) (m : M World A) :
  (forall w, doubts (stateOf (m w)) = doubts w) ->
  keeps T m (fun _ => True).
Proof.
  intros H w. specialize (H w). destruct (m w); simpl in H;
    [split; [|exact I]|]; apply Evolves_same_doubts, H.
Qed.

Lemma keeps_getWorld (T : ObjectId -> Prop) :
  keeps T getWorld (fun _ => True).
Proof. apply keeps_frame. reflexivity. Qed.

Lemma keeps_newDate (T : ObjectId -> Prop) :
  keeps T newDate (fun _ => True).
Proof. apply keeps_frame. reflexivity. Qed.

Lemma keeps_freshId (T : ObjectId -> Prop) :
  keeps T freshId (fun _ => True).
Proof. apply keeps_frame. reflexivity. Qed.

Lemma keeps_emit (T : ObjectId -> Prop) (e : Event) :
  keeps T (emit e) (fun _ => True).
Proof. apply keeps_frame. reflexivity. Qed.

Lemma keeps_setTimeout (T : ObjectId -> Prop) (t : Task) (delay : Z) :
  keeps T (setTimeout t delay) (fun _ => True).
Proof. apply keeps_frame. reflexivity. Qed.

Lemma keeps_saveChatMessage (T : ObjectId -> Prop) (i : ChatMessageInput) :
  keeps T (saveChatMessage i) (fun _ => True).
Proof.
  apply keeps_frame. intro w.
  destruct (saveChatMessage_outcome i w) as [-> | (role & _ & _ & ->)];
    reflexivity.
Qed.

Lemma sameSession_writeBack (d : Doc) (now : Date) (r : DoubtSession) :
  safeStatus d -> sameSession r (writeBack d now r).
Proof.
  intro Hd. unfold sameSession, writeBack.
  destruct (d_modStatus d) eqn:E1, (d_modLastMessageAt d); simpl;
    repeat split; auto.
Qed.

Lemma docOk_loaded (T : ObjectId -> Prop) (s : DoubtSession) :
  T (ds_id s) -> docOk T (loaded s).
Proof. intro H. split; [exact H | discriminate]. Qed.

Lemma docOk_setStatus (T : ObjectId -> Prop) (d : Doc) (v : Status) :
  T (ds_id (d_val d)) -> v <> pending -> docOk T (setStatus d v).
Proof.
  intros H Hv. unfold setStatus.
  destruct (Status_eqb (ds_status (d_val d)) v) eqn:E.
  - apply Status_eqb_eq in E. split; [exact H|]. intros _. congruence.
  - split; [exact H | intros _; exact Hv].
Qed.

Lemma docOk_setLastMessageAt (T : ObjectId -> Prop) (d : Doc) (v : Date) :
  docOk T d -> docOk T (setLastMessageAt d v).
Proof.
  intros [H1 H2]. unfold setLastMessageAt.
  destruct (ds_lastMessageAt (d_val d) =? v); split; auto.
Qed.

Lemma keeps_save (T : ObjectId -> Prop) (d : Doc) :
  docOk T d -> keeps T (save d) (docOk T).
Proof.
  intros [Hid Hst] w.
  destruct (save_outcome d w) as [-> | [-> | (_ & _ & ->)]].
  - split; [apply Evolves_refl | split; assumption].
  - apply Evolves_refl.
  - split.
    + exists (fun r => if Nat.eqb (ds_id r) (ds_id (d_val d))
                       then writeBack d (clock w) r else r), [].
      simpl. rewrite app_nil_r. split; [reflexivity|]. split.
      * intro r. destruct (Nat.eqb (ds_id r) (ds_id (d_val d)));
          [apply sameSession_writeBack; exact Hst | apply sameSession_refl].
      * intros r Hr.
        destruct (Nat.eqb (ds_id r) (ds_id (d_val d))) eqn:E;
          [|reflexivity].
        apply Nat.eqb_eq in E. rewrite E in Hr. contradiction.
    + apply docOk_loaded. exact Hid.
Qed.

(** ** Every request is answered *)

(** A [try] block whose [catch] answers never lets an exception out. *)
Lemma tryCatch_answers {S A} (m : M S A) (x : A) (s : S) :
  exists a s', tryCatch m (ret x) s = Return a s'.
Proof.
  unfold tryCatch, ret. destruct (m s); eauto.
Qed.

Lemma guard_answers (req : Request) (w : World) :
  exists a w', isParticipantInDoubtSession req w = Return a w'.
Proof.
  apply tryCatch_answers.
Qed.

Lemma guarded_answers (handler : Request -> M World Response) :
  (forall req w, exists r w', handler req w = Return r w') ->
  forall req w, exists r w', guarded handler req w = Return r w'.
Proof.
  intros H req w. unfold guarded, bind.
  destruct (guard_answers req w) as ([r | req'] & w' & ->).
  - unfold ret. eauto.
  - apply H.
Qed.

Lemma close_answers (req : Request) (w : World) :
  exists r w', closeDoubtSession req w = Return r w'.
Proof.
  apply tryCatch_answers.
Qed.

Lemma send_answers (b : MessageBody) (req : Request) (w : World) :
  exists r w', sendDoubtMessage b req w = Return r w'.
Proof.
  unfold sendDoubtMessage.
  destruct (negb (truthy (mb_messageText b))
            && negb (truthy (mb_attachmentUrl b))).
  - unfold ret. eauto.
  - apply tryCatch_answers.
Qed.

Lemma history_answers (req : Request) (w : World) :
  exists r w', getDoubtSessionMessages req w = Return r w'.
Proof.
  apply tryCatch_answers.
Qed.

Lemma feedback_answers (u : AuthUser) (i : ObjectId) (b : FeedbackBody)
  (w : World) :
  exists r w', submitAiFeedback u i b w = Return r w'.
Proof.
  unfold submitAiFeedback. destruct (fb_helpful b).
  - apply tryCatch_answers.
  - unfold ret. eauto.
Qed.

(** ** The handlers evolve the sessions *)

Lemma keeps_guard (T : ObjectId -> Prop) (u : AuthUser) (i : ObjectId) :
  T i ->
  keeps T (isParticipantInDoubtSession (request u i))
    (fun r => match r with
              | inl _ => True
              | inr req' =>
                  user req' = u /\ doubtSessionId req' = i
                  /\ match doubtSession req' with
                     | Some d => docOk T d
                     | None => True
                     end
              end).
Proof.
  intro Hi. unfold isParticipantInDoubtSession.
  apply keeps_tryCatch; [|apply keeps_ret; exact I].
  simpl. destruct (Role_eqb (user_role u) admin).
  - apply keeps_ret. simpl. auto.
  - eapply keeps_bind; [apply keeps_getWorld|]. intros w _.
    destruct (findById ds_id (doubts w) i) as [s|] eqn:Hs;
      [|apply keeps_ret; exact I].
    destruct (negb (isStudentParticipant s (user_id u))
              && negb (isTrainerParticipant s (user_id u)));
      apply keeps_ret; [exact I|]. simpl.
    repeat split; try discriminate.
    apply findById_id in Hs. destruct Hs as [Hs _].
    simpl. rewrite Hs. exact Hi.
Qed.

Lemma keeps_closeDoubtSession (T : ObjectId -> Prop) (req : Request) :
  match doubtSession req with
  | Some d => docOk T d
  | None => True
  end ->
  keeps T (closeDoubtSession req) (fun _ => True).
Proof.
  intro Hd. unfold closeDoubtSession.
  apply keeps_tryCatch; [|apply keeps_ret; exact I].
  destruct (doubtSession req) as [d|]; [|apply keeps_throw].
  destruct (Status_eqb (ds_status (d_val d)) closed
            || Status_eqb (ds_status (d_val d)) resolved
            || Status_eqb (ds_status (d_val d)) cancelled);
    [apply keeps_ret; exact I|].
  destruct (negb (Role_eqb (user_role (user req)) admin)
            && negb (isStudentParticipant (d_val d) (user_id (user req)))
            && negb (isTrainerParticipant (d_val d) (user_id (user req))));
    [apply keeps_ret; exact I|].
  eapply keeps_bind.
  { apply keeps_save. apply docOk_setStatus; [exact (proj1 Hd)|discriminate]. }
  intros d' _. eapply keeps_bind; [apply keeps_emit|].
  intros _ _. apply keeps_ret. exact I.
Qed.

Lemma keeps_sendDoubtMessage (T : ObjectId -> Prop) (b : MessageBody)
  (req : Request) :
  match doubtSession req with
  | Some d => docOk T d
  | None => True
  end ->
  keeps T (sendDoubtMessage b req) (fun _ => True).
Proof.
  intro Hd. unfold sendDoubtMessage.
  destruct (negb (truthy (mb_messageText b))
            && negb (truthy (mb_attachmentUrl b)));
    [apply keeps_ret; exact I|].
  apply keeps_tryCatch; [|apply keeps_ret; exact I].
  destruct (doubtSession req) as [d|]; [|apply keeps_throw].
  apply keeps_bind
    with (Q := fun g => match g with
                        | inl _ => True
                        | inr d1 => docOk T d1
                        end).
  { destruct (terminalOrResolved (ds_status (d_val d)));
      [|apply keeps_ret; exact Hd].
    destruct (DoubtType_eqb (ds_doubtType (d_val d)) aiDoubt
              && Role_eqb (user_role (user req)) student);
      [|apply keeps_ret; exact I].
    eapply keeps_bind; [apply keeps_newDate|]. intros now _.
    eapply keeps_bind.
    { apply keeps_save, docOk_setLastMessageAt, docOk_setStatus;
        [exact (proj1 Hd) | discriminate]. }
    intros d' Hd'. apply keeps_ret. exact Hd'. }
  intros [response | d1] Hd1; [apply keeps_ret; exact I|].
  eapply keeps_bind; [apply keeps_saveChatMessage|]. intros chatMessage _.
  eapply keeps_bind; [apply keeps_newDate|]. intros now _.
  eapply keeps_bind.
  { apply keeps_save.
    destruct (Role_eqb (user_role (user req)) trainer
              && Status_eqb
                   (ds_status (d_val (setLastMessageAt d1 now))) pending).
    - apply docOk_setStatus; [|discriminate].
      exact (proj1 (docOk_setLastMessageAt T d1 now Hd1)).
    - apply docOk_setLastMessageAt, Hd1. }
  intros d4 _.
  eapply keeps_bind; [apply keeps_emit|]. intros _ _.
  eapply keeps_bind.
  { destruct (Role_eqb (user_role (user req)) trainer).
    - eapply keeps_bind; [apply keeps_freshId|]. intros id _.
      eapply keeps_bind; [apply keeps_newDate|]. intros asked _.
      apply keeps_emit.
    - apply keeps_ret. exact I. }
  intros _ _.
  eapply keeps_bind.
  { destruct (DoubtType_eqb (ds_doubtType (d_val d)) aiDoubt
              && Role_eqb (user_role (user req)) student).
    - apply keeps_setTimeout.
    - apply keeps_ret. exact I. }
  intros _ _. apply keeps_ret. exact I.
Qed.

Lemma keeps_guarded (T : ObjectId -> Prop) (u : AuthUser) (i : ObjectId)
  (h : Request -> M World Response) :
  T i ->
  (forall req, match doubtSession req with
               | Some d => docOk T d
               | None => True
               end -> keeps T (h req) (fun _ => True)) ->
  keeps T (guarded h (request u i)) (fun _ => True).
Proof.
  intros Hi Hh. unfold guarded.
  eapply keeps_bind; [apply keeps_guard; exact Hi|].
  intros [response | req'] Hr; [apply keeps_ret; exact I|].
  apply Hh. tauto.
Qed.

(** ** The callbacks evolve the session of their timer *)

Lemma keepsF_bind {A B} (T : ObjectId -> Prop) (P Q R : Doc -> Prop)
  (m : M Frame A) (k : A -> M Frame B) :
  keepsF T P Q m -> (forall a, keepsF T Q R (k a)) ->
  keepsF T P R (bind m k).
Proof.
  intros Hm Hk d w Hd Hp. unfold bind. specialize (Hm d w Hd Hp).
  destruct (m (d, w)) as [a [d1 w1] | [d1 w1]]; [|exact Hm].
  destruct Hm as (E & Hd1 & Hq). specialize (Hk a d1 w1 Hd1 Hq).
  destruct (k a (d1, w1)) as [b0 [d2 w2] | [d2 w2]].
  - destruct Hk as (E' & H1 & H2).
    split; [exact (Evolves_trans _ _ _ _ E E') | tauto].
  - destruct Hk as (E' & H1).
    split; [exact (Evolves_trans _ _ _ _ E E') | exact H1].
Qed.

Lemma keepsF_tryCatch {A} (T : ObjectId -> Prop) (P Q : Doc -> Prop)
  (body handler : M Frame A) :
  keepsF T P Q body -> keepsF T (fun _ => True) Q handler ->
  keepsF T P Q (tryCatch body handler).
Proof.
  intros Hb Hh d w Hd Hp. unfold tryCatch. specialize (Hb d w Hd Hp).
  destruct (body (d, w)) as [a [d1 w1] | [d1 w1]]; [exact Hb|].
  destruct Hb as (E & Hd1). specialize (Hh d1 w1 Hd1 I).
  destruct (handler (d1, w1)) as [b0 [d2 w2] | [d2 w2]].
  - destruct Hh as (E' & H1 & H2).
    split; [exact (Evolves_trans _ _ _ _ E E') | tauto].
  - destruct Hh as (E' & H1).
    split; [exact (Evolves_trans _ _ _ _ E E') | exact H1].
Qed.

Lemma keepsF_post {A} (T : ObjectId -> Prop) (P Q Q' : Doc -> Prop)
  (m : M Frame A) :
  keepsF T P Q m -> (forall d, Q d -> Q' d) -> keepsF T P Q' m.
Proof.
  intros Hm HQ d w Hd Hp. specialize (Hm d w Hd Hp).
  destruct (m (d, w)) as [a [d1 w1] | [d1 w1]]; [|exact Hm].
  destruct Hm as (E & H1 & H2). auto.
Qed.

Lemma keepsF_inWorld {A} (T : ObjectId -> Prop) (P : Doc -> Prop)
  (m : M World A) :
  (forall w, doubts (stateOf (m w)) = doubts w) ->
  keepsF T P P (inWorld m).
Proof.
  intros H d w Hd Hp. unfold inWorld. specialize (H w).
  destruct (m w); simpl in H;
    (split; [apply Evolves_same_doubts, H | auto]).
Qed.

Lemma keepsF_theDoc (T : ObjectId -> Prop) (P : Doc -> Prop) :
  keepsF T P P theDoc.
Proof. intros d w Hd Hp. simpl. split; [apply Evolves_refl | auto]. Qed.

Lemma keepsF_faultAt (T : ObjectId -> Prop) (P : Doc -> Prop)
  (f here : Fault) :
  keepsF T P P (faultAt f here).
Proof.
  intros d w Hd Hp. unfold faultAt.
  destruct (Fault_eqb f here); simpl;
    (split; [apply Evolves_refl | auto]).
Qed.

Lemma keepsF_assign (T : ObjectId -> Prop) (P Q : Doc -> Prop)
  (f : Doc -> Doc) :
  (forall d, ds_id (d_val (f d)) = ds_id (d_val d)) ->
  (forall d, P d -> Q (f d)) ->
  keepsF T P Q (assign f).
Proof.
  intros Hid HQ d w Hd Hp. simpl.
  split; [apply Evolves_refl|]. rewrite Hid. auto.
Qed.

Lemma keepsF_saveTheDoc (T : ObjectId -> Prop) :
  keepsF T safeStatus safeStatus saveTheDoc.
Proof.
  intros d w Hd Hp. unfold saveTheDoc.
  pose proof (keeps_save T d (conj Hd Hp) w) as H.
  destruct (save d w) as [d' w' | w'].
  - destruct H as [E [H1 H2]]. auto.
  - auto.
Qed.

Lemma setStatus_id (d : Doc) (v : Status) :
  ds_id (d_val (setStatus d v)) = ds_id (d_val d).
Proof.
  unfold setStatus. destruct (Status_eqb (ds_status (d_val d)) v);
    reflexivity.
Qed.

Lemma setLastMessageAt_id (d : Doc) (v : Date) :
  ds_id (d_val (setLastMessageAt d v)) = ds_id (d_val d).
Proof.
  unfold setLastMessageAt. destruct (ds_lastMessageAt (d_val d) =? v);
    reflexivity.
Qed.

Lemma safeStatus_setStatus (d : Doc) (v : Status) :
  v <> pending -> safeStatus (setStatus d v).
Proof.
  intro Hv. exact (proj2 (docOk_setStatus (fun _ => True) d v I Hv)).
Qed.

Lemma safeStatus_setLastMessageAt (d : Doc) (v : Date) :
  safeStatus d -> safeStatus (setLastMessageAt d v).
Proof.
  intro H.
  exact (proj2 (docOk_setLastMessageAt (fun _ => True) d v (conj I H))).
Qed.

Ltac frameF :=
  first
    [ apply keepsF_theDoc
    | apply keepsF_faultAt
    | apply keepsF_saveTheDoc
    | apply keepsF_inWorld; intro w0;
      first [ reflexivity
            | match goal with
              | |- context [saveChatMessage ?i ?w] =>
                  destruct (saveChatMessage_outcome i w)
                    as [-> | (? & _ & _ & ->)]; reflexivity
              end ] ].

Lemma keepsF_aiAnswerCallback (T : ObjectId -> Prop)
  (studentName text : string) (f : Fault) :
  keepsF T (fun _ => True) safeStatus
    (aiAnswerCallback studentName text f).
Proof.
  unfold aiAnswerCallback. apply keepsF_tryCatch.
  - eapply keepsF_bind; [frameF|]. intro d.
    eapply keepsF_bind; [frameF|]. intros _.
    eapply keepsF_bind; [frameF|]. intro aiChatMessage.
    eapply keepsF_bind.
    { apply keepsF_assign with (Q := safeStatus);
        [intro; apply setStatus_id
        |intros; apply safeStatus_setStatus; discriminate]. }
    intros _. eapply keepsF_bind; [frameF|]. intro now.
    eapply keepsF_bind.
    { apply keepsF_assign with (Q := safeStatus);
        [intro; apply setLastMessageAt_id
        |intros; apply safeStatus_setLastMessageAt; assumption]. }
    intros _. eapply keepsF_bind; [frameF|]. intros _.
    eapply keepsF_bind; [frameF|]. intros _.
    eapply keepsF_bind; [frameF|]. intros _. frameF.
  - eapply keepsF_bind; [frameF|]. intro d.
    eapply keepsF_bind; [frameF|]. intro errorChatMessage.
    eapply keepsF_bind; [frameF|]. intros _.
    eapply keepsF_bind.
    { apply keepsF_assign with (Q := safeStatus);
        [intro; apply setStatus_id
        |intros; apply safeStatus_setStatus; discriminate]. }
    intros _. eapply keepsF_bind; [frameF|]. intro now.
    eapply keepsF_bind.
    { apply keepsF_assign with (Q := safeStatus);
        [intro; apply setLastMessageAt_id
        |intros; apply safeStatus_setLastMessageAt; assumption]. }
    intros _. frameF.
Qed.

Lemma keepsF_aiFollowUpCallback (T : ObjectId -> Prop)
  (text : option string) (f : Fault) :
  keepsF T (fun _ => True) (fun _ => True) (aiFollowUpCallback text f).
Proof.
  unfold aiFollowUpCallback. apply keepsF_tryCatch.
  - apply keepsF_post with (Q := safeStatus); [|auto].
    eapply keepsF_bind; [frameF|]. intro d.
    eapply keepsF_bind; [frameF|]. intros _.
    eapply keepsF_bind; [frameF|]. intro aiChatMessage.
    eapply keepsF_bind; [frameF|]. intro now.
    eapply keepsF_bind.
    { apply keepsF_assign with (Q := fun _ => True);
        [intro; apply setLastMessageAt_id | auto]. }
    intros _. eapply keepsF_bind.
    { apply keepsF_assign with (Q := safeStatus);
        [intro; apply setStatus_id
        |intros; apply safeStatus_setStatus; discriminate]. }
    intros _. eapply keepsF_bind; [frameF|]. intros _.
    eapply keepsF_bind; [frameF|]. intros _.
    eapply keepsF_bind; [frameF|]. intros _. frameF.
  - eapply keepsF_bind; [frameF|]. intro d.
    eapply keepsF_bind; [frameF|]. intro errorChatMessage. frameF.
Qed.

Lemma Evolves_runTask (t : Task) (f : Fault) (w : World) :
  Evolves (eq (ds_id (d_val (taskDoc t)))) w (runTask t f w).
Proof.
  destruct t as [d name text | d text]; simpl.
  - pose proof (keepsF_aiAnswerCallback (eq (ds_id (d_val d))) name text f
                  d w eq_refl I) as H.
    destruct (aiAnswerCallback name text f (d, w)) as [a [d1 w1] | [d1 w1]];
      simpl; tauto.
  - pose proof (keepsF_aiFollowUpCallback (eq (ds_id (d_val d))) text f
                  d w eq_refl I) as H.
    destruct (aiFollowUpCallback text f (d, w)) as [a [d1 w1] | [d1 w1]];
      simpl; tauto.
Qed.

Lemma keeps_state {A} (T : ObjectId -> Prop) (m : M World A)
  (Q : A -> Prop) (w : World) :
  keeps T m Q -> Evolves T w (stateOf (m w)).
Proof.
  intro H. specialize (H w). destruct (m w); simpl; tauto.
Qed.

(** Every step evolves the sessions, and rewrites at most the session it
    addresses. *)
Lemma run_evolves (o : Op) (w : World) :
  Evolves (touchedBy o w) w (run o w).
Proof.
  destruct o as [u b | u i | u i b | u i | u | ms | h f]; simpl.
  - unfold withRole. destruct (isStudent u); [apply Evolves_refl|].
    destruct (initiate_cases u b w)
      as [(r & -> & _)
         | (r & w' & ds & cm & text & -> & _ & _ & Hd & _)]; simpl.
    + apply Evolves_refl.
    + exists (fun r => r), [ds]. rewrite map_id.
      repeat split; auto using sameSession_refl.
  - destruct (guard_pure (request u i) w) as (r & Hr).
    unfold guarded, bind. rewrite Hr.
    destruct r; apply Evolves_refl.
  - apply keeps_state with (Q := fun _ => True).
    apply keeps_guarded; [reflexivity|].
    intros req Hreq. apply keeps_sendDoubtMessage, Hreq.
  - apply keeps_state with (Q := fun _ => True).
    apply keeps_guarded; [reflexivity|].
    intros req Hreq. apply keeps_closeDoubtSession, Hreq.
  - unfold withRole. destruct (isTrainerOrAdmin u); apply Evolves_refl.
  - apply Evolves_same_doubts. reflexivity.
  - unfold fire. destruct (findTimer (timers w) h) as [t|];
      [|apply Evolves_refl].
    destruct (tm_due t <=? clock w); [|apply Evolves_refl].
    pose proof (Evolves_runTask (tm_task t) f
                  (withTimers w
                     (filter (fun x => negb (Nat.eqb (tm_id x) h))
                        (timers w)))) as H.
    destruct H as (g & l & H1 & H2 & H3). exists g, l. auto.
Qed.

(** ** One step rewrites one session *)

(** X3.  A step of the chat rewrites at most the session it addresses:
    a send or a close on one session and the firing of a timer leave
    every other stored session exactly as it was, and an initiation, a
    read and the passing of time leave all stored sessions as they
    were. *)
Theorem other_sessions_are_untouched (o : Op) (w : World) (j : ObjectId)
  (s : DoubtSession) :
  stored w j = Some s ->
  ~ touchedBy o w j ->
  stored (run o w) j = Some s.
Proof.
  intros Hs Hj.
  destruct (Evolves_stored _ _ _ j s (run_evolves o w) Hs)
    as (s' & Hs' & _ & Hsame).
  rewrite (Hsame Hj) in Hs'. exact Hs'.
Qed.

Lemma other_sessions_are_untouched_witness :
  stored (run (doSend Sample.asAsha 102%nat (Sample.textOnly "and at night?"))
            Sample.twoSessions) 100%nat
  = Some Sample.pendingSession.
Proof.
  apply other_sessions_are_untouched; [reflexivity|].
  simpl. discriminate.
Defined.



(** ** Listings *)

Lemma insertBy_perm {A} (key : A -> Z) (x : A) (l : list A) :
  Permutation (x :: l) (insertBy key x l).
Proof.
  induction l as [|y l IH]; simpl; [apply Permutation_refl|].
  destruct (key x <? key y); [apply Permutation_refl|].
  apply perm_trans with (y :: x :: l); [apply perm_swap|].
  apply perm_skip, IH.
Qed.

Lemma sortBy_perm {A} (key : A -> Z) (l : list A) :
  Permutation l (sortBy key l).
Proof.
  unfold sortBy.
  assert (G : forall acc,
             Permutation (acc ++ l)
               (fold_left (fun a x => insertBy key x a) l acc)).
  { induction l as [|x l IH]; intro acc; simpl.
    - rewrite app_nil_r. apply Permutation_refl.
    - eapply perm_trans; [|apply IH].
      apply perm_trans with ((x :: acc) ++ l).
      + simpl. apply Permutation_sym, Permutation_middle.
      + apply Permutation_app_tail, insertBy_perm. }
  exact (G []).
Qed.

Lemma insertBy_sorted {A} (key : A -> Z) (x : A) (l : list A) :
  Sorted (fun a b => key a <= key b) l ->
  Sorted (fun a b => key a <= key b) (insertBy key x l).
Proof.
  induction l as [|y l IH]; intro H; simpl.
  - constructor; constructor.
  - destruct (key x <? key y) eqn:E.
    + apply Z.ltb_lt in E. constructor; [exact H|].
      constructor. lia.
    + apply Z.ltb_ge in E. inversion H as [|? ? Hs Hh]; subst.
      constructor; [apply IH, Hs|].
      destruct l as [|z l]; simpl.
      * constructor. exact E.
      * destruct (key x <? key z); constructor;
          [exact E | inversion Hh; assumption].
Qed.

Lemma sortBy_sorted {A} (key : A -> Z) (l : list A) :
  Sorted (fun a b => key a <= key b) (sortBy key l).
Proof.
  unfold sortBy.
  assert (G : forall acc,
             Sorted (fun a b => key a <= key b) acc ->
             Sorted (fun a b => key a <= key b)
               (fold_left (fun a x => insertBy key x a) l acc)).
  { induction l as [|x l IH]; intros acc Hacc; simpl; [exact Hacc|].
    apply IH, insertBy_sorted, Hacc. }
  apply G. constructor.
Qed.

Lemma sortBy_descending {A} (key : A -> Z) (l : list A) :
  Sorted (fun a b => key a >= key b) (sortBy (fun s => - key s) l).
Proof.
  pose proof (sortBy_sorted (fun s => - key s) l) as H.
  induction H as [|a r _ IH Hh]; constructor; [exact IH|].
  destruct Hh; constructor. lia.
Qed.

(** X5.  [getMyDoubtSessions] changes nothing and answers 200 with the
    caller's own sessions, in every status, each exactly once, the most
    recently active first; no session of another student is listed. *)
Theorem my_doubts_lists_own_sessions (u : AuthUser) (w : World) :
  exists l,
    getMyDoubtSessions u w
    = Return {| statusCode := 200; body := sessionsJson l |} w
    /\ Permutation
         (filter (fun s => Nat.eqb (ds_student s) (user_id u)) (doubts w)) l
    /\ Sorted (fun a b => ds_lastMessageAt a >= ds_lastMessageAt b) l
    /\ (forall s, In s l <-> In s (doubts w) /\ ds_student s = user_id u).
Proof.
  eexists. split; [reflexivity|]. split; [apply sortBy_perm|]. split.
  - apply sortBy_descending.
  - intro s. rewrite In_sortBy, filter_In, Nat.eqb_eq. tauto.
Qed.

(** X6.  [getActiveStudentDoubts] changes nothing and answers 200 with
    exactly the caller's sessions that are [pending] or [in_progress],
    each once, the most recently active first; a resolved, closed or
    cancelled session is never listed. *)
Theorem active_doubts_lists_open_sessions (u : AuthUser) (w : World) :
  exists l,
    getActiveStudentDoubts u w
    = Return {| statusCode := 200; body := sessionsJson l |} w
    /\ (forall s, In s l <->
                  In s (doubts w) /\ ds_student s = user_id u
                  /\ (ds_status s = pending \/ ds_status s = in_progress))
    /\ Permutation
         (filter (fun s => Nat.eqb (ds_student s) (user_id u)
                           && (Status_eqb (ds_status s) pending
                               || Status_eqb (ds_status s) in_progress))
            (doubts w)) l
    /\ Sorted (fun a b => ds_lastMessageAt a >= ds_lastMessageAt b) l.
Proof.
  eexists. split; [reflexivity|]. split; [|split].
  - intro s. rewrite In_sortBy, filter_In, andb_true_iff, Nat.eqb_eq.
    split.
    + intros (Hin & Hst & Hs). repeat split; auto.
      destruct (ds_status s); simpl in Hs; auto; discriminate.
    + intros (Hin & Hst & [Hs | Hs]); rewrite Hs; auto.
  - rewrite (filter_ext
               (fun s => Nat.eqb (ds_student s) (user_id u)
                         && (Status_eqb (ds_status s) pending
                             || Status_eqb (ds_status s) in_progress))
               (fun s => Nat.eqb (ds_student s) (user_id u)
                         && existsb (String.eqb (statusName (ds_status s)))
                              ["pending"; "in_progress"]));
      [apply sortBy_perm|].
    intro s. destruct (ds_status s); reflexivity.
  - apply sortBy_descending.
Qed.

(** X7.  [getAllDoubtSessions] changes nothing and answers 200 with every
    stored session exactly once, the most recently active first. *)
Theorem all_doubts_lists_every_session (w : World) :
  exists l,
    getAllDoubtSessions w
    = Return {| statusCode := 200; body := sessionsJson l |} w
    /\ Permutation (doubts w) l
    /\ Sorted (fun a b => ds_lastMessageAt a >= ds_lastMessageAt b) l.
Proof.
  eexists. split; [reflexivity|].
  split; [apply sortBy_perm | apply sortBy_descending].
Qed.

(** X8.  The trainer's listing is ordered by the time of the last write,
    latest first, and holds each of the trainer's pending sessions
    exactly once. *)
Theorem trainer_listing_is_ordered (u : AuthUser) (w : World) :
  exists l,
    getTrainerDoubtSessions u w
    = Return {| statusCode := 200; body := sessionsJson l |} w
    /\ Permutation
         (filter (fun s => match ds_trainer s with
                           | Some t => Nat.eqb t (user_id u)
                           | None => false
                           end
                           && Status_eqb (ds_status s) pending)
            (doubts w)) l
    /\ Sorted (fun a b => ds_updatedAt a >= ds_updatedAt b) l.
Proof.
  eexists. split; [reflexivity|]. split.
  - rewrite (filter_ext
               (fun s => match ds_trainer s with
                         | Some t => Nat.eqb t (user_id u)
                         | None => false
                         end
                         && Status_eqb (ds_status s) pending)
               (fun s => match ds_trainer s with
                         | Some t => Nat.eqb t (user_id u)
                         | None => false
                         end
                         && existsb (String.eqb (statusName (ds_status s)))
                              ["pending"; "open"]));
      [apply sortBy_perm|].
    intro s. destruct (ds_status s); reflexivity.
  - apply sortBy_descending.
Qed.

(** The answer to a history request, whoever asks. *)
Lemma history_answer (u : AuthUser) (i : ObjectId)
  (w w' : World) (r : Response) :
  guarded getDoubtSessionMessages (request u i) w = Return r w' ->
  w' = w
  /\ (statusCode r = 200%nat <->
      user_role u = admin
      \/ exists s, stored w i = Some s
                   /\ isStudentParticipant s (user_id u)
                      || isTrainerParticipant s (user_id u) = true)
  /\ (statusCode r = 200%nat ->
      exists l,
        body r = messagesJson l
        /\ Permutation
             (filter (fun m => Nat.eqb (cm_doubtSession m) i) (messages w))
             l
        /\ Sorted (fun a b => cm_createdAt a <= cm_createdAt b) l
        /\ forall m, In m l -> cm_doubtSession m = i).
Proof.
  intro Hrun.
  assert (Hok : forall req,
             doubtSessionId req = i ->
             getDoubtSessionMessages req w = Return r w' ->
             w' = w
             /\ statusCode r = 200%nat
             /\ exists l,
                  body r = messagesJson l
                  /\ Permutation
                       (filter (fun m => Nat.eqb (cm_doubtSession m) i)
                          (messages w)) l
                  /\ Sorted (fun a b => cm_createdAt a <= cm_createdAt b) l
                  /\ forall m, In m l -> cm_doubtSession m = i).
  { intros req Hreq H. unfold getDoubtSessionMessages, tryCatch, bind,
      getWorld, ret in H. rewrite Hreq in H. injection H as <- <-.
    split; [reflexivity|]. split; [reflexivity|].
    eexists. split; [reflexivity|]. split; [apply sortBy_perm|].
    split; [apply sortBy_sorted|].
    intros m Hm. apply In_sortBy, filter_In in Hm.
    apply Nat.eqb_eq, Hm. }
  destruct (Role_eqb (user_role u) admin) eqn:Hadm.
  - apply Role_eqb_eq in Hadm.
    unfold guarded, bind at 1 in Hrun.
    rewrite guard_admin in Hrun by exact Hadm.
    destruct (Hok (request u i) eq_refl Hrun) as (H1 & H2 & H3).
    split; [exact H1|]. split; [tauto | auto].
  - apply Role_eqb_neq in Hadm.
    destruct (stored w i) as [s|] eqn:Hs.
    + destruct (isStudentParticipant s (user_id u)
                || isTrainerParticipant s (user_id u)) eqn:Hp.
      * unfold guarded, bind at 1 in Hrun.
        rewrite (guard_participant u i w s Hadm Hs Hp) in Hrun.
        destruct (Hok {| user := u; doubtSessionId := i;
                         doubtSession := Some (loaded s) |} eq_refl Hrun)
          as (H1 & H2 & H3).
        split; [exact H1|]. split; [|auto].
        split; [|intros _; exact H2].
        intros _. right. exists s. auto.
      * unfold guarded, bind at 1 in Hrun.
        rewrite (guard_outsider u i w s Hadm Hs Hp) in Hrun.
        injection Hrun as <- <-. simpl.
        split; [reflexivity|]. split; [|discriminate].
        split; [discriminate|].
        intros [H | (s0 & H0 & H1)]; [contradiction|].
        injection H0 as <-. congruence.
    + unfold guarded, bind at 1 in Hrun.
      rewrite (guard_missing u i w Hadm Hs) in Hrun.
      injection Hrun as <- <-. simpl.
      split; [reflexivity|]. split; [|discriminate].
      split; [discriminate|].
      intros [H | (s0 & H0 & _)]; [contradiction | discriminate].
Qed.

(** X9.  The message history of a session is served exactly to an admin
    and to the participants of the session.  No request for it changes
    anything, and the list of an answer 200 holds the messages of that
    session and of no other, each once, in the order of their creation
    times. *)
Theorem history_is_served_to_participants (u : AuthUser) (i : ObjectId)
  (w : World) :
  exists r,
    guarded getDoubtSessionMessages (request u i) w = Return r w
    /\ (statusCode r = 200%nat <->
        user_role u = admin
        \/ exists s, stored w i = Some s
                     /\ isStudentParticipant s (user_id u)
                        || isTrainerParticipant s (user_id u) = true)
    /\ (statusCode r = 200%nat ->
        exists l,
          body r = messagesJson l
          /\ Permutation
               (filter (fun m => Nat.eqb (cm_doubtSession m) i) (messages w))
               l
          /\ Sorted (fun a b => cm_createdAt a <= cm_createdAt b) l
          /\ forall m, In m l -> cm_doubtSession m = i).
Proof.
  destruct (guarded_answers _ history_answers (request u i) w)
    as (r & w' & Hrun).
  destruct (history_answer u i w w' r Hrun) as (-> & H1 & H2).
  exists r. auto.
Qed.

(** ** AI feedback *)

Lemma optionBool_eqb_eq (a b : option bool) :
  optionBool_eqb a b = true <-> a = b.
Proof.
  destruct a as [[]|], b as [[]|]; simpl; split; congruence.
Qed.

Lemma optionString_eqb_eq (a b : option string) :
  optionString_eqb a b = true <-> a = b.
Proof.
  destruct a as [x|], b as [y|]; simpl; split; try congruence.
  - intro H. apply String.eqb_eq in H. congruence.
  - intro H. injection H as ->. apply String.eqb_refl.
Qed.

Lemma find_map_same {A} (p : A -> bool) (g : A -> A) (l : list A) :
  (forall r, p (g r) = p r) ->
  find p (map g l) = option_map g (find p l).
Proof.
  intro Hg. induction l as [|r l IH]; simpl; [reflexivity|].
  rewrite Hg. destruct (p r); [reflexivity | exact IH].
Qed.

Lemma findAiSessionOf_spec (l : list DoubtSession) (i student : ObjectId)
  (s : DoubtSession) :
  findAiSessionOf l i student = Some s ->
  In s l /\ ds_id s = i /\ ds_student s = student
  /\ ds_doubtType s = aiDoubt.
Proof.
  unfold findAiSessionOf. intro H. apply find_some in H.
  destruct H as [Hin H]. rewrite !andb_true_iff in H.
  destruct H as [[H1 H2] H3].
  apply Nat.eqb_eq in H1, H2. apply DoubtType_eqb_eq in H3. auto.
Qed.

Lemma findAiSessionOf_none (l : list DoubtSession) (i student : ObjectId) :
  findAiSessionOf l i student = None ->
  forall s, In s l -> ds_id s = i -> ds_student s = student ->
            ds_doubtType s <> aiDoubt.
Proof.
  unfold findAiSessionOf. intros H s Hin H1 H2 H3.
  pose proof (find_none _ _ H s Hin) as F. simpl in F.
  rewrite H1, H2, H3, !Nat.eqb_refl in F. discriminate.
Qed.

(** What [submitAiFeedback] does once the session is found. *)
Lemma feedback_on_found_session (u : AuthUser) (i : ObjectId)
  (b : FeedbackBody) (w : World) (s : DoubtSession) (helpful : bool) :
  fb_helpful b = Some helpful ->
  findAiSessionOf (doubts w) i (user_id u) = Some s ->
  exists s' w',
    submitAiFeedback u i b w
    = Return {| statusCode := 200;
                body := closedJson "AI feedback submitted successfully."
                          s' |} w'
    /\ findAiSessionOf (doubts w') i (user_id u) = Some s'
    /\ ds_aiHelpful s' = Some helpful
    /\ ds_aiFeedbackText s' = feedbackTextOf (fb_feedbackText b)
    /\ withAiFeedback s' (ds_aiHelpful s) (ds_aiFeedbackText s)
       = withUpdatedAt s (ds_updatedAt s')
    /\ users w' = users w /\ schools w' = schools w
    /\ sessions w' = sessions w /\ messages w' = messages w
    /\ timers w' = timers w /\ events w' = events w
    /\ clock w' = clock w /\ nextId w' = nextId w.
Proof.
  intros Hh Hs. unfold submitAiFeedback. rewrite Hh.
  unfold tryCatch, bind at 1, getWorld. rewrite Hs.
  destruct (findAiSessionOf_spec _ _ _ _ Hs) as (_ & Hid & _ & _).
  destruct (negb (optionBool_eqb (ds_aiHelpful s) (Some helpful))
            || negb (optionString_eqb (ds_aiFeedbackText s)
                       (feedbackTextOf (fb_feedbackText b)))) eqn:Hm.
  - unfold bind, newDate, ret. simpl. do 2 eexists.
    split; [reflexivity|]. simpl. split.
    + unfold findAiSessionOf, updateById.
      rewrite find_map_same.
      * unfold findAiSessionOf in Hs. rewrite Hs. simpl.
        rewrite Nat.eqb_refl. reflexivity.
      * intro r. destruct (Nat.eqb (ds_id r) (ds_id s)); reflexivity.
    + destruct s; repeat split; reflexivity.
  - apply orb_false_iff in Hm. destruct Hm as [H1 H2].
    apply negb_false_iff in H1, H2.
    apply optionBool_eqb_eq in H1. apply optionString_eqb_eq in H2.
    unfold ret. exists s, w. split; [reflexivity|].
    split; [exact Hs|]. split; [exact H1|]. split; [exact H2|].
    destruct s; repeat split; reflexivity.
Qed.

(** X10.  AI feedback is recorded whatever the status of the session: a
    boolean [helpful] from the owning student of an ai-type session is
    answered 200, and the stored session then carries that value and the
    trimmed text (null when the text is missing or empty), with every
    other field but [updatedAt] as before; no message, timer or event is
    produced. *)
Theorem feedback_is_recorded (u : AuthUser) (i : ObjectId)
  (b : FeedbackBody) (w : World) (s : DoubtSession) (helpful : bool) :
  fb_helpful b = Some helpful ->
  findAiSessionOf (doubts w) i (user_id u) = Some s ->
  exists r w' s',
    submitAiFeedback u i b w = Return r w'
    /\ statusCode r = 200%nat
    /\ findAiSessionOf (doubts w') i (user_id u) = Some s'
    /\ ds_aiHelpful s' = Some helpful
    /\ ds_aiFeedbackText s' = feedbackTextOf (fb_feedbackText b)
    /\ ds_status s' = ds_status s
    /\ ds_lastMessageAt s' = ds_lastMessageAt s
    /\ ds_student s' = ds_student s
    /\ ds_initialDoubtText s' = ds_initialDoubtText s
    /\ messages w' = messages w
    /\ timers w' = timers w
    /\ events w' = events w.
Proof.
  intros Hh Hs.
  destruct (feedback_on_found_session u i b w s helpful Hh Hs)
    as (s' & w' & Hrun & Hf & H1 & H2 & Hrest & _ & _ & _ & Hm & Ht & He & _).
  eexists _, w', s'. split; [exact Hrun|]. split; [reflexivity|].
  split; [exact Hf|]. split; [exact H1|]. split; [exact H2|].
  pose proof (f_equal ds_status Hrest) as E1.
  pose proof (f_equal ds_lastMessageAt Hrest) as E2.
  pose proof (f_equal ds_student Hrest) as E3.
  pose proof (f_equal ds_initialDoubtText Hrest) as E4.
  simpl in E1, E2, E3, E4. auto 10.
Qed.

Lemma feedback_is_recorded_witness :
  exists r w' s',
    submitAiFeedback Sample.asAsha 100%nat Sample.thanks Sample.answered
    = Return r w'
    /\ statusCode r = 200%nat
    /\ findAiSessionOf (doubts w') 100%nat 1%nat = Some s'
    /\ ds_aiHelpful s' = Some true
    /\ ds_aiFeedbackText s' = Some "thanks"
    /\ ds_status s' = resolved
    /\ ds_lastMessageAt s' = 6000
    /\ ds_student s' = 1%nat
    /\ ds_initialDoubtText s' = "What is photosynthesis?"
    /\ messages w' = messages Sample.answered
    /\ timers w' = timers Sample.answered
    /\ events w' = events Sample.answered.
Proof.
  refine (feedback_is_recorded Sample.asAsha 100%nat Sample.thanks
            Sample.answered Sample.resolvedSession true _ _);
    reflexivity.
Defined.


(** The answer to a feedback request. *)
Lemma feedback_answer (u : AuthUser)
  (i : ObjectId) (b : FeedbackBody) (w w' : World) (r : Response) :
  submitAiFeedback u i b w = Return r w' ->
  (statusCode r = 200%nat <->
   (exists helpful, fb_helpful b = Some helpful)
   /\ exists s, In s (doubts w) /\ ds_id s = i
                /\ ds_student s = user_id u /\ ds_doubtType s = aiDoubt)
  /\ (statusCode r <> 200%nat -> w' = w).
Proof.
  intro Hrun.
  destruct (fb_helpful b) as [helpful|] eqn:Hh.
  - destruct (findAiSessionOf (doubts w) i (user_id u)) as [s|] eqn:Hs.
    + destruct (feedback_on_found_session u i b w s helpful Hh Hs)
        as (s' & w1 & H & _).
      rewrite H in Hrun. injection Hrun as <- <-. simpl.
      split; [|congruence].
      split; [|reflexivity]. intros _. split; [eauto|].
      exists s. exact (findAiSessionOf_spec _ _ _ _ Hs).
    + unfold submitAiFeedback in Hrun. rewrite Hh in Hrun.
      unfold tryCatch, bind, getWorld, ret in Hrun. rewrite Hs in Hrun.
      injection Hrun as <- <-. simpl.
      split; [|reflexivity].
      split; [discriminate|].
      intros (_ & s & Hin & H1 & H2 & H3).
      exfalso. exact (findAiSessionOf_none _ _ _ Hs s Hin H1 H2 H3).
  - unfold submitAiFeedback in Hrun. rewrite Hh in Hrun.
    injection Hrun as <- <-. simpl.
    split; [|reflexivity].
    split; [discriminate|]. intros ((h & Hx) & _). discriminate.
Qed.

(** X11.  [submitAiFeedback] answers 200 only for a boolean [helpful]
    and a stored session with the given id that belongs to the caller
    and is of type ai; a trainer-type session, another student's session
    or a missing one is refused, and a refusal changes nothing. *)
Theorem feedback_is_for_the_owner_of_an_ai_session (u : AuthUser)
  (i : ObjectId) (b : FeedbackBody) (w : World) :
  exists r w',
    submitAiFeedback u i b w = Return r w'
    /\ (statusCode r = 200%nat <->
        (exists helpful, fb_helpful b = Some helpful)
        /\ exists s, In s (doubts w) /\ ds_id s = i
                     /\ ds_student s = user_id u /\ ds_doubtType s = aiDoubt)
    /\ (statusCode r <> 200%nat -> w' = w).
Proof.
  destruct (feedback_answers u i b w) as (r & w' & Hrun).
  exists r, w'. split; [exact Hrun|].
  exact (feedback_answer u i b w w' r Hrun).
Qed.

(** X12.  Submitting the same feedback a second time changes nothing: the
    world after two identical submissions is the world after the first. *)
Theorem feedback_twice_is_feedback_once (u : AuthUser) (i : ObjectId)
  (b : FeedbackBody) (w : World) :
  stateOf (submitAiFeedback u i b (stateOf (submitAiFeedback u i b w)))
  = stateOf (submitAiFeedback u i b w).
Proof.
  destruct (fb_helpful b) as [helpful|] eqn:Hh.
  - destruct (findAiSessionOf (doubts w) i (user_id u)) as [s|] eqn:Hs.
    + destruct (feedback_on_found_session u i b w s helpful Hh Hs)
        as (s' & w1 & H & Hf & H1 & H2 & _).
      rewrite H. simpl.
      unfold submitAiFeedback. rewrite Hh.
      unfold tryCatch, bind at 1, getWorld. rewrite Hf.
      rewrite H1, H2.
      assert (E1 : optionBool_eqb (Some helpful) (Some helpful) = true)
        by (apply optionBool_eqb_eq; reflexivity).
      assert (E2 : optionString_eqb (feedbackTextOf (fb_feedbackText b))
                     (feedbackTextOf (fb_feedbackText b)) = true)
        by (apply optionString_eqb_eq; reflexivity).
      rewrite E1, E2. reflexivity.
    + assert (E : submitAiFeedback u i b w
                  = Return (respond 404
                      "AI doubt session not found or you are not the student.")
                      w).
      { unfold submitAiFeedback. rewrite Hh.
        unfold tryCatch, bind, getWorld, ret. rewrite Hs. reflexivity. }
      rewrite E. simpl. rewrite E. reflexivity.
  - unfold submitAiFeedback. rewrite Hh. reflexivity.
Qed.

(** ** Invariants of the stored sessions *)

Lemma sameCore_refl (r : DoubtSession) : sameCore r r.
Proof. unfold sameCore. tauto. Qed.

Lemma sameCore_trans (a b c : DoubtSession) :
  sameCore a b -> sameCore b c -> sameCore a c.
Proof.
  unfold sameCore.
  intros (A1 & A2 & A3 & A4 & A5 & A6 & A7 & A8 & A9 & A10)
         (B1 & B2 & B3 & B4 & B5 & B6 & B7 & B8 & B9 & B10).
  repeat split; try congruence. auto.
Qed.

Lemma sameSession_sameCore (r r' : DoubtSession) :
  sameSession r r' -> sameCore r r'.
Proof. unfold sameSession, sameCore. tauto. Qed.

(** The world after a feedback request: as before, or with the feedback
    fields and [updatedAt] of the session rewritten. *)
Lemma feedback_state (u : AuthUser) (i : ObjectId) (b : FeedbackBody)
  (w : World) :
  stateOf (submitAiFeedback u i b w) = w
  \/ exists s helpful,
       stateOf (submitAiFeedback u i b w)
       = withDoubts w
           (updateById (ds_id s)
              (fun r =>
                 withUpdatedAt
                   (withAiFeedback r (Some helpful)
                      (feedbackTextOf (fb_feedbackText b))) (clock w))
              (doubts w)).
Proof.
  remember (stateOf (submitAiFeedback u i b w)) as w' eqn:E.
  unfold submitAiFeedback in E.
  destruct (fb_helpful b) as [helpful|]; [|left; exact E].
  unfold tryCatch, bind at 1, getWorld in E. cbv beta iota in E.
  destruct (findAiSessionOf (doubts w) i (user_id u)) as [s|];
    [|left; exact E].
  destruct (negb (optionBool_eqb (ds_aiHelpful s) (Some helpful))
            || negb (optionString_eqb (ds_aiFeedbackText s)
                       (feedbackTextOf (fb_feedbackText b))));
    [|left; exact E].
  right. exists s, helpful. exact E.
Qed.

(** A stored session survives every request, as the same session. *)
Lemma serve_stored (c : Call) (w : World) (j : ObjectId)
  (s : DoubtSession) :
  stored w j = Some s ->
  exists s', stored (serve c w) j = Some s' /\ sameCore s s'.
Proof.
  intro Hs.
  assert (Hsame : exists s', stored w j = Some s' /\ sameCore s s')
    by (exists s; split; [exact Hs | apply sameCore_refl]).
  destruct c as [o | u | u | u | u i b]; simpl.
  - destruct (Evolves_stored _ _ _ j s (run_evolves o w) Hs)
      as (s' & Hs' & S & _).
    exists s'. split; [exact Hs' | exact (sameSession_sameCore _ _ S)].
  - unfold withRole. destruct (isStudent u); exact Hsame.
  - unfold withRole. destruct (isStudent u); exact Hsame.
  - unfold withRole. destruct (isAdmin u); exact Hsame.
  - unfold withRole. destruct (isStudent u); [exact Hsame|].
    destruct (feedback_state u i b w) as [-> | (s0 & helpful & ->)];
      [exact Hsame|].
    unfold stored. simpl.
    destruct (Nat.eq_dec (ds_id s0) j) as [-> | Hne].
    + eexists. split.
      * apply findById_updateById; [intro; reflexivity | exact Hs].
      * unfold sameCore. simpl. tauto.
    + rewrite findById_updateById_other;
        [exact Hsame | intro; reflexivity | exact Hne].
Qed.

Lemma serveAll_stored (calls : list Call) (w : World) (j : ObjectId)
  (s : DoubtSession) :
  stored w j = Some s ->
  exists s', stored (serveAll calls w) j = Some s' /\ sameCore s s'.
Proof.
  revert w s. unfold serveAll.
  induction calls as [|c calls IH]; intros w s Hs; simpl.
  - exists s. split; [exact Hs | apply sameCore_refl].
  - destruct (serve_stored c w j s Hs) as (s1 & Hs1 & S1).
    destruct (IH _ _ Hs1) as (s2 & Hs2 & S2).
    exists s2. split; [exact Hs2 | exact (sameCore_trans _ _ _ S1 S2)].
Qed.

(** X1.  A stored session is never deleted and never changes hands:
    after any requests and any steps of the event loop it is still
    stored under its id, with the same student, trainer, grade, school,
    topic, initial text, type and creation time. *)
Theorem session_identity_is_kept (calls : list Call) (w : World)
  (i : ObjectId) (s : DoubtSession) :
  stored w i = Some s ->
  exists s',
    stored (serveAll calls w) i = Some s'
    /\ ds_student s' = ds_student s
    /\ ds_trainer s' = ds_trainer s
    /\ ds_grade s' = ds_grade s
    /\ ds_school s' = ds_school s
    /\ ds_session s' = ds_session s
    /\ ds_initialDoubtText s' = ds_initialDoubtText s
    /\ ds_doubtType s' = ds_doubtType s
    /\ ds_createdAt s' = ds_createdAt s.
Proof.
  intro Hs. destruct (serveAll_stored calls w i s Hs) as (s' & H & S).
  exists s'. unfold sameCore in S. tauto.
Qed.

Lemma session_identity_is_kept_witness :
  exists s',
    stored
      (serveAll [chat (doClose Sample.asAsha 100%nat);
                 doFeedback Sample.asAsha 100%nat Sample.thanks;
                 chat (doTick 5000);
                 chat (doFire 102%nat noFault)]
         Sample.askedAi) 100%nat = Some s'
    /\ ds_student s' = 1%nat
    /\ ds_trainer s' = None
    /\ ds_grade s' = 7
    /\ ds_school s' = 10%nat
    /\ ds_session s' = None
    /\ ds_initialDoubtText s' = "What is photosynthesis?"
    /\ ds_doubtType s' = aiDoubt
    /\ ds_createdAt s' = 1000.
Proof.
  refine (session_identity_is_kept _ Sample.askedAi 100%nat
            {| ds_id := 100%nat; ds_student := 1%nat; ds_trainer := None;
               ds_grade := 7; ds_school := 10%nat; ds_session := None;
               ds_initialDoubtText := "What is photosynthesis?";
               ds_doubtType := aiDoubt; ds_status := in_progress;
               ds_lastMessageAt := 1000; ds_aiHelpful := None;
               ds_aiFeedbackText := None; ds_createdAt := 1000;
               ds_updatedAt := 1000 |} _).
  reflexivity.
Defined.

(** X2.  Once a stored session has left [pending], no sequence of
    requests and steps of the event loop brings it back to [pending]. *)
Theorem status_never_returns_to_pending (calls : list Call) (w : World)
  (i : ObjectId) (s : DoubtSession) :
  stored w i = Some s ->
  ds_status s <> pending ->
  exists s',
    stored (serveAll calls w) i = Some s' /\ ds_status s' <> pending.
Proof.
  intros Hs Hst.
  destruct (serveAll_stored calls w i s Hs) as (s' & H & S).
  exists s'. unfold sameCore in S. tauto.
Qed.

Lemma status_never_returns_to_pending_witness :
  exists s',
    stored
      (serveAll [chat (doSend Sample.asAsha 100%nat
                         (Sample.textOnly "and at night?"));
                 doFeedback Sample.asAsha 100%nat Sample.thanks]
         Sample.answered) 100%nat = Some s'
    /\ ds_status s' <> pending.
Proof.
  refine (status_never_returns_to_pending _ Sample.answered 100%nat
            Sample.resolvedSession _ _).
  - reflexivity.
  - discriminate.
Defined.

(** What a request appends to the message collection. *)
Lemma serve_messages (c : Call) (w : World) :
  exists l, messages (serve c w) = (messages w ++ l)%list.
Proof.
  assert (Hsame : exists l, messages w = (messages w ++ l)%list)
    by (exists []; symmetry; apply app_nil_r).
  destruct c as [o | u | u | u | u i b]; simpl.
  - destruct (run_messages o w) as (l & Hl & _). eauto.
  - unfold withRole. destruct (isStudent u); exact Hsame.
  - unfold withRole. destruct (isStudent u); exact Hsame.
  - unfold withRole. destruct (isAdmin u); exact Hsame.
  - unfold withRole. destruct (isStudent u); [exact Hsame|].
    destruct (feedback_state u i b w) as [-> | (s0 & helpful & ->)];
      exact Hsame.
Qed.

(** X4.  The message collection is append-only: whatever requests are
    served and whatever timers fire, the messages stored before are
    still there, unchanged and in the same order, before the new
    ones. *)
Theorem messages_are_append_only (calls : list Call) (w : World) :
  exists l, messages (serveAll calls w) = (messages w ++ l)%list.
Proof.
  revert w. unfold serveAll.
  induction calls as [|c calls IH]; intro w; simpl.
  - exists []. symmetry. apply app_nil_r.
  - destruct (serve_messages c w) as (l1 & H1).
    destruct (IH (serve c w)) as (l2 & H2).
    exists (l1 ++ l2)%list. rewrite H2, H1, app_assoc. reflexivity.
Qed.

(** ** Closing: effect and atomicity *)

(** The answer and the world of a close request that passes the guard on
    a [pending] or [in_progress] session. *)
Lemma close_on_active_session (u : AuthUser) (i : ObjectId) (w : World)
  (s : DoubtSession) :
  stored w i = Some s ->
  user_role u <> admin ->
  isStudentParticipant s (user_id u) || isTrainerParticipant s (user_id u)
  = true ->
  ds_status s = pending \/ ds_status s = in_progress ->
  guarded closeDoubtSession (request u i) w
  = Return
      {| statusCode := 200;
         body := closedJson "Doubt session closed successfully."
                   (withUpdatedAt (withStatus s closed) (clock w)) |}
      (withEvents
         (withDoubts w
            (updateById i
               (writeBack
                  {| d_val := withStatus s closed; d_modStatus := true;
                     d_modLastMessageAt := false |} (clock w))
               (doubts w)))
         (events w
          ++ [doubtSessionClosed i i (user_name u) "closed"])).
Proof.
  intros Hs Hr Hp Hst. pose proof (stored_id _ _ _ Hs) as Hid.
  unfold guarded, bind at 1. rewrite (guard_participant u i w s Hr Hs Hp).
  apply Role_eqb_neq in Hr.
  unfold closeDoubtSession, tryCatch, bind. simpl. rewrite Hr. simpl.
  assert (E : Status_eqb (ds_status s) closed
              || Status_eqb (ds_status s) resolved
              || Status_eqb (ds_status s) cancelled = false)
    by (destruct Hst as [-> | ->]; reflexivity).
  rewrite E.
  assert (N : negb (isStudentParticipant s (user_id u))
              && negb (isTrainerParticipant s (user_id u)) = false).
  { apply orb_true_iff in Hp. destruct Hp as [-> | ->]; simpl;
      [reflexivity | apply andb_false_r]. }
  rewrite N.
  assert (Hd : setStatus (loaded s) closed
               = {| d_val := withStatus s closed; d_modStatus := true;
                    d_modLastMessageAt := false |})
    by (unfold setStatus; simpl; destruct Hst as [-> | ->]; reflexivity).
  rewrite Hd.
  erewrite save_modified; [|reflexivity|simpl; rewrite Hid; exact Hs].
  simpl. rewrite Hid. reflexivity.
Qed.

(** A close request answered with another status than 200 changed
    nothing. *)
Lemma refused_close_same_world (u : AuthUser) (i : ObjectId)
  (w w' : World) (r : Response) :
  guarded closeDoubtSession (request u i) w = Return r w' ->
  statusCode r <> 200%nat ->
  w' = w.
Proof.
  intros Hrun Hcode.
  destruct (Role_eqb (user_role u) admin) eqn:Hadm.
  { apply Role_eqb_eq in Hadm. unfold guarded, bind at 1 in Hrun.
    rewrite guard_admin in Hrun by exact Hadm.
    injection Hrun as _ <-. reflexivity. }
  apply Role_eqb_neq in Hadm.
  destruct (stored w i) as [s|] eqn:Hs.
  2:{ unfold guarded, bind at 1 in Hrun.
      rewrite (guard_missing u i w Hadm Hs) in Hrun.
      injection Hrun as _ <-. reflexivity. }
  destruct (isStudentParticipant s (user_id u)
            || isTrainerParticipant s (user_id u)) eqn:Hp.
  2:{ unfold guarded, bind at 1 in Hrun.
      rewrite (guard_outsider u i w s Hadm Hs Hp) in Hrun.
      injection Hrun as _ <-. reflexivity. }
  destruct (terminalOrResolved (ds_status s)) eqn:Hst.
  - unfold guarded, bind at 1 in Hrun.
    rewrite (guard_participant u i w s Hadm Hs Hp) in Hrun.
    unfold closeDoubtSession, tryCatch, bind in Hrun. simpl in Hrun.
    assert (E : Status_eqb (ds_status s) closed
                || Status_eqb (ds_status s) resolved
                || Status_eqb (ds_status s) cancelled = true)
      by (apply terminalOrResolved_true in Hst;
          destruct Hst as [-> | [-> | ->]]; reflexivity).
    rewrite E in Hrun. injection Hrun as _ <-. reflexivity.
  - apply terminalOrResolved_false in Hst.
    rewrite (close_on_active_session u i w s Hs Hadm Hp Hst) in Hrun.
    injection Hrun as <- _. simpl in Hcode. congruence.
Qed.

(** X13.  Every close request is answered, and one that is not
    answered 200 (refused by the guard, refused for the status, or
    failed) leaves the world exactly as it was: no status is written and
    no event goes out. *)
Theorem refused_close_changes_nothing (u : AuthUser) (i : ObjectId)
  (w : World) :
  exists r w',
    guarded closeDoubtSession (request u i) w = Return r w'
    /\ (statusCode r <> 200%nat -> w' = w).
Proof.
  destruct (guarded_answers _ close_answers (request u i) w)
    as (r & w' & Hrun).
  exists r, w'. split; [exact Hrun|].
  exact (refused_close_same_world u i w w' r Hrun).
Qed.

(** X14.  A close by a participant on a [pending] or [in_progress]
    session emits exactly one [doubtSessionClosed] event, to the room of
    that session, naming the closer and the status "closed".  It stores
    no message and sets no timer, and the stored [lastMessageAt] of the
    session is the one before the close. *)
Theorem close_emits_one_event (u : AuthUser) (i : ObjectId) (w : World)
  (s : DoubtSession) :
  stored w i = Some s ->
  user_role u <> admin ->
  isStudentParticipant s (user_id u) || isTrainerParticipant s (user_id u)
  = true ->
  ds_status s = pending \/ ds_status s = in_progress ->
  events (run (doClose u i) w)
  = events w ++ [doubtSessionClosed i i (user_name u) "closed"]
  /\ messages (run (doClose u i) w) = messages w
  /\ timers (run (doClose u i) w) = timers w
  /\ exists s', stored (run (doClose u i) w) i = Some s'
                /\ ds_status s' = closed
                /\ ds_lastMessageAt s' = ds_lastMessageAt s.
Proof.
  intros Hs Hr Hp Hst. simpl.
  rewrite (close_on_active_session u i w s Hs Hr Hp Hst). simpl.
  repeat split. eexists. split.
  - unfold stored. simpl.
    apply findById_updateById; [intro; apply writeBack_id | exact Hs].
  - rewrite writeBack_status, writeBack_lastMessageAt. auto.
Qed.

Lemma close_emits_one_event_witness :
  events (run (doClose Sample.asRavi 100%nat) Sample.askedTrainer)
  = events Sample.askedTrainer
    ++ [doubtSessionClosed 100%nat 100%nat "Ravi" "closed"]
  /\ messages (run (doClose Sample.asRavi 100%nat) Sample.askedTrainer)
     = messages Sample.askedTrainer
  /\ timers (run (doClose Sample.asRavi 100%nat) Sample.askedTrainer)
     = timers Sample.askedTrainer
  /\ exists s',
       stored (run (doClose Sample.asRavi 100%nat) Sample.askedTrainer)
         100%nat = Some s'
       /\ ds_status s' = closed
       /\ ds_lastMessageAt s' = 1000.
Proof.
  refine (close_emits_one_event Sample.asRavi 100%nat Sample.askedTrainer
            Sample.pendingSession _ _ _ _);
    try reflexivity; try discriminate.
  left. reflexivity.
Defined.


(** ** Sending: atomicity and events *)

(** A send request answered with another status than 201 changed
    nothing. *)
Lemma refused_send_same_world (u : AuthUser) (i : ObjectId)
  (b : MessageBody) (w w' : World) (r : Response) :
  guarded (sendDoubtMessage b) (request u i) w = Return r w' ->
  statusCode r <> 201%nat ->
  w' = w.
Proof.
  intros Hrun Hcode.
  destruct (Role_eqb (user_role u) admin) eqn:Hadm.
  { apply Role_eqb_eq in Hadm. unfold guarded, bind at 1 in Hrun.
    rewrite guard_admin in Hrun by exact Hadm.
    unfold sendDoubtMessage in Hrun. simpl in Hrun.
    destruct (negb (truthy (mb_messageText b))
              && negb (truthy (mb_attachmentUrl b)));
      injection Hrun as _ <-; reflexivity. }
  apply Role_eqb_neq in Hadm.
  destruct (stored w i) as [s|] eqn:Hs.
  2:{ unfold guarded, bind at 1 in Hrun.
      rewrite (guard_missing u i w Hadm Hs) in Hrun.
      injection Hrun as _ <-. reflexivity. }
  destruct (isStudentParticipant s (user_id u)
            || isTrainerParticipant s (user_id u)) eqn:Hp.
  2:{ unfold guarded, bind at 1 in Hrun.
      rewrite (guard_outsider u i w s Hadm Hs Hp) in Hrun.
      injection Hrun as _ <-. reflexivity. }
  destruct (truthy (mb_messageText b) || truthy (mb_attachmentUrl b))
    eqn:Hb.
  2:{ unfold guarded, bind at 1 in Hrun.
      rewrite (guard_participant u i w s Hadm Hs Hp) in Hrun.
      unfold sendDoubtMessage in Hrun. simpl in Hrun.
      apply orb_false_iff in Hb. destruct Hb as [Hb1 Hb2].
      rewrite Hb1, Hb2 in Hrun. simpl in Hrun.
      injection Hrun as _ <-. reflexivity. }
  destruct (terminalOrResolved (ds_status s)) eqn:Hst.
  - apply terminalOrResolved_true in Hst.
    destruct (send_on_finished_session u i b w s Hs Hst) as [Hyes Hno].
    rewrite Hp, Hb, !andb_true_r in Hyes, Hno.
    destruct (DoubtType_eqb (ds_doubtType s) aiDoubt
              && Role_eqb (user_role u) student).
    + destruct (Hyes eq_refl) as (r0 & w0 & m & s' & H1 & H2 & _).
      rewrite H1 in Hrun. injection Hrun as <- _. contradiction.
    + destruct (Hno eq_refl) as (r0 & H1 & _).
      rewrite H1 in Hrun. injection Hrun as _ <-. reflexivity.
  - apply terminalOrResolved_false in Hst.
    unfold guarded, bind at 1 in Hrun.
    rewrite (guard_participant u i w s Hadm Hs Hp) in Hrun.
    pose proof (send_on_active_session u i b w s Hs Hst Hb) as Hact.
    destruct (senderRoleOf (user_role u)) as [role|].
    + destruct Hact as (w0 & s' & H1 & _).
      rewrite H1 in Hrun. injection Hrun as <- _.
      simpl in Hcode. congruence.
    + rewrite Hact in Hrun. injection Hrun as _ <-. reflexivity.
Qed.

(** X15.  Every send request is answered, and one that is not
    answered 201 leaves the world exactly as it was: no message is
    stored, no status or timestamp is written, no event goes out and no
    timer is set. *)
Theorem refused_send_changes_nothing (u : AuthUser) (i : ObjectId)
  (b : MessageBody) (w : World) :
  exists r w',
    guarded (sendDoubtMessage b) (request u i) w = Return r w'
    /\ (statusCode r <> 201%nat -> w' = w).
Proof.
  destruct (guarded_answers _ (send_answers b) (request u i) w)
    as (r & w' & Hrun).
  exists r, w'. split; [exact Hrun|].
  exact (refused_send_same_world u i b w w' r Hrun).
Qed.

(** X16.  A message accepted on a [pending] or [in_progress] session is
    announced exactly once in the room of the session; when the sender's
    role is trainer, exactly one [newNotification] follows, addressed to
    the personal room of the session's student and linking the session,
    with the first 50 code units of the initial doubt followed by dots;
    for a student sender no notification goes out. *)
Theorem reply_notifies_the_student (u : AuthUser) (i : ObjectId)
  (b : MessageBody) (w : World) (s : DoubtSession) (role : SenderRole) :
  stored w i = Some s ->
  isStudentParticipant s (user_id u) || isTrainerParticipant s (user_id u)
  = true ->
  ds_status s = pending \/ ds_status s = in_progress ->
  truthy (mb_messageText b) || truthy (mb_attachmentUrl b) = true ->
  senderRoleOf (user_role u) = Some role ->
  events (run (doSend u i b) w)
  = events w
    ++ newMessage i (sentMessage u i b w role)
       :: (if Role_eqb (user_role u) trainer
           then [newNotification (ds_student s) (S (nextId w))
                   ("You have a new reply from " ++ user_name u)%string
                   (substring0 50 (ds_initialDoubtText s)
                    ++ "...")%string
                   (clock w) i]
           else []).
Proof.
  intros Hs Hp Hst Hb Hrole. pose proof (stored_id _ _ _ Hs) as Hid.
  assert (Hadm : user_role u <> admin)
    by (intro E; rewrite E in Hrole; discriminate).
  simpl. unfold guarded, bind at 1.
  rewrite (guard_participant u i w s Hadm Hs Hp).
  destruct (body_check b Hb) as [Hb' Hv].
  apply terminalOrResolved_false in Hst.
  unfold sendDoubtMessage. simpl. rewrite Hb', Hst.
  unfold tryCatch, bind at 1. unfold ret at 1. unfold bind at 1.
  unfold saveChatMessage. simpl. rewrite Hrole.
  rewrite Hv. unfold bind, freshId, newDate. simpl.
  unfold sentMessage. rewrite Hid.
  apply terminalOrResolved_false in Hst.
  set (d3 := if Role_eqb (user_role u) trainer
                && Status_eqb (ds_status (d_val (setLastMessageAt (loaded s) (clock w)))) pending
             then setStatus (setLastMessageAt (loaded s) (clock w)) in_progress
             else setLastMessageAt (loaded s) (clock w)).
  assert (Hd3 : ds_id (d_val d3) = i
                /\ ds_student (d_val d3) = ds_student s
                /\ ds_initialDoubtText (d_val d3) = ds_initialDoubtText s).
  { subst d3. unfold setLastMessageAt, setStatus. simpl.
    destruct (ds_lastMessageAt s =? clock w); simpl;
      destruct (Role_eqb (user_role u) trainer); simpl;
      destruct (ds_status s); simpl; auto. }
  destruct Hd3 as (Hd3id & Hd3st & Hd3t).
  destruct (d_modStatus d3 || d_modLastMessageAt d3) eqn:Hmod.
  - erewrite save_modified; [|exact Hmod|rewrite Hd3id; exact Hs].
    unfold ret, emit, setTimeout. rewrite Hd3id.
    destruct (Role_eqb (user_role u) trainer) eqn:Htr;
      destruct (DoubtType_eqb (ds_doubtType s) aiDoubt
                && Role_eqb (user_role u) student) eqn:Hai; simpl;
      rewrite ?Hd3id, ?Hd3st, ?Hd3t, <- ?app_assoc; reflexivity.
  - rewrite save_clean by exact Hmod.
    unfold ret, emit, setTimeout.
    destruct (Role_eqb (user_role u) trainer) eqn:Htr;
      destruct (DoubtType_eqb (ds_doubtType s) aiDoubt
                && Role_eqb (user_role u) student) eqn:Hai; simpl;
      rewrite ?Hd3id, ?Hd3st, ?Hd3t, <- ?app_assoc; reflexivity.
Qed.

Lemma reply_notifies_the_student_witness :
  events (run (doSend Sample.asRavi 100%nat
                 (Sample.textOnly "Because of scattering."))
            Sample.askedTrainer)
  = events Sample.askedTrainer
    ++ [newMessage 100%nat
          {| cm_id := 102%nat; cm_doubtSession := 100%nat;
             cm_sender := Some 2%nat; cm_senderRole := fromTrainer;
             cm_messageText := Some "Because of scattering.";
             cm_attachmentUrl := None; cm_createdAt := 1000 |};
        newNotification 1%nat 103%nat "You have a new reply from Ravi"
          "Why is the sky blue?..." 1000 100%nat].
Proof.
  refine (reply_notifies_the_student Sample.asRavi 100%nat
            (Sample.textOnly "Because of scattering.") Sample.askedTrainer
            Sample.pendingSession fromTrainer _ _ _ _ _);
    try reflexivity.
  left. reflexivity.
Defined.


(** ** Initiating: what is stored, announced and rejected *)

(** The run of [initiateDoubtSession] on a request that passes every
    check and every validator. *)
Lemma initiate_success (u : AuthUser) (b : InitiateBody) (w : World)
  (st : User) (sc : School) (text : string) (g : Z) :
  passesChecks u b w st sc text ->
  u_grade st = Some g ->
  trim text <> "" ->
  exists r w' ds cm,
    initiateDoubtSession u b w = Return r w'
    /\ statusCode r = 201%nat
    /\ doubts w' = doubts w ++ [ds]
    /\ messages w' = messages w ++ [cm]
    /\ ds = {| ds_id := nextId w; ds_student := user_id u;
               ds_trainer := (if String.eqb (interpolate (b_doubtType b))
                                   "trainer"
                              then b_trainerId b else None);
               ds_grade := g; ds_school := sc_id sc;
               ds_session := (if String.eqb (interpolate (b_doubtType b))
                                   "trainer"
                              then b_sessionId b else None);
               ds_initialDoubtText := trim text;
               ds_doubtType := (if String.eqb (interpolate (b_doubtType b))
                                     "trainer"
                                then trainerDoubt else aiDoubt);
               ds_status := (if String.eqb (interpolate (b_doubtType b))
                                  "trainer"
                             then pending else in_progress);
               ds_lastMessageAt := clock w; ds_aiHelpful := None;
               ds_aiFeedbackText := None; ds_createdAt := clock w;
               ds_updatedAt := clock w |}
    /\ cm = {| cm_id := S (nextId w); cm_doubtSession := nextId w;
               cm_sender := Some (user_id u); cm_senderRole := fromStudent;
               cm_messageText := Some text;
               cm_attachmentUrl := b_attachmentUrl b;
               cm_createdAt := clock w |}
    /\ events w'
       = events w
         ++ (if String.eqb (interpolate (b_doubtType b)) "trainer"
             then match b_trainerId b with
                  | Some trainerId =>
                      [newDoubtSession trainerId (nextId w) (u_name st)
                         (excerpt 100 text) (u_school st) (u_grade st)]
                  | None => []
                  end
             else []).
Proof.
  intros (Htext & Hst & (schoolName & Hname & Hsc) & Hkind) Hg Htrim.
  destruct (findById_id _ _ _ _ Hst) as [Hsid _].
  pose proof (initial_message_valid _ (b_attachmentUrl b) _ Htext) as Hv.
  apply String.eqb_neq in Htrim.
  remember (initiateDoubtSession u b w) as o eqn:Ho.
  unfold initiateDoubtSession in Ho.
  destruct Hkind as [Hai | (Htr & trainerId & sessionId & tr & topic & Htid
                            & Hsess & Hfind & Hrole & Htopic)].
  - rewrite Hai, Htext in Ho. simpl in Ho.
    unfold bind at 1, getWorld at 1 in Ho.
    rewrite Hst, Hname, Hsc in Ho. unfold tryCatch in Ho. simpl in Ho.
    unfold bind at 1, newDate at 1 in Ho. unfold bind at 1 in Ho.
    unfold saveNewDoubtSession in Ho. simpl in Ho. rewrite Hg in Ho.
    unfold doubtSessionValid in Ho. simpl in Ho.
    rewrite Htrim in Ho. simpl in Ho.
    unfold bind, freshId, newDate, saveChatMessage in Ho. simpl in Ho.
    rewrite Hv in Ho.
    unfold bind, freshId, newDate, setTimeout, ret in Ho. simpl in Ho.
    subst o. rewrite Hai. simpl.
    do 4 eexists. split; [reflexivity|]. simpl. rewrite Hsid.
    repeat split. rewrite app_nil_r. reflexivity.
  - destruct (findById_id _ _ _ _ Hfind) as [Htrid _].
    rewrite Htr, Htext in Ho. simpl in Ho.
    unfold bind at 1, getWorld at 1 in Ho.
    rewrite Hst, Hname, Hsc in Ho. unfold tryCatch in Ho. simpl in Ho.
    rewrite Htid, Hsess, Hfind, Hrole, Htopic in Ho. simpl in Ho.
    unfold bind at 1, newDate at 1 in Ho. unfold bind at 1 in Ho.
    unfold saveNewDoubtSession in Ho. simpl in Ho. rewrite Hg in Ho.
    unfold doubtSessionValid in Ho. simpl in Ho.
    rewrite Htrim in Ho. simpl in Ho.
    unfold bind, freshId, newDate, saveChatMessage in Ho. simpl in Ho.
    rewrite Hv in Ho.
    unfold bind, freshId, newDate, emit, ret in Ho. simpl in Ho.
    subst o. rewrite Htr, Htid, Hsess. simpl.
    do 4 eexists. split; [reflexivity|]. simpl. rewrite Hsid, Htrid, Hg.
    repeat split.
Qed.

(** X17.  An accepted initiation stores the doubt text trimmed in the
    session, and untrimmed in the first message, which also carries the
    attachment; the session takes the student's grade and the id of the
    school record, and its [lastMessageAt] is the time of the request. *)
Theorem initiation_stores_trimmed_text (u : AuthUser) (b : InitiateBody)
  (w : World) (st : User) (sc : School) (text : string) (g : Z) :
  passesChecks u b w st sc text ->
  u_grade st = Some g ->
  trim text <> "" ->
  exists r w' ds cm,
    initiateDoubtSession u b w = Return r w'
    /\ statusCode r = 201%nat
    /\ doubts w' = doubts w ++ [ds]
    /\ messages w' = messages w ++ [cm]
    /\ ds_initialDoubtText ds = trim text
    /\ cm_messageText cm = Some text
    /\ cm_attachmentUrl cm = b_attachmentUrl b
    /\ cm_doubtSession cm = ds_id ds
    /\ ds_grade ds = g
    /\ ds_school ds = sc_id sc
    /\ ds_lastMessageAt ds = clock w
    /\ ds_aiHelpful ds = None.
Proof.
  intros Hc Hg Ht.
  destruct (initiate_success u b w st sc text g Hc Hg Ht)
    as (r & w' & ds & cm & Hrun & Hcode & Hd & Hm & -> & -> & _).
  exists r, w'. do 2 eexists. split; [exact Hrun|]. split; [exact Hcode|].
  split; [exact Hd|]. split; [exact Hm|]. simpl. repeat split.
Qed.

Lemma initiation_stores_trimmed_text_witness :
  exists r w' ds cm,
    initiateDoubtSession Sample.asAsha Sample.askPadded Sample.start
    = Return r w'
    /\ statusCode r = 201%nat
    /\ doubts w' = doubts Sample.start ++ [ds]
    /\ messages w' = messages Sample.start ++ [cm]
    /\ ds_initialDoubtText ds = "What is light?"
    /\ cm_messageText cm = Some "  What is light?  "
    /\ cm_attachmentUrl cm = Some "https://files.example/prism.png"
    /\ cm_doubtSession cm = ds_id ds
    /\ ds_grade ds = 7
    /\ ds_school ds = 10%nat
    /\ ds_lastMessageAt ds = 1000
    /\ ds_aiHelpful ds = None.
Proof.
  refine (initiation_stores_trimmed_text Sample.asAsha Sample.askPadded
            Sample.start Sample.asha Sample.greenView "  What is light?  "
            7 _ _ _).
  - split; [reflexivity|]. split; [reflexivity|]. split.
    + exists "Green View High School". split; reflexivity.
    + left. reflexivity.
  - reflexivity.
  - vm_compute. discriminate.
Defined.


(** X18.  An accepted trainer initiation by a student announces the new
    session exactly once, to the personal room of the chosen trainer,
    with the student's name, school name and grade and at most the first
    100 code units of the text; an accepted AI initiation announces
    nothing at that time. *)
Theorem initiation_notifies_the_trainer (u : AuthUser) (b : InitiateBody)
  (w : World) (st : User) (sc : School) (text : string) (g : Z) :
  user_role u = student ->
  passesChecks u b w st sc text ->
  u_grade st = Some g ->
  trim text <> "" ->
  (b_doubtType b = Some "ai" ->
   events (run (doInitiate u b) w) = events w)
  /\ (forall trainerId,
        b_doubtType b = Some "trainer" ->
        b_trainerId b = Some trainerId ->
        events (run (doInitiate u b) w)
        = events w
          ++ [newDoubtSession trainerId (nextId w) (u_name st)
                (excerpt 100 text) (u_school st) (Some g)]).
Proof.
  intros Hrole Hc Hg Ht.
  destruct (initiate_success u b w st sc text g Hc Hg Ht)
    as (r & w' & ds & cm & Hrun & _ & _ & _ & _ & _ & He).
  simpl. unfold withRole, isStudent. rewrite Hrole. simpl.
  rewrite Hrun. simpl. rewrite He. split.
  - intros ->. simpl. apply app_nil_r.
  - intros trainerId -> ->. simpl. rewrite Hg. reflexivity.
Qed.

Lemma initiation_notifies_the_trainer_witness :
  events (run (doInitiate Sample.asAsha Sample.askRavi) Sample.start)
  = events Sample.start
    ++ [newDoubtSession 2%nat 100%nat "Asha" "Why is the sky blue?"
          (Some "Green View High School") (Some 7)].
Proof.
  refine (proj2 (initiation_notifies_the_trainer Sample.asAsha
                   Sample.askRavi Sample.start Sample.asha Sample.greenView
                   "Why is the sky blue?" 7 _ _ _ _) 2%nat _ _);
    try reflexivity.
  - split; [reflexivity|]. split; [reflexivity|]. split.
    + exists "Green View High School". split; reflexivity.
    + right. split; [reflexivity|].
      exists 2%nat, 21%nat, Sample.ravi. eexists.
      repeat split; reflexivity.
  - vm_compute. discriminate.
Defined.


(** X19.  A text of white space only, or a student profile without a
    grade, passes every check of the handler and is then rejected by the
    validators of the session schema: the answer is 500 and nothing is
    stored, announced or scheduled. *)
Theorem invalid_session_is_rejected_on_save (u : AuthUser)
  (b : InitiateBody) (w : World) (st : User) (sc : School) (text : string) :
  passesChecks u b w st sc text ->
  u_grade st = None \/ trim text = "" ->
  initiateDoubtSession u b w
  = Return (respond 500 "Server error during doubt session initiation.") w.
Proof.
  intros (Htext & Hst & (schoolName & Hname & Hsc) & Hkind) Hbad.
  assert (Hsave : forall n,
             n_grade n = u_grade st -> n_initialDoubtText n = text ->
             saveNewDoubtSession n w = Throw w).
  { intros n Hn1 Hn2. unfold saveNewDoubtSession, doubtSessionValid.
    rewrite Hn1, Hn2. destruct (u_grade st) as [g|]; [|reflexivity].
    destruct Hbad as [Hbad | Hbad]; [discriminate|].
    rewrite Hbad. reflexivity. }
  remember (initiateDoubtSession u b w) as o eqn:Ho.
  unfold initiateDoubtSession in Ho.
  destruct Hkind as [Hai | (Htr & trainerId & sessionId & tr & topic & Htid
                            & Hsess & Hfind & Hrole & Htopic)].
  - rewrite Hai, Htext in Ho. simpl in Ho.
    unfold bind at 1, getWorld at 1 in Ho.
    rewrite Hst, Hname, Hsc in Ho. unfold tryCatch in Ho. simpl in Ho.
    unfold bind at 1, newDate at 1 in Ho. unfold bind at 1 in Ho.
    rewrite Hsave in Ho by reflexivity. exact Ho.
  - rewrite Htr, Htext in Ho. simpl in Ho.
    unfold bind at 1, getWorld at 1 in Ho.
    rewrite Hst, Hname, Hsc in Ho. unfold tryCatch in Ho. simpl in Ho.
    rewrite Htid, Hsess, Hfind, Hrole, Htopic in Ho. simpl in Ho.
    unfold bind at 1, newDate at 1 in Ho. unfold bind at 1 in Ho.
    rewrite Hsave in Ho by reflexivity. exact Ho.
Qed.

Lemma invalid_session_is_rejected_on_save_witness :
  initiateDoubtSession Sample.asAsha Sample.askBlank Sample.start
  = Return (respond 500 "Server error during doubt session initiation.")
      Sample.start.
Proof.
  refine (invalid_session_is_rejected_on_save Sample.asAsha Sample.askBlank
            Sample.start Sample.asha Sample.greenView "   " _ _).
  - split; [reflexivity|]. split; [reflexivity|]. split.
    + exists "Green View High School". split; reflexivity.
    + left. reflexivity.
  - right. reflexivity.
Defined.


(** ** When a message is accepted *)

(** A send that is answered 201 came from a participant with a body, on
    a session that is active or an AI session of the sending student. *)
Lemma accepted_send (u : AuthUser) (i : ObjectId) (b : MessageBody)
  (w w' : World) (r : Response) :
  guarded (sendDoubtMessage b) (request u i) w = Return r w' ->
  statusCode r = 201%nat ->
  exists s,
    stored w i = Some s
    /\ isStudentParticipant s (user_id u)
       || isTrainerParticipant s (user_id u) = true
    /\ truthy (mb_messageText b) || truthy (mb_attachmentUrl b) = true
    /\ ((user_role u = student
         /\ (ds_doubtType s = aiDoubt
             \/ ds_status s = pending \/ ds_status s = in_progress))
        \/ (user_role u = trainer
            /\ (ds_status s = pending \/ ds_status s = in_progress))).
Proof.
  intros Hrun Hcode.
  destruct (Nat.eq_dec (statusCode r) 201) as [_ | N]; [|contradiction].
  destruct (Role_eqb (user_role u) admin) eqn:Hadm.
  { apply Role_eqb_eq in Hadm. unfold guarded, bind at 1 in Hrun.
    rewrite guard_admin in Hrun by exact Hadm.
    unfold sendDoubtMessage in Hrun. simpl in Hrun.
    destruct (negb (truthy (mb_messageText b))
              && negb (truthy (mb_attachmentUrl b)));
      injection Hrun as <- _; discriminate. }
  apply Role_eqb_neq in Hadm.
  destruct (stored w i) as [s|] eqn:Hs.
  2:{ unfold guarded, bind at 1 in Hrun.
      rewrite (guard_missing u i w Hadm Hs) in Hrun.
      injection Hrun as <- _. discriminate. }
  destruct (isStudentParticipant s (user_id u)
            || isTrainerParticipant s (user_id u)) eqn:Hp.
  2:{ unfold guarded, bind at 1 in Hrun.
      rewrite (guard_outsider u i w s Hadm Hs Hp) in Hrun.
      injection Hrun as <- _. discriminate. }
  destruct (truthy (mb_messageText b) || truthy (mb_attachmentUrl b))
    eqn:Hb.
  2:{ unfold guarded, bind at 1 in Hrun.
      rewrite (guard_participant u i w s Hadm Hs Hp) in Hrun.
      unfold sendDoubtMessage in Hrun. simpl in Hrun.
      apply orb_false_iff in Hb. destruct Hb as [Hb1 Hb2].
      rewrite Hb1, Hb2 in Hrun. simpl in Hrun.
      injection Hrun as <- _. discriminate. }
  exists s. split; [reflexivity|]. split; [exact Hp|].
  split; [reflexivity|].
  destruct (terminalOrResolved (ds_status s)) eqn:Hst.
  - apply terminalOrResolved_true in Hst.
    destruct (send_on_finished_session u i b w s Hs Hst) as [_ Hno].
    rewrite Hp, Hb, !andb_true_r in Hno.
    destruct (DoubtType_eqb (ds_doubtType s) aiDoubt) eqn:Hai.
    + destruct (Role_eqb (user_role u) student) eqn:Hrole.
      * apply DoubtType_eqb_eq in Hai. apply Role_eqb_eq in Hrole. auto.
      * destruct (Hno eq_refl) as (r0 & H1 & H2).
        rewrite H1 in Hrun. injection Hrun as <- _. lia.
    + destruct (Hno eq_refl) as (r0 & H1 & H2).
      rewrite H1 in Hrun. injection Hrun as <- _. lia.
  - apply terminalOrResolved_false in Hst.
    unfold guarded, bind at 1 in Hrun.
    rewrite (guard_participant u i w s Hadm Hs Hp) in Hrun.
    pose proof (send_on_active_session u i b w s Hs Hst Hb) as Hact.
    destruct (user_role u); simpl in Hact.
    + contradiction Hadm. reflexivity.
    + auto.
    + auto.
    + rewrite Hact in Hrun. injection Hrun as <- _. discriminate.
Qed.

(** X20.  Every send request is answered, and it is answered 201 exactly
    when the session exists, the caller is its student or its trainer
    and has the role student or trainer, the body has a text or an
    attachment, and the session is [pending] or [in_progress], or is an
    ai-type session and the caller a student. *)
Theorem send_is_accepted_exactly_when (u : AuthUser) (i : ObjectId)
  (b : MessageBody) (w : World) :
  exists r w',
    guarded (sendDoubtMessage b) (request u i) w = Return r w'
    /\ (statusCode r = 201%nat <->
        exists s,
          stored w i = Some s
          /\ isStudentParticipant s (user_id u)
             || isTrainerParticipant s (user_id u) = true
          /\ truthy (mb_messageText b) || truthy (mb_attachmentUrl b) = true
          /\ ((user_role u = student
               /\ (ds_doubtType s = aiDoubt
                   \/ ds_status s = pending \/ ds_status s = in_progress))
              \/ (user_role u = trainer
                  /\ (ds_status s = pending \/ ds_status s = in_progress)))).
Proof.
  destruct (guarded_answers _ (send_answers b) (request u i) w)
    as (r & w' & Hrun).
  exists r, w'. split; [exact Hrun|]. split.
  - exact (accepted_send u i b w w' r Hrun).
  - intros (s & Hs & Hp & Hb & Hrole).
    assert (Hadm : user_role u <> admin)
      by (destruct Hrole as [[E _] | [E _]]; rewrite E; discriminate).
    destruct (terminalOrResolved (ds_status s)) eqn:Hst.
    + apply terminalOrResolved_true in Hst.
      destruct Hrole as [[Hr [Hai | Hact]] | [Hr Hact]];
        try (exfalso; destruct Hst as [E | [E | E]]; rewrite E in Hact;
             destruct Hact; discriminate).
      destruct (send_on_finished_session u i b w s Hs Hst) as [Hyes _].
      rewrite Hai, Hr, Hp, Hb in Hyes.
      destruct (Hyes eq_refl) as (r0 & w0 & m & s' & H1 & H2 & _).
      rewrite H1 in Hrun. injection Hrun as <- _. exact H2.
    + apply terminalOrResolved_false in Hst.
      unfold guarded, bind at 1 in Hrun.
      rewrite (guard_participant u i w s Hadm Hs Hp) in Hrun.
      pose proof (send_on_active_session u i b w s Hs Hst Hb) as Hact.
      destruct Hrole as [[Hr _] | [Hr _]]; rewrite Hr in Hact;
        simpl in Hact; destruct Hact as (w0 & s' & H1 & _);
        rewrite H1 in Hrun; injection Hrun as <- _; reflexivity.
Qed.

(** ** When a close is accepted *)

(** A close that is answered 200 came from a participant who is no
    admin, on a [pending] or [in_progress] session. *)
Lemma accepted_close (u : AuthUser) (i : ObjectId) (w w' : World)
  (r : Response) :
  guarded closeDoubtSession (request u i) w = Return r w' ->
  statusCode r = 200%nat ->
  exists s,
    stored w i = Some s
    /\ user_role u <> admin
    /\ isStudentParticipant s (user_id u)
       || isTrainerParticipant s (user_id u) = true
    /\ (ds_status s = pending \/ ds_status s = in_progress).
Proof.
  intros Hrun Hcode.
  destruct (Role_eqb (user_role u) admin) eqn:Hadm.
  { apply Role_eqb_eq in Hadm. unfold guarded, bind at 1 in Hrun.
    rewrite guard_admin in Hrun by exact Hadm.
    injection Hrun as <- _. discriminate. }
  apply Role_eqb_neq in Hadm.
  destruct (stored w i) as [s|] eqn:Hs.
  2:{ unfold guarded, bind at 1 in Hrun.
      rewrite (guard_missing u i w Hadm Hs) in Hrun.
      injection Hrun as <- _. discriminate. }
  destruct (isStudentParticipant s (user_id u)
            || isTrainerParticipant s (user_id u)) eqn:Hp.
  2:{ unfold guarded, bind at 1 in Hrun.
      rewrite (guard_outsider u i w s Hadm Hs Hp) in Hrun.
      injection Hrun as <- _. discriminate. }
  exists s. split; [reflexivity|]. split; [exact Hadm|].
  split; [exact Hp|].
  destruct (terminalOrResolved (ds_status s)) eqn:Hst.
  - unfold guarded, bind at 1 in Hrun.
    rewrite (guard_participant u i w s Hadm Hs Hp) in Hrun.
    unfold closeDoubtSession, tryCatch, bind in Hrun. simpl in Hrun.
    assert (E : Status_eqb (ds_status s) closed
                || Status_eqb (ds_status s) resolved
                || Status_eqb (ds_status s) cancelled = true)
      by (apply terminalOrResolved_true in Hst;
          destruct Hst as [-> | [-> | ->]]; reflexivity).
    rewrite E in Hrun. injection Hrun as <- _. discriminate.
  - apply terminalOrResolved_false, Hst.
Qed.

(** X21.  Every close request is answered, and it is answered 200
    exactly when the session exists, the caller is its student or its
    trainer and is not an admin, and the session is [pending] or
    [in_progress]. *)
Theorem close_is_accepted_exactly_when (u : AuthUser) (i : ObjectId)
  (w : World) :
  exists r w',
    guarded closeDoubtSession (request u i) w = Return r w'
    /\ (statusCode r = 200%nat <->
        exists s,
          stored w i = Some s
          /\ user_role u <> admin
          /\ isStudentParticipant s (user_id u)
             || isTrainerParticipant s (user_id u) = true
          /\ (ds_status s = pending \/ ds_status s = in_progress)).
Proof.
  destruct (guarded_answers _ close_answers (request u i) w)
    as (r & w' & Hrun).
  exists r, w'. split; [exact Hrun|]. split.
  - exact (accepted_close u i w w' r Hrun).
  - intros (s & Hs & Hadm & Hp & Hst).
    rewrite (close_on_active_session u i w s Hs Hadm Hp Hst) in Hrun.
    injection Hrun as <- _. reflexivity.
Qed.

(** ** Which timers a step sets *)

(** The timers after a send are the timers before, and at most one more
    for the session the send addresses. *)
Lemma send_timers (u : AuthUser) (i : ObjectId) (b : MessageBody)
  (w : World) (t : Timer) :
  In t (timers (run (doSend u i b) w)) ->
  In t (timers w) \/ ds_id (d_val (taskDoc (tm_task t))) = i.
Proof.
  simpl.
  destruct (guarded_answers _ (send_answers b) (request u i) w)
    as (r & w' & Hrun).
  rewrite Hrun. simpl. intro Ht.
  destruct (Nat.eq_dec (statusCode r) 201) as [Hcode | Hcode].
  2:{ rewrite (refused_send_same_world u i b w w' r Hrun Hcode) in Ht.
      auto. }
  destruct (accepted_send u i b w w' r Hrun Hcode)
    as (s & Hs & Hp & Hb & Hrole).
  pose proof (stored_id _ _ _ Hs) as Hid.
  assert (Hadm : user_role u <> admin)
    by (destruct Hrole as [[E _] | [E _]]; rewrite E; discriminate).
  destruct (terminalOrResolved (ds_status s)) eqn:Hst.
  - apply terminalOrResolved_true in Hst.
    destruct (send_on_finished_session u i b w s Hs Hst) as [Hyes Hno].
    rewrite Hp, Hb, !andb_true_r in Hyes, Hno.
    destruct (DoubtType_eqb (ds_doubtType s) aiDoubt
              && Role_eqb (user_role u) student).
    + destruct (Hyes eq_refl)
        as (r0 & w0 & m & s' & H1 & _ & _ & _ & _ & _ & _ & _ & _ & _
            & d & Htm & Hd).
      rewrite H1 in Hrun. injection Hrun as <- <-.
      rewrite Htm in Ht. apply in_app_or in Ht.
      destruct Ht as [Ht | [<- | []]]; [auto|]. right. exact Hd.
    + destruct (Hno eq_refl) as (r0 & H1 & _).
      rewrite H1 in Hrun. injection Hrun as <- <-. auto.
  - unfold guarded, bind at 1 in Hrun.
    rewrite (guard_participant u i w s Hadm Hs Hp) in Hrun.
    assert (Hrole' : exists role, senderRoleOf (user_role u) = Some role)
      by (destruct Hrole as [[E _] | [E _]]; rewrite E; simpl; eauto).
    destruct Hrole' as (role & Hrole').
    destruct (body_check b Hb) as [Hb' Hv].
    unfold sendDoubtMessage in Hrun. simpl in Hrun.
    rewrite Hb', Hst in Hrun.
    unfold tryCatch, bind at 1 in Hrun. unfold ret at 1 in Hrun.
    unfold bind at 1 in Hrun.
    unfold saveChatMessage in Hrun. simpl in Hrun. rewrite Hrole' in Hrun.
    rewrite Hv in Hrun. unfold bind, freshId, newDate in Hrun.
    simpl in Hrun.
    set (d3 := if Role_eqb (user_role u) trainer
                  && Status_eqb
                       (ds_status
                          (d_val (setLastMessageAt (loaded s) (clock w))))
                       pending
               then setStatus (setLastMessageAt (loaded s) (clock w))
                      in_progress
               else setLastMessageAt (loaded s) (clock w)) in Hrun.
    assert (Hd3id : ds_id (d_val d3) = i).
    { subst d3.
      destruct (Role_eqb (user_role u) trainer
                && Status_eqb
                     (ds_status
                        (d_val (setLastMessageAt (loaded s) (clock w))))
                     pending);
        rewrite ?setStatus_id, setLastMessageAt_id; exact Hid. }
    destruct (d_modStatus d3 || d_modLastMessageAt d3) eqn:Hmod.
    + erewrite save_modified in Hrun;
        [|exact Hmod|rewrite Hd3id; exact Hs].
      unfold ret, emit, setTimeout in Hrun.
      destruct (Role_eqb (user_role u) trainer);
        destruct (DoubtType_eqb (ds_doubtType s) aiDoubt
                  && Role_eqb (user_role u) student);
        simpl in Hrun; injection Hrun as _ <-; simpl in Ht;
        try (left; exact Ht);
        (apply in_app_or in Ht; destruct Ht as [Ht | [<- | []]];
         [left; exact Ht | right; exact Hd3id]).
    + rewrite save_clean in Hrun by exact Hmod.
      unfold ret, emit, setTimeout in Hrun.
      destruct (Role_eqb (user_role u) trainer);
        destruct (DoubtType_eqb (ds_doubtType s) aiDoubt
                  && Role_eqb (user_role u) student);
        simpl in Hrun; injection Hrun as _ <-; simpl in Ht;
        try (left; exact Ht);
        (apply in_app_or in Ht; destruct Ht as [Ht | [<- | []]];
         [left; exact Ht | right; exact Hd3id]).
Qed.

(** A close sets no timer. *)
Lemma close_timers (u : AuthUser) (i : ObjectId) (w : World) :
  timers (run (doClose u i) w) = timers w.
Proof.
  simpl.
  destruct (guarded_answers _ close_answers (request u i) w)
    as (r & w' & Hrun).
  destruct (Nat.eq_dec (statusCode r) 200) as [Hcode | Hcode].
  - destruct (accepted_close u i w w' r Hrun Hcode)
      as (s & Hs & Hadm & Hp & Hst).
    rewrite (close_on_active_session u i w s Hs Hadm Hp Hst). reflexivity.
  - rewrite Hrun. simpl.
    rewrite (refused_close_same_world u i w w' r Hrun Hcode). reflexivity.
Qed.

(** The callbacks set no timer. *)
Lemma quiet_bind {A B} (m : M Frame A) (k : A -> M Frame B) :
  (forall d w, timers (snd (stateOf (m (d, w)))) = timers w) ->
  (forall a d w, timers (snd (stateOf (k a (d, w)))) = timers w) ->
  forall d w, timers (snd (stateOf (bind m k (d, w)))) = timers w.
Proof.
  intros Hm Hk d w. unfold bind. specialize (Hm d w).
  destruct (m (d, w)) as [a [d1 w1] | [d1 w1]]; simpl in *.
  - rewrite Hk. exact Hm.
  - exact Hm.
Qed.

Lemma quiet_tryCatch {A} (body handler : M Frame A) :
  (forall d w, timers (snd (stateOf (body (d, w)))) = timers w) ->
  (forall d w, timers (snd (stateOf (handler (d, w)))) = timers w) ->
  forall d w, timers (snd (stateOf (tryCatch body handler (d, w))))
              = timers w.
Proof.
  intros Hb Hh d w. unfold tryCatch. specialize (Hb d w).
  destruct (body (d, w)) as [a [d1 w1] | [d1 w1]]; simpl in *.
  - exact Hb.
  - rewrite Hh. exact Hb.
Qed.

Lemma quiet_inWorld {A} (m : M World A) :
  (forall w, timers (stateOf (m w)) = timers w) ->
  forall d w, timers (snd (stateOf (inWorld m (d, w)))) = timers w.
Proof.
  intros Hm d w. unfold inWorld. specialize (Hm w).
  destruct (m w); exact Hm.
Qed.

Lemma quiet_saveChatMessage (i : ChatMessageInput) (w : World) :
  timers (stateOf (saveChatMessage i w)) = timers w.
Proof.
  destruct (saveChatMessage_outcome i w) as [-> | (role & _ & _ & ->)];
    reflexivity.
Qed.

Lemma quiet_saveTheDoc (d : Doc) (w : World) :
  timers (snd (stateOf (saveTheDoc (d, w)))) = timers w.
Proof.
  unfold saveTheDoc.
  destruct (save_outcome d w) as [-> | [-> | (_ & _ & ->)]]; reflexivity.
Qed.

Lemma quiet_faultAt (f here : Fault) (d : Doc) (w : World) :
  timers (snd (stateOf (faultAt f here (d, w)))) = timers w.
Proof. unfold faultAt. destruct (Fault_eqb f here); reflexivity. Qed.

Ltac quiet_steps :=
  repeat first
    [ apply quiet_tryCatch
    | apply quiet_bind; [|intros ?]
    | apply quiet_faultAt
    | apply quiet_saveTheDoc
    | apply quiet_inWorld; intro;
      first [ apply quiet_saveChatMessage | reflexivity ]
    | intros ? ?; reflexivity ].

Lemma runTask_timers (t : Task) (f : Fault) (w : World) :
  timers (runTask t f w) = timers w.
Proof.
  destruct t as [d name text | d text]; simpl; revert d w.
  - unfold aiAnswerCallback. quiet_steps.
  - unfold aiFollowUpCallback. quiet_steps.
Qed.

(** Firing a timer adds none. *)
Lemma fire_timers (h : nat) (f : Fault) (w : World) (t : Timer) :
  In t (timers (fire h f w)) -> In t (timers w).
Proof.
  unfold fire. destruct (findTimer (timers w) h) as [t0|]; [|auto].
  destruct (tm_due t0 <=? clock w); [|auto].
  rewrite runTask_timers. simpl. intro H. apply filter_In in H. tauto.
Qed.

(** An initiation sets at most one timer, for the session it creates. *)
Lemma initiate_timers (u : AuthUser) (b : InitiateBody) (w : World)
  (t : Timer) :
  In t (timers (run (doInitiate u b) w)) ->
  In t (timers w) \/ ds_id (d_val (taskDoc (tm_task t))) = nextId w.
Proof.
  simpl. unfold withRole. destruct (isStudent u); [auto|].
  destruct (initiate_cases u b w)
    as [(r & -> & _)
       | (r & w' & ds & cm & text & -> & _ & _ & _ & _ & Hid & _ & _ & _ & _
          & _ & _ & _ & Hkind & _)]; simpl; [auto|].
  destruct Hkind as [(_ & _ & _ & _ & _ & _ & _ & ->)
                    | (_ & _ & _ & _ & name & ->)]; [auto|].
  intro Ht. apply in_app_or in Ht.
  destruct Ht as [Ht | [<- | []]]; [auto|]. right. exact Hid.
Qed.

Lemma run_nextId (o : Op) (w : World) : (nextId w <= nextId (run o w))%nat.
Proof.
  destruct (run_cases o w) as [E | [(ms & _ & ->) | (h & f & _ & E)]].
  - exact (ext_nextId _ _ E).
  - simpl. lia.
  - exact (ext_nextId _ _ E).
Qed.

(** ** Finished trainer sessions *)

(** No request is accepted on a finished trainer-type session. *)
Lemma settled_refuses (w : World) (i : ObjectId) (s : DoubtSession) :
  settled w i s ->
  (forall u b, run (doSend u i b) w = w)
  /\ (forall u, run (doClose u i) w = w).
Proof.
  intros (Hs & Hty & Hst & _). apply terminalOrResolved_true in Hst.
  assert (Hna : ~ (ds_status s = pending \/ ds_status s = in_progress))
    by (intros [E | E]; rewrite E in Hst;
        destruct Hst as [H | [H | H]]; discriminate H).
  split.
  - intros u b. simpl.
    destruct (guarded_answers _ (send_answers b) (request u i) w)
      as (r & w' & Hrun).
    rewrite Hrun. simpl.
    apply (refused_send_same_world u i b w w' r Hrun).
    intro Hcode.
    destruct (accepted_send u i b w w' r Hrun Hcode)
      as (s0 & Hs0 & _ & _ & Hrole).
    rewrite Hs in Hs0. injection Hs0 as <-.
    destruct Hrole as [[_ [E | E]] | [_ E]];
      [rewrite E in Hty; discriminate | exact (Hna E) | exact (Hna E)].
  - intros u. simpl.
    destruct (guarded_answers _ close_answers (request u i) w)
      as (r & w' & Hrun).
    rewrite Hrun. simpl.
    apply (refused_close_same_world u i w w' r Hrun).
    intro Hcode.
    destruct (accepted_close u i w w' r Hrun Hcode)
      as (s0 & Hs0 & _ & _ & E).
    rewrite Hs in Hs0. injection Hs0 as <-. exact (Hna E).
Qed.

Lemma settled_run (o : Op) (w : World) (i : ObjectId) (s : DoubtSession) :
  settled w i s -> settled (run o w) i s.
Proof.
  intro H. pose proof H as (Hs & Hty & Hst & Hlt & Htm).
  destruct (settled_refuses w i s H) as [Hsend Hclose].
  assert (Hkeep : ~ touchedBy o w i -> stored (run o w) i = Some s).
  { intro Hj.
    destruct (Evolves_stored _ _ _ i s (run_evolves o w) Hs)
      as (s' & Hs' & _ & Hsame).
    rewrite (Hsame Hj) in Hs'. exact Hs'. }
  pose proof (run_nextId o w) as Hn.
  assert (Hgoal : stored (run o w) i = Some s
                  /\ forall t, In t (timers (run o w)) ->
                               ds_id (d_val (taskDoc (tm_task t))) <> i).
  { destruct o as [u b | u j | u j b | u j | u | ms | h f].
    - split; [apply Hkeep; simpl; auto|].
      intros t Ht. destruct (initiate_timers u b w t Ht) as [Hin | E];
        [exact (Htm t Hin) | rewrite E; lia].
    - simpl.
      destruct (guarded_answers _ history_answers (request u j) w)
        as (r & w' & Hrun).
      destruct (history_answer u j w w' r Hrun) as (-> & _).
      rewrite Hrun. simpl. auto.
    - destruct (Nat.eq_dec j i) as [-> | Hne].
      + rewrite Hsend. auto.
      + split; [apply Hkeep; simpl; exact Hne|].
        intros t Ht. destruct (send_timers u j b w t Ht) as [Hin | E];
          [exact (Htm t Hin) | rewrite E; exact Hne].
    - destruct (Nat.eq_dec j i) as [-> | Hne].
      + rewrite Hclose. auto.
      + split; [apply Hkeep; simpl; exact Hne|].
        rewrite close_timers. exact Htm.
    - simpl. unfold withRole. destruct (isTrainerOrAdmin u); simpl; auto.
    - simpl. auto.
    - assert (Hno : ~ touchedBy (doFire h f) w i).
      { simpl. destruct (findTimer (timers w) h) as [t0|] eqn:Hf; [|auto].
        intro E. apply find_some in Hf. exact (Htm t0 (proj1 Hf) E). }
      split; [exact (Hkeep Hno)|].
      intros t Ht. simpl in Ht. exact (Htm t (fire_timers h f w t Ht)). }
  destruct Hgoal as [G1 G2].
  split; [exact G1|]. split; [exact Hty|]. split; [exact Hst|].
  split; [lia | exact G2].
Qed.

(** X22.  A finished trainer-type session is final.  When a trainer-type
    session is [resolved], [closed] or [cancelled] and no pending timer
    is for it, no sequence of steps of the chat (initiations, reads,
    sends, closes, the passing of time, callbacks) changes its stored
    record: every send and every close on it is refused, by whomever,
    and no other step touches it. *)
Theorem finished_trainer_session_is_final (steps : list Op) (w : World)
  (i : ObjectId) (s : DoubtSession) :
  settled w i s ->
  stored (runAll steps w) i = Some s
  /\ (forall u b,
        run (doSend u i b) (runAll steps w) = runAll steps w)
  /\ (forall u, run (doClose u i) (runAll steps w) = runAll steps w).
Proof.
  intro H.
  assert (Hall : settled (runAll steps w) i s).
  { revert w H. unfold runAll.
    induction steps as [|o steps IH]; intros w H; simpl; [exact H|].
    apply IH, settled_run, H. }
  split; [exact (proj1 Hall) | exact (settled_refuses _ i s Hall)].
Qed.

Lemma finished_trainer_session_is_final_witness :
  stored
    (runAll [doSend Sample.asRavi 100%nat (Sample.textOnly "Still there?");
             doInitiate Sample.asAsha Sample.askAi;
             doTick 5000;
             doFire 104%nat noFault;
             doClose Sample.asRavi 100%nat]
       Sample.closedByAsha) 100%nat
  = Some {| ds_id := 100%nat; ds_student := 1%nat; ds_trainer := Some 2%nat;
            ds_grade := 7; ds_school := 10%nat; ds_session := Some 21%nat;
            ds_initialDoubtText := "Why is the sky blue?";
            ds_doubtType := trainerDoubt; ds_status := closed;
            ds_lastMessageAt := 1000; ds_aiHelpful := None;
            ds_aiFeedbackText := None; ds_createdAt := 1000;
            ds_updatedAt := 1000 |}.
Proof.
  refine (proj1 (finished_trainer_session_is_final _ Sample.closedByAsha
                   100%nat _ _)).
  split; [reflexivity|]. split; [reflexivity|]. split; [reflexivity|].
  split; [vm_compute; lia|]. intros t [].
Defined.

